(** * OpenRouter inference statistics: extraction and reconciliation engine

    A shallow embedding of the pure core of the repository
    ([src/api.py], [src/scraper.py], [src/calculator.py], and the
    helpers of [main.py] and [src/readme_gen.py] that touch no file),
    the properties its specification states about it, and further
    properties of the code.

    Modelling conventions.
    - Python [str] values are Stdlib strings of 8-bit characters, that is
      the code points below 256.  On that range the regular-expression
      class [\d] is exactly ['0'..'9'].
    - The regular expressions of the scrapers are written as matchers
      that return the captured groups and the text left after the match.
      Each of them is deterministic: wherever a pattern repeats a
      character class, the class excludes the character the pattern
      requires next, so the backtracking of [re] has nothing to revisit.
    - Python [int] is [Z]; Python [float] is an IEEE 754 binary64 value,
      represented by [spec_float] with precision 53 and maximal exponent
      1024, and computed with the round-to-nearest-even operations of
      [SpecFloat].
    - A function that can raise returns [option]; [None] is the raised
      exception.
    - A [dict] whose iteration order is observable is an association list
      with unique keys in insertion order; the other dicts are [gmap]s.
    - The current UTC date, which the code reads from the clock, is an
      explicit argument.  [Pages.sum_daily_window] is the window sum as
      the code has it, on date strings; [Scraper.sum_daily_window] is the
      same computation on day numbers, a calendar date being its day
      number, which is what the code computes for an end date spelled as
      [strftime] spells it and a window within the calendar
      ([sum_daily_window_by_day_number]).
    - [sorted] and [list.sort] are stable insertion sorts; on keys that
      are totally ordered every stable sort gives the same list.
    - Where the code handles a date as a string, [strptime] and
      [strftime] for the format [%Y-%m-%d] are parameters of the model,
      as [float] is; [Calendar] gives them for the examples.
    - What BeautifulSoup finds in a page, the response to a request and
      the existence of a file are inputs of the functions that use them.
    - Logging calls are left out. *)

From Stdlib Require Import ZArith List Bool Ascii String Sorted Permutation.
From Stdlib Require Import Floats.SpecFloat.
From stdpp Require Import base option list gmap strings fin_maps fin_sets.

Local Open Scope string_scope.
Local Open Scope Z_scope.
Local Open Scope list_scope.

(* ===================================================================== *)
(** * Python floats *)
(* ===================================================================== *)

Module PyFloat.

Definition prec : Z := 53.
Definition emax : Z := 1024.

Definition float : Type := spec_float.

(** The literal [0.0]. *)
Definition zero : float := S754_zero false.

Definition add : float -> float -> float := SFadd prec emax.
Definition mul : float -> float -> float := SFmul prec emax.

(** [x == y], [x < y] and [x > y] on floats. *)
Definition eqb : float -> float -> bool := SFeqb.
Definition ltb : float -> float -> bool := SFltb.
Definition gtb (x y : float) : bool := SFltb y x.

Definition is_nan (x : float) : bool :=
  match x with S754_nan => true | _ => false end.

(** Neither an infinity nor a NaN. *)
Definition is_finite (x : float) : bool :=
  match x with
  | S754_zero _ | S754_finite _ _ _ => true
  | S754_infinity _ | S754_nan => false
  end.

(** The comparison of two finite floats of one sign: by exponent, then
    by mantissa. *)
Definition lex_compare (e1 : Z) (m1 : positive) (e2 : Z) (m2 : positive)
  : comparison :=
  match e1 ?= e2 with
  | Lt => Lt
  | Gt => Gt
  | Eq => Pos.compare_cont Eq m1 m2
  end.

(** The float nearest to the rational [a / b] (ties to even), for
    [b <> 0]; the sign of a zero quotient follows the signs of [a] and
    [b] as in Python.  A quotient beyond the largest float is an
    infinity here. *)
Definition nearest (a b : Z) : float :=
  match a, b with
  | _, Z0 => S754_nan
  | Z0, Zpos _ => S754_zero false
  | Z0, Zneg _ => S754_zero true
  | Zpos p, Zpos q =>
      SFdiv prec emax (S754_finite false p 0) (S754_finite false q 0)
  | Zpos p, Zneg q =>
      SFdiv prec emax (S754_finite false p 0) (S754_finite true q 0)
  | Zneg p, Zpos q =>
      SFdiv prec emax (S754_finite true p 0) (S754_finite false q 0)
  | Zneg p, Zneg q =>
      SFdiv prec emax (S754_finite true p 0) (S754_finite true q 0)
  end.

Definition finite_or_raise (x : float) : option float :=
  match x with
  | S754_infinity _ => None
  | _ => Some x
  end.

(** [float(i)] for an [int]: correctly rounded, [OverflowError] when
    the integer is too large. *)
Definition of_int (i : Z) : option float :=
  finite_or_raise (binary_normalize prec emax i 0 false).

(** [a / b] on two [int]s (true division): [ZeroDivisionError] for
    [b = 0], [OverflowError] for a quotient too large. *)
Definition int_true_div (a b : Z) : option float :=
  if decide (b = 0) then None else finite_or_raise (nearest a b).

(** [i * x] for an [int] and a [float]. *)
Definition int_mul (i : Z) (x : float) : option float :=
  f ← of_int i; Some (mul f x).

(** [int(x)]: truncation towards zero; raises on infinities and NaN. *)
Definition to_int (x : float) : option Z :=
  match x with
  | S754_zero _ => Some 0
  | S754_finite s m e =>
      let a := Z.shiftl (Zpos m) e in
      Some (if s then - a else a)
  | S754_infinity _ | S754_nan => None
  end.

(** [round(x, ndigits)] for [ndigits >= 0]: the exact value of [x] is
    rounded half-to-even to [ndigits] decimals and the decimal obtained
    is converted back to the nearest float. *)
Definition round (x : float) (ndigits : Z) : float :=
  match x with
  | S754_finite s m e =>
      let scale := 10 ^ ndigits in
      let num := if 0 <=? e then Zpos m * 2 ^ e * scale else Zpos m * scale in
      let den := if 0 <=? e then 1 else 2 ^ (- e) in
      let q := num / den in
      let r := num mod den in
      let n :=
        match 2 * r ?= den with
        | Lt => q
        | Gt => q + 1
        | Eq => if Z.even q then q else q + 1
        end in
      match n with
      | Zpos p =>
          SFdiv prec emax (S754_finite s p 0)
                          (S754_finite false (Z.to_pos scale) 0)
      | _ => S754_zero s
      end
  | _ => x
  end.

End PyFloat.

(* ===================================================================== *)
(** * Strings and the regular expressions of the scrapers *)
(* ===================================================================== *)

Module Text.

(** The double-quote and backslash characters, and the strings made of
    one of them. *)
Definition dquote : ascii := ascii_of_nat 34.
Definition backslash : ascii := ascii_of_nat 92.
Definition newline : ascii := ascii_of_nat 10.
Definition DQ : string := String dquote EmptyString.
Definition BS : string := String backslash EmptyString.

Definition is_digit (c : ascii) : bool :=
  let n := N_of_ascii c in ((48 <=? n) && (n <=? 57))%N.

Definition not_char (a : ascii) (c : ascii) : bool := negb (Ascii.eqb c a).

(** [s] without its prefix [p], when it starts with [p]. *)
Fixpoint strip_prefix (p s : string) : option string :=
  match p with
  | EmptyString => Some s
  | String a p' =>
      match s with
      | String b s' => if Ascii.eqb a b then strip_prefix p' s' else None
      | EmptyString => None
      end
  end.

Definition startswith (s p : string) : bool :=
  if strip_prefix p s is Some _ then true else false.

(** A greedy character-class repetition [[...]*]: the longest prefix of
    [s] whose characters satisfy [P], and what follows it. *)
Fixpoint span (P : ascii -> bool) (s : string) : string * string :=
  match s with
  | String c s' =>
      if P c then let '(a, b) := span P s' in (String c a, b)
      else (EmptyString, s)
  | EmptyString => (EmptyString, EmptyString)
  end.

(** [[...]+]: the same, with at least one character. *)
Definition span1 (P : ascii -> bool) (s : string) : option (string * string) :=
  match span P s with
  | (EmptyString, _) => None
  | r => Some r
  end.

(** [\d{n}]. *)
Fixpoint digits_exact (n : nat) (s : string) : option (string * string) :=
  match n with
  | O => Some (EmptyString, s)
  | S n' =>
      match s with
      | String c s' =>
          if is_digit c then
            '(a, b) ← digits_exact n' s'; Some (String c a, b)
          else None
      | EmptyString => None
      end
  end.

(** [(\d{4}-\d{2}-\d{2})]: the date matched and what follows it. *)
Definition iso_date (s : string) : option (string * string) :=
  '(y, s1) ← digits_exact 4 s;
  s2 ← strip_prefix "-" s1;
  '(m, s3) ← digits_exact 2 s2;
  s4 ← strip_prefix "-" s3;
  '(d, s5) ← digits_exact 2 s4;
  Some (y +:+ "-" +:+ m +:+ "-" +:+ d, s5).

(** The first occurrence of [p] in [s]: the text before it and the text
    after it.  This is what a lazy [.*?] followed by the literal [p]
    matches under DOTALL. *)
Fixpoint find_sub (p s : string) : option (string * string) :=
  match strip_prefix p s with
  | Some rest => Some (EmptyString, rest)
  | None =>
      match s with
      | String c s' => '(a, b) ← find_sub p s'; Some (String c a, b)
      | EmptyString => None
      end
  end.

(** [re.findall] / [re.finditer]: the matcher [m] is tried at each
    position from left to right; after a match the scan resumes where
    the match ended.  [m s] returns the captured value and the text
    left after the match, and every pattern here consumes at least one
    character; [skip] counts the characters of the current match still
    to be passed over. *)
Fixpoint scan {A} (m : string -> option (A * string)) (skip : nat)
    (s : string) : list A :=
  match s with
  | EmptyString => []
  | String _ s' =>
      match skip with
      | S k => scan m k s'
      | O =>
          match m s with
          | Some (a, rest) =>
              a :: scan m (String.length s - String.length rest - 1) s'
          | None => scan m 0 s'
          end
      end
  end.

Definition findall {A} (m : string -> option (A * string)) (s : string)
  : list A := scan m 0 s.

(** [s.replace(old, new)] for a non-empty [old]. *)
Fixpoint replace_from (old new : string) (skip : nat) (s : string) : string :=
  match s with
  | EmptyString => EmptyString
  | String c s' =>
      match skip with
      | S k => replace_from old new k s'
      | O =>
          if startswith s old
          then new +:+ replace_from old new (String.length old - 1) s'
          else String c (replace_from old new 0 s')
      end
  end.

Definition replace (old new s : string) : string := replace_from old new 0 s.

(** [c in s] for a character [c]. *)
Fixpoint contains_char (c : ascii) (s : string) : bool :=
  match s with
  | EmptyString => false
  | String b s' => Ascii.eqb b c || contains_char c s'
  end.

(** [s[:n]]. *)
Definition take (n : nat) (s : string) : string := substring 0 n s.

(** [int(s)] on a match of [\d+] (the limit the interpreter may put on
    the length of such a string is not modelled). *)
Definition digit_value (c : ascii) : Z := Z.of_N (N_of_ascii c - 48).

Fixpoint int_of_digits_from (acc : Z) (s : string) : Z :=
  match s with
  | EmptyString => acc
  | String c s' => int_of_digits_from (10 * acc + digit_value c) s'
  end.

Definition int_of_digits (s : string) : Z := int_of_digits_from 0 s.

(** [float(s)] on a match of [\d+], optionally followed by [.] and
    [\d+]: the float nearest to the decimal written. *)
Definition float_of_decimal (s : string) : PyFloat.float :=
  let '(ip, r) := span is_digit s in
  match r with
  | String "." fp =>
      PyFloat.nearest (int_of_digits (ip +:+ fp))
                      (10 ^ Z.of_nat (String.length fp))
  | _ => PyFloat.nearest (int_of_digits ip) 1
  end.

(** Every character of [s] satisfies [P]. *)
Fixpoint all_chars (P : ascii -> bool) (s : string) : bool :=
  match s with
  | EmptyString => true
  | String c s' => P c && all_chars P s'
  end.

(** A match of [\d+]. *)
Definition is_digits (s : string) : bool :=
  all_chars is_digit s && negb (String.eqb s EmptyString).

(** A match of [\d{4}-\d{2}-\d{2}]: the three digit strings it is made
    of. *)
Definition iso_shaped (s y m d : string) : Prop :=
  s = y +:+ "-" +:+ m +:+ "-" +:+ d
  ∧ String.length y = 4%nat ∧ String.length m = 2%nat
  ∧ String.length d = 2%nat
  ∧ all_chars is_digit y = true ∧ all_chars is_digit m = true
  ∧ all_chars is_digit d = true.

(** The number [yyyymmdd] of a date, read off its digits: dates are in
    chronological order when these numbers are in ascending order. *)
Fixpoint date_number_from (acc : Z) (s : string) : Z :=
  match s with
  | EmptyString => acc
  | String c s' =>
      if is_digit c then date_number_from (10 * acc + digit_value c) s'
      else date_number_from acc s'
  end.

Definition date_number (s : string) : Z := date_number_from 0 s.

(** Test texts are written with ['] where the page has a double quote. *)
Definition quoted (s : string) : string := replace "'" DQ s.

End Text.

(* ===================================================================== *)
(** * src/scraper.py *)
(* ===================================================================== *)

Module Scraper.
Import Text.

(** ** The weekly chart of the rankings page *)

Record WeeklyChartEntry := {
  week_start : string;
  models : gmap string Z;
  others : Z;
  total : Z;
}.

(** The script pattern under DOTALL: [<script] , the longest run of
    characters other than [>] , [>] , a lazily matched captured body,
    [</script>].  The run stops at the first [>], which the pattern
    then requires, and the lazy body ends at the first closing tag. *)
Definition script_tag (s : string) : option (string * string) :=
  s1 ← strip_prefix "<script" s;
  s2 ← strip_prefix ">" (span (not_char ">") s1).2;
  find_sub "</script>" s2.

(** The two [replace] calls: backslash-quote becomes a quote, then a
    doubled backslash becomes one backslash. *)
Definition unescape (script : string) : string :=
  replace (BS +:+ BS) BS (replace (BS +:+ DQ) DQ script).

(** The marker pattern (['] standing for the double quote):
    ['x':'] , a captured [\d{4}-\d{2}-\d{2}] , an optional run of
    characters other than ['] , then [','ys':{].  The run cannot
    contain the quote the pattern requires next, so it is the longest
    one.  The match yields the date and the text from [m.end() - 1],
    the opening brace, onwards; the scan itself resumes after the
    brace. *)
Definition chart_marker (s : string) : option ((string * string) * string) :=
  s1 ← strip_prefix (DQ +:+ "x" +:+ DQ +:+ ":" +:+ DQ) s;
  '(date_str, s2) ← iso_date s1;
  s3 ← strip_prefix (DQ +:+ "," +:+ DQ +:+ "ys" +:+ DQ +:+ ":{")
                    (span (not_char dquote) s2).2;
  Some ((date_str, String "{" s3), s3).

(** The depth-counting loop over [range(brace_start, min(brace_start +
    10000, len(unescaped)))]: [fuel] bounds the characters visited, [j]
    is the offset from [brace_start]; the result is the offset of the
    brace that brings the depth back to 0, if the loop breaks. *)
Fixpoint brace_scan (fuel : nat) (depth : Z) (j : nat) (s : string)
  : option nat :=
  match fuel, s with
  | S fuel', String c s' =>
      if Ascii.eqb c "{" then brace_scan fuel' (depth + 1) (S j) s'
      else if Ascii.eqb c "}" then
        if decide (depth - 1 = 0) then Some j
        else brace_scan fuel' (depth - 1) (S j) s'
      else brace_scan fuel' depth (S j) s'
  | _, _ => None
  end.

(** [unescaped[brace_start:brace_end + 1]], where [brace_end] stays at
    [brace_start] when the loop does not break. *)
Definition ys_str (from_brace : string) : string :=
  take (S (default 0%nat (brace_scan (Z.to_nat 10000) 0 0 from_brace))) from_brace.

(** The pair pattern (['] standing for the double quote): ['] , a
    captured non-empty run of characters other than ['] , [':] , and a
    captured [\d+] optionally followed by [.] and [\d+]. *)
Definition pair_pattern (s : string) : option ((string * string) * string) :=
  s1 ← strip_prefix DQ s;
  '(slug, s2) ← span1 (not_char dquote) s1;
  s3 ← strip_prefix (DQ +:+ ":") s2;
  '(ip, s4) ← span1 is_digit s3;
  match s4 with
  | String "." s5 =>
      match span1 is_digit s5 with
      | Some (fp, s6) => Some ((slug, ip +:+ "." +:+ fp), s6)
      | None => Some ((slug, ip), s4)
      end
  | _ => Some ((slug, ip), s4)
  end.

(** [int(float(tokens_str))]. *)
Definition tokens_of (tokens_str : string) : option Z :=
  PyFloat.to_int (float_of_decimal tokens_str).

(** The loop over [pairs] that fills [models], [others] and [total]. *)
Definition add_pair (acc : gmap string Z * Z * Z) (p : string * string)
  : option (gmap string Z * Z * Z) :=
  let '(models, others, total) := acc in
  tokens ← tokens_of p.2;
  if String.eqb p.1 "Others"
  then Some (models, tokens, total + tokens)
  else Some (<[p.1 := tokens]> models, others, total + tokens).

Fixpoint add_pairs (acc : gmap string Z * Z * Z) (pairs : list (string * string))
  : option (gmap string Z * Z * Z) :=
  match pairs with
  | [] => Some acc
  | p :: pairs' => acc' ← add_pair acc p; add_pairs acc' pairs'
  end.

Definition build_entry (date_str : string) (pairs : list (string * string))
  : option WeeklyChartEntry :=
  '(models, others, total) ← add_pairs (∅, 0, 0) pairs;
  Some {| week_start := date_str; models := models;
          others := others; total := total |}.

Definition has_model_slugs (pairs : list (string * string)) : bool :=
  existsb (fun p => contains_char "/" p.1) pairs.

Definition pairs_of (from_brace : string) : list (string * string) :=
  findall pair_pattern (ys_str from_brace).

(** The body of the loop over the marker matches of one script. *)
Fixpoint collect_entries (matches : list (string * string))
  : option (list WeeklyChartEntry) :=
  match matches with
  | [] => Some []
  | (date_str, from_brace) :: matches' =>
      let pairs := pairs_of from_brace in
      if bool_decide (pairs = []) then collect_entries matches'
      else if negb (has_model_slugs pairs) then collect_entries matches'
      else
        e ← build_entry date_str pairs;
        es ← collect_entries matches';
        Some (e :: es)
  end.

Definition script_entries (script : string) : option (list WeeklyChartEntry) :=
  collect_entries (findall chart_marker (unescape script)).

(** The loop over [script_tags], threading [best_entries]. *)
Fixpoint select_best (best_entries : list WeeklyChartEntry)
    (script_tags : list string) : option (list WeeklyChartEntry) :=
  match script_tags with
  | [] => Some best_entries
  | script :: script_tags' =>
      if (String.length script <? 1000)%nat
      then select_best best_entries script_tags'
      else
        entries ← script_entries script;
        select_best
          (if (length best_entries <? length entries)%nat
           then entries else best_entries)
          script_tags'
  end.

(** [sorted(best_entries, key=lambda x: x["week_start"])]: a stable
    sort by key, written as a stable insertion sort. *)
Fixpoint insert_by_week (e : WeeklyChartEntry) (l : list WeeklyChartEntry)
  : list WeeklyChartEntry :=
  match l with
  | [] => [e]
  | y :: l' =>
      if String.ltb (week_start y) (week_start e)
      then y :: insert_by_week e l'
      else e :: l
  end.

Definition sorted_by_week (l : list WeeklyChartEntry) : list WeeklyChartEntry :=
  foldr insert_by_week [] l.

Definition scrape_rankings_history (html : string)
  : option (list WeeklyChartEntry) :=
  best_entries ← select_best [] (findall script_tag html);
  Some (sorted_by_week best_entries).

(** ** The daily analytics of a model page *)

Record DailyRecord := {
  prompt : Z;
  completion : Z;
  reasoning : Z;
  cached : Z;
  count : Z;
}.

(** [Q]: a backslash followed by a quote, or a quote. *)
Definition Q (s : string) : option string :=
  match strip_prefix (BS +:+ DQ) s with
  | Some r => Some r
  | None => strip_prefix DQ s
  end.

(** [Q name Q]. *)
Definition quoted_name (name : string) (s : string) : option string :=
  s1 ← Q s; s2 ← strip_prefix name s1; Q s2.

(** The class of the characters other than the quote and the
    backslash. *)
Definition plain_char (c : ascii) : bool :=
  not_char dquote c && not_char backslash c.

(** [Q date Q : Q (\d{4}-\d{2}-\d{2})], a run of plain characters,
    [Q ,]: the opening of both patterns.  The run stops where [Q] has
    to start. *)
Definition date_field (s : string) : option (string * string) :=
  s1 ← quoted_name "date" s;
  s2 ← strip_prefix ":" s1;
  s3 ← Q s2;
  '(date_str, s4) ← iso_date s3;
  s5 ← Q (span plain_char s4).2;
  s6 ← strip_prefix "," s5;
  Some (date_str, s6).

(** [Q name Q :(\d+)]. *)
Definition number_field (name : string) (s : string) : option (string * string) :=
  s1 ← quoted_name name s;
  s2 ← strip_prefix ":" s1;
  span1 is_digit s2.

(** [daily_pattern]; the groups are the date, the variant and the
    completion, prompt, reasoning and request counts. *)
Definition daily_pattern (s : string)
  : option ((string * string * string * string * string * string) * string) :=
  '(date_str, s1) ← date_field s;
  s2 ← quoted_name "model_permaslug" s1;
  s3 ← strip_prefix ":" s2;
  s4 ← Q s3;
  s5 ← Q (span plain_char s4).2;
  s6 ← strip_prefix "," s5;
  s7 ← quoted_name "variant" s6;
  s8 ← strip_prefix ":" s7;
  s9 ← Q s8;
  let '(variant, s10) := span plain_char s9 in
  s11 ← Q s10;
  s12 ← strip_prefix "," s11;
  '(comp, s13) ← number_field "total_completion_tokens" s12;
  s14 ← strip_prefix "," s13;
  '(prompt, s15) ← number_field "total_prompt_tokens" s14;
  s16 ← strip_prefix "," s15;
  '(reasoning, s17) ← number_field "total_native_tokens_reasoning" s16;
  s18 ← strip_prefix "," s17;
  '(count, s19) ← number_field "count" s18;
  Some ((date_str, variant, comp, prompt, reasoning, count), s19).

(** A lazy run of characters other than the newline, followed by the
    cached-tokens field: the field is tried at each position in turn,
    and passing over a character requires that it is not a newline. *)
Fixpoint lazy_cached_field (s : string) : option (string * string) :=
  match number_field "total_native_tokens_cached" s with
  | Some r => Some r
  | None =>
      match s with
      | String c s' =>
          if Ascii.eqb c newline then None else lazy_cached_field s'
      | EmptyString => None
      end
  end.

(** [cached_pattern]; the groups are the date and the cached count. *)
Definition cached_pattern (s : string) : option ((string * string) * string) :=
  '(date_str, s1) ← date_field s;
  s2 ← quoted_name "model_permaslug" s1;
  '(cached, s3) ← lazy_cached_field s2;
  Some ((date_str, cached), s3).

(** [cached_by_date[date_str] = cached_by_date.get(date_str, 0) +
    int(cached)]. *)
Definition add_cached (cached_by_date : gmap string Z) (e : string * string)
  : gmap string Z :=
  <[e.1 := default 0 (cached_by_date !! e.1) + int_of_digits e.2]>
    cached_by_date.

Definition zero_record : DailyRecord :=
  {| prompt := 0; completion := 0; reasoning := 0; cached := 0; count := 0 |}.

(** One round of the grouping loop. *)
Definition add_daily (daily_totals : gmap string DailyRecord)
    (e : string * string * string * string * string * string)
  : gmap string DailyRecord :=
  let '(date_str, variant, comp, prompt_str, reasoning_str, count_str) := e in
  let r := default zero_record (daily_totals !! date_str) in
  <[date_str :=
      {| prompt := prompt r + int_of_digits prompt_str;
         completion := completion r + int_of_digits comp;
         reasoning := reasoning r + int_of_digits reasoning_str;
         cached := cached r;
         count := count r + int_of_digits count_str |}]>
    daily_totals.

(** One round of the loop that merges the cached counts. *)
Definition merge_cached (date_str : string) (cached_val : Z)
    (daily_totals : gmap string DailyRecord) : gmap string DailyRecord :=
  match daily_totals !! date_str with
  | Some r =>
      <[date_str :=
          {| prompt := prompt r; completion := completion r;
             reasoning := reasoning r; cached := cached_val;
             count := count r |}]>
        daily_totals
  | None => daily_totals
  end.

Definition _extract_daily_data (html : string) : gmap string DailyRecord :=
  let daily_entries := findall daily_pattern html in
  if bool_decide (daily_entries = []) then ∅
  else
    let cached_entries := findall cached_pattern html in
    let cached_by_date := foldl add_cached ∅ cached_entries in
    let daily_totals := foldl add_daily ∅ daily_entries in
    map_fold merge_cached daily_totals cached_by_date.

(** ** The window sum *)

Record Activity := {
  prompt_tokens : Z;
  completion_tokens : Z;
  reasoning_tokens : Z;
  cached_tokens : Z;
  request_count : Z;
}.

Definition zero_activity : Activity :=
  {| prompt_tokens := 0; completion_tokens := 0; reasoning_tokens := 0;
     cached_tokens := 0; request_count := 0 |}.

(** The window sum on day numbers.  A calendar date is its day number:
    [strptime] and [strftime] with the format [%Y-%m-%d] translate
    between ISO dates and day numbers, and subtracting
    [timedelta(days=i)] subtracts [i].  This is the computation of
    [sum_daily_window] for an end date that is spelled as [strftime]
    spells it, so that the comparison of strings [end_date == today] is
    the comparison of the days, and for a window that stays within the
    calendar, so that nothing raises; [Pages.sum_daily_window] below is
    the function on date strings.  A computation that reads the clock
    takes the current UTC date from it. *)
Definition Clock (A : Type) : Type := Z -> A.
Definition utcnow : Clock Z := fun now => now.

(** The loop over [range(days)] that fills [dates_to_sum]. *)
Fixpoint candidate_dates (end_date today : Z) (skip_partial : bool)
    (range : list Z) : list Z :=
  match range with
  | [] => []
  | i :: range' =>
      let d := end_date - i in
      if skip_partial && bool_decide (d = today)
      then candidate_dates end_date today skip_partial range'
      else d :: candidate_dates end_date today skip_partial range'
  end.

Definition add_day (daily_data : gmap Z DailyRecord) (result : Activity)
    (d : Z) : Activity :=
  match daily_data !! d with
  | Some day =>
      {| prompt_tokens := prompt_tokens result + prompt day;
         completion_tokens := completion_tokens result + completion day;
         reasoning_tokens := reasoning_tokens result + reasoning day;
         cached_tokens := cached_tokens result + cached day;
         request_count := request_count result + count day |}
  | None => result
  end.

Definition dates_to_sum (end_date days : Z) (skip_partial : bool)
  : Clock (list Z) := fun now =>
  let today := utcnow now in
  let dates := candidate_dates end_date today skip_partial (seqZ 0 days) in
  if skip_partial && bool_decide (end_date = today)
     && bool_decide (Z.of_nat (length dates) < days)
  then dates ++ [end_date - days]
  else dates.

Definition sum_daily_window (daily_data : gmap Z DailyRecord)
    (end_date days : Z) (skip_partial : bool) : Clock Activity := fun now =>
  foldl (add_day daily_data) zero_activity
        (dates_to_sum end_date days skip_partial now).

End Scraper.

(* ===================================================================== *)
(** * Python dicts in insertion order *)
(* ===================================================================== *)

Module PyDict.

Definition dict (V : Type) : Type := list (string * V).

(** [d.get(k)]. *)
Fixpoint get {V} (k : string) (d : dict V) : option V :=
  match d with
  | [] => None
  | (k', v) :: d' => if String.eqb k' k then Some v else get k d'
  end.

(** [d[k] = v]: an existing key keeps its place, a new key goes last. *)
Fixpoint set {V} (k : string) (v : V) (d : dict V) : dict V :=
  match d with
  | [] => [(k, v)]
  | (k', v') :: d' =>
      if String.eqb k' k then (k, v) :: d' else (k', v') :: set k v d'
  end.

End PyDict.

(* ===================================================================== *)
(** * src/api.py *)
(* ===================================================================== *)

Module Api.
Import PyFloat.

(** One element of the [data] list of the models feed.  A missing
    [id], [canonical_slug] or [name] is the empty string the code
    defaults to; [pricing] holds the price fields present. *)
Record RawModel := {
  raw_id : string;
  raw_canonical_slug : string;
  raw_name : string;
  raw_pricing : gmap string string;
}.

Record PriceInfo := {
  id : string;
  name : string;
  prompt_price : float;
  completion_price : float;
  reasoning_price : float;
  image_price : float;
  web_search_price : float;
  cache_read_price : float;
  cache_write_price : float;
}.

Section Pricing.

(** The builtin [float] on a string; [None] when it raises
    [ValueError]. *)
Variable py_float : string -> option float.

Definition _parse_price (value : string) : float :=
  if bool_decide (value = EmptyString) then zero
  else default zero (py_float value).

(** [pricing.get(key, dflt)]. *)
Definition price_field (pricing : gmap string string) (key dflt : string)
  : string := default dflt (pricing !! key).

(** The body of the loop of [fetch_model_pricing] up to [entry]. *)
Definition price_entry (model : RawModel) : PriceInfo :=
  let pricing := raw_pricing model in
  let prompt_price := _parse_price (price_field pricing "prompt" "0") in
  let completion_price := _parse_price (price_field pricing "completion" "0") in
  let reasoning_price :=
    _parse_price (price_field pricing "internal_reasoning" "") in
  let image_price := _parse_price (price_field pricing "image" "0") in
  let web_search_price := _parse_price (price_field pricing "web_search" "0") in
  let cache_read_price :=
    _parse_price (price_field pricing "input_cache_read" "0") in
  let cache_write_price :=
    _parse_price (price_field pricing "input_cache_write" "0") in
  let reasoning_price :=
    if eqb reasoning_price zero then completion_price else reasoning_price in
  {| id := raw_id model; name := raw_name model;
     prompt_price := prompt_price; completion_price := completion_price;
     reasoning_price := reasoning_price; image_price := image_price;
     web_search_price := web_search_price;
     cache_read_price := cache_read_price;
     cache_write_price := cache_write_price |}.

Definition index_entry (pricing_map : PyDict.dict PriceInfo)
    (model : RawModel) : PyDict.dict PriceInfo :=
  let entry := price_entry model in
  let pricing_map :=
    if bool_decide (raw_canonical_slug model = EmptyString) then pricing_map
    else PyDict.set (raw_canonical_slug model) entry pricing_map in
  if bool_decide (raw_id model = EmptyString) then pricing_map
  else PyDict.set (raw_id model) entry pricing_map.

(** [fetch_model_pricing] on the decoded response [data]. *)
Definition fetch_model_pricing (data : list RawModel)
  : PyDict.dict PriceInfo := foldl index_entry [] data.

End Pricing.

(** [float] restricted to the plain decimals [\d+] and [\d+.\d+], on
    which it is the nearest float. *)
Definition decimal_float (s : string) : option float :=
  let '(ip, r) := Text.span Text.is_digit s in
  match ip, r with
  | EmptyString, _ => None
  | _, EmptyString => Some (Text.float_of_decimal s)
  | _, String "." fp =>
      match Text.span Text.is_digit fp with
      | (String _ _, EmptyString) => Some (Text.float_of_decimal s)
      | _ => None
      end
  | _, _ => None
  end.

End Api.

(* ===================================================================== *)
(** * src/calculator.py *)
(* ===================================================================== *)

Module RankedModel.
Record t := {
  rank : Z;
  slug : string;
  name : string;
  total_tokens : Z;
  percent_change : Z;
}.
End RankedModel.

Module RevenueRecord.
Record t := {
  rank : Z;
  slug : string;
  name : string;
  total_tokens : Z;
  percent_change : Z;
  prompt_tokens : Z;
  completion_tokens : Z;
  reasoning_tokens : Z;
  cached_tokens : Z;
  request_count : Z;
  prompt_ratio : PyFloat.float;
  completion_ratio : PyFloat.float;
  reasoning_ratio : PyFloat.float;
  prompt_price : PyFloat.float;
  completion_price : PyFloat.float;
  reasoning_price : PyFloat.float;
  cache_read_price : PyFloat.float;
  estimated_revenue : PyFloat.float;
  is_free : bool;
}.
End RevenueRecord.

Module TokenBreakdown.
Record t := {
  prompt_tokens : Z;
  completion_tokens : Z;
  reasoning_tokens : Z;
  cached_tokens : Z;
}.
End TokenBreakdown.

Module RevenueReport.
Record t := {
  models : list RevenueRecord.t;
  total_revenue : PyFloat.float;
  total_tokens : Z;
  total_models : Z;
  paid_models : Z;
  free_models : Z;
  token_breakdown : TokenBreakdown.t;
}.
End RevenueReport.

Module Calculator.
Import PyFloat.

(** [s.lower()] on code points below 256. *)
Definition lower_char (c : ascii) : ascii :=
  let n := N_of_ascii c in
  if (((65 <=? n) && (n <=? 90))
      || ((192 <=? n) && (n <=? 222) && negb (n =? 215)))%N
  then ascii_of_N (n + 32) else c.

Fixpoint lower (s : string) : string :=
  match s with
  | EmptyString => EmptyString
  | String c s' => String (lower_char c) (lower s')
  end.

(** The whitespace of [s.split()] on code points below 256. *)
Definition is_space (c : ascii) : bool :=
  let n := N_of_ascii c in
  (((9 <=? n) && (n <=? 13)) || ((28 <=? n) && (n <=? 32))
   || (n =? 133) || (n =? 160))%N.

(** [s.split()]: the maximal runs of characters that are not
    whitespace; [cur] is the run being read, if any. *)
Fixpoint split_from (cur : option string) (s : string) : list string :=
  match s with
  | EmptyString => match cur with Some w => [w] | None => [] end
  | String c s' =>
      if is_space c then
        match cur with
        | Some w => w :: split_from None s'
        | None => split_from None s'
        end
      else
        split_from (Some (default EmptyString cur +:+ String c EmptyString)) s'
  end.

Definition split (s : string) : list string := split_from None s.

(** [s.split(sep)[0]] for a one-character [sep]. *)
Definition split_head (sep : ascii) (s : string) : string :=
  (Text.span (Text.not_char sep) s).1.

Definition slug_parts (a : string) : gset string :=
  list_to_set (split (Text.replace "." " " (Text.replace "-" " " (lower a)))).

(** The literal [0.7]. *)
Definition threshold : float := nearest 7 10.

(** The quotient of the two sizes is at most 1, so the division does
    not raise. *)
Definition _slug_similarity (a b : string) : float :=
  let a_parts := slug_parts a in
  let b_parts := slug_parts b in
  if bool_decide (a_parts = ∅) || bool_decide (b_parts = ∅) then zero
  else
    let intersection := a_parts ∩ b_parts in
    let union := a_parts ∪ b_parts in
    nearest (Z.of_nat (size intersection)) (Z.of_nat (size union)).

Definition _find_pricing (slug : string) (pricing : PyDict.dict Api.PriceInfo)
  : option Api.PriceInfo :=
  match PyDict.get slug pricing with
  | Some v => Some v
  | None =>
      let base_slug := split_head ":" slug in
      match PyDict.get base_slug pricing with
      | Some v => Some v
      | None =>
          snd <$>
            List.find
              (fun kv =>
                 Text.startswith kv.1 (split_head "/" slug +:+ "/")
                 && gtb (_slug_similarity slug kv.1) threshold)
              pricing
      end
  end.

(** The variables the loop of [calculate_revenue] updates. *)
Record LoopState := {
  models_result : list RevenueRecord.t;
  total_revenue : float;
  total_tokens : Z;
  paid_count : Z;
  free_count : Z;
  agg_prompt : Z;
  agg_completion : Z;
  agg_reasoning : Z;
  agg_cached : Z;
}.

Definition initial_state : LoopState :=
  {| models_result := []; total_revenue := zero; total_tokens := 0;
     paid_count := 0; free_count := 0; agg_prompt := 0;
     agg_completion := 0; agg_reasoning := 0; agg_cached := 0 |}.

(** The three ratios of one model. *)
Definition ratios (prompt_tokens completion_tokens reasoning_tokens : Z)
  : option (float * float * float) :=
  let analytics_total := prompt_tokens + completion_tokens in
  if bool_decide (analytics_total > 0) then
    prompt_ratio ← int_true_div prompt_tokens analytics_total;
    completion_ratio ← int_true_div completion_tokens analytics_total;
    reasoning_ratio ← int_true_div reasoning_tokens analytics_total;
    Some (prompt_ratio, completion_ratio, reasoning_ratio)
  else Some (zero, zero, zero).

(** [prompt_tokens * prompt_price + completion_tokens *
    completion_price + cached_tokens * cache_read_price]. *)
Definition revenue_of (prompt_tokens completion_tokens cached_tokens : Z)
    (prompt_price completion_price cache_read_price : float) : option float :=
  a ← int_mul prompt_tokens prompt_price;
  b ← int_mul completion_tokens completion_price;
  c ← int_mul cached_tokens cache_read_price;
  Some (add (add a b) c).

(** One round of the loop over [rankings]. *)
Definition process_model (activities : gmap string Scraper.Activity)
    (pricing : PyDict.dict Api.PriceInfo) (st : LoopState)
    (model : RankedModel.t) : option LoopState :=
  let slug := RankedModel.slug model in
  let ranking_total := RankedModel.total_tokens model in
  let activity := default Scraper.zero_activity (activities !! slug) in
  let prompt_tokens := Scraper.prompt_tokens activity in
  let completion_tokens := Scraper.completion_tokens activity in
  let reasoning_tokens := Scraper.reasoning_tokens activity in
  let cached_tokens := Scraper.cached_tokens activity in
  '(prompt_ratio, completion_ratio, reasoning_ratio) ←
    ratios prompt_tokens completion_tokens reasoning_tokens;
  let price_info := _find_pricing slug pricing in
  let prompt_price := from_option Api.prompt_price zero price_info in
  let completion_price := from_option Api.completion_price zero price_info in
  let reasoning_price := from_option Api.reasoning_price zero price_info in
  let cache_read_price := from_option Api.cache_read_price zero price_info in
  let is_free := eqb prompt_price zero && eqb completion_price zero in
  revenue ← revenue_of prompt_tokens completion_tokens cached_tokens
                       prompt_price completion_price cache_read_price;
  Some
    {| models_result :=
         models_result st ++
         [ {| RevenueRecord.rank := RankedModel.rank model;
              RevenueRecord.slug := slug;
              RevenueRecord.name := RankedModel.name model;
              RevenueRecord.total_tokens := ranking_total;
              RevenueRecord.percent_change := RankedModel.percent_change model;
              RevenueRecord.prompt_tokens := prompt_tokens;
              RevenueRecord.completion_tokens := completion_tokens;
              RevenueRecord.reasoning_tokens := reasoning_tokens;
              RevenueRecord.cached_tokens := cached_tokens;
              RevenueRecord.request_count := Scraper.request_count activity;
              RevenueRecord.prompt_ratio := round prompt_ratio 4;
              RevenueRecord.completion_ratio := round completion_ratio 4;
              RevenueRecord.reasoning_ratio := round reasoning_ratio 4;
              RevenueRecord.prompt_price := prompt_price;
              RevenueRecord.completion_price := completion_price;
              RevenueRecord.reasoning_price := reasoning_price;
              RevenueRecord.cache_read_price := cache_read_price;
              RevenueRecord.estimated_revenue := round revenue 2;
              RevenueRecord.is_free := is_free |} ];
       total_revenue := add (total_revenue st) revenue;
       total_tokens := total_tokens st + ranking_total;
       paid_count := if is_free then paid_count st else paid_count st + 1;
       free_count := if is_free then free_count st + 1 else free_count st;
       agg_prompt := agg_prompt st + prompt_tokens;
       agg_completion := agg_completion st + completion_tokens;
       agg_reasoning := agg_reasoning st + reasoning_tokens;
       agg_cached := agg_cached st + cached_tokens |}.

Fixpoint process_models (activities : gmap string Scraper.Activity)
    (pricing : PyDict.dict Api.PriceInfo) (st : LoopState)
    (rankings : list RankedModel.t) : option LoopState :=
  match rankings with
  | [] => Some st
  | model :: rankings' =>
      st' ← process_model activities pricing st model;
      process_models activities pricing st' rankings'
  end.

(** [models_result.sort(key=lambda x: x["estimated_revenue"],
    reverse=True)]: a stable sort, descending by key, written as a
    stable insertion sort.  The order Python produces is the one
    below whenever no key is a NaN. *)
Fixpoint insert_by_revenue (x : RevenueRecord.t) (l : list RevenueRecord.t)
  : list RevenueRecord.t :=
  match l with
  | [] => [x]
  | y :: l' =>
      if ltb (RevenueRecord.estimated_revenue x)
             (RevenueRecord.estimated_revenue y)
      then y :: insert_by_revenue x l'
      else x :: l
  end.

Definition sort_by_revenue (l : list RevenueRecord.t) : list RevenueRecord.t :=
  foldr insert_by_revenue [] l.

Definition calculate_revenue (rankings : list RankedModel.t)
    (activities : gmap string Scraper.Activity)
    (pricing : PyDict.dict Api.PriceInfo) : option RevenueReport.t :=
  st ← process_models activities pricing initial_state rankings;
  let models_result := sort_by_revenue (models_result st) in
  Some
    {| RevenueReport.models := models_result;
       RevenueReport.total_revenue := round (total_revenue st) 2;
       RevenueReport.total_tokens := total_tokens st;
       RevenueReport.total_models := Z.of_nat (length models_result);
       RevenueReport.paid_models := paid_count st;
       RevenueReport.free_models := free_count st;
       RevenueReport.token_breakdown :=
         {| TokenBreakdown.prompt_tokens := agg_prompt st;
            TokenBreakdown.completion_tokens := agg_completion st;
            TokenBreakdown.reasoning_tokens := agg_reasoning st;
            TokenBreakdown.cached_tokens := agg_cached st |} |}.

End Calculator.

(* ===================================================================== *)
(** * src/scraper.py: token counts, the leaderboard and the model pages *)
(* ===================================================================== *)

Module Pages.
Import Text PyFloat.

(** ** Token counts *)

(** [s.strip()]: [s] without its leading and its trailing whitespace. *)
Fixpoint lstrip (s : string) : string :=
  match s with
  | String c s' => if Calculator.is_space c then lstrip s' else s
  | EmptyString => EmptyString
  end.

Fixpoint rstrip (s : string) : string :=
  match s with
  | EmptyString => EmptyString
  | String c s' =>
      match rstrip s' with
      | EmptyString =>
          if Calculator.is_space c then EmptyString else String c EmptyString
      | r => String c r
      end
  end.

Definition strip (s : string) : string := rstrip (lstrip s).

(** The class of the digits and the dot. *)
Definition number_char (c : ascii) : bool := is_digit c || Ascii.eqb c ".".

(** [c.upper()] for an ASCII character. *)
Definition upper_char (c : ascii) : ascii :=
  let n := N_of_ascii c in
  if ((97 <=? n) && (n <=? 122))%N then ascii_of_N (n - 32) else c.

(** The class of the letters T, G, B, M and K under IGNORECASE. *)
Definition unit_char (c : ascii) : bool :=
  existsb (Ascii.eqb (upper_char c)) ["T"; "G"; "B"; "M"; "K"]%char.

(** The pattern of [parse_token_count], matched at the start of the text
    under IGNORECASE: a captured non-empty run of digits and dots, a run
    of whitespace, an optional captured unit letter, and the end of the
    text, which is also found before a last newline.  No class contains
    a character the pattern requires next, so nothing is revisited.  The
    groups are the number and the unit, empty when there is none. *)
Definition token_pattern (text : string) : option (string * string) :=
  '(number, s1) ← span1 number_char text;
  match (span Calculator.is_space s1).2 with
  | EmptyString => Some (number, EmptyString)
  | String c s3 =>
      if unit_char c
         && (String.eqb s3 EmptyString
             || String.eqb s3 (String newline EmptyString))
      then Some (number, String c EmptyString)
      else None
  end.

(** [float(s)] on a run of digits and dots: the nearest float when the
    run has at most one dot and at least one digit, [ValueError]
    otherwise. *)
Definition float_of_number (s : string) : option float :=
  let '(ip, r) := span is_digit s in
  match r with
  | EmptyString =>
      if String.eqb ip EmptyString then None
      else Some (nearest (int_of_digits ip) 1)
  | String c fp =>
      if Ascii.eqb c "." && all_chars is_digit fp
         && negb (String.eqb ip EmptyString && String.eqb fp EmptyString)
      then Some (nearest (int_of_digits (ip +:+ fp))
                         (10 ^ Z.of_nat (String.length fp)))
      else None
  end.

(** [suffix.upper()] on a unit. *)
Fixpoint upper (s : string) : string :=
  match s with
  | EmptyString => EmptyString
  | String c s' => String (upper_char c) (upper s')
  end.

(** [multipliers.get(suffix, 1)]. *)
Definition multipliers (suffix : string) : Z :=
  if String.eqb suffix "T" then 1000000000000
  else if String.eqb suffix "B" then 1000000000
  else if String.eqb suffix "M" then 1000000
  else if String.eqb suffix "K" then 1000
  else 1.

Definition parse_token_count (text : string) : option Z :=
  let text := replace "," EmptyString (strip text) in
  match token_pattern text with
  | None => Some 0
  | Some (number_str, unit_str) =>
      number ← float_of_number number_str;
      let suffix := upper unit_str in
      multiplier ← of_int (multipliers suffix);
      to_int (mul number multiplier)
  end.

(** ** The leaderboard *)

(** What BeautifulSoup finds in a grid row.  [model_link] is the first
    link whose class matches [text-foreground], with its [href]
    attribute, if it has one, and its stripped text.  [token_col] is the
    first [div] whose class matches [col-span-4], with its stripped text
    and, if it contains an [svg], the class list of the first one (empty
    when that has no class). *)
Record ModelLink := {
  href : option string;
  link_text : string;
}.

Record TokenCol := {
  col_text : string;
  svg : option (list string);
}.

Record GridRow := {
  model_link : option ModelLink;
  token_col : option TokenCol;
}.

Definition NAV_PREFIXES : list string :=
  ["docs/"; "chat/"; "settings/"; "compare/"; "apps"; "models"; "rankings";
   "enterprise"; "pricing"].

(** [s.lstrip(c)] for a character [c]. *)
Fixpoint lstrip_char (c : ascii) (s : string) : string :=
  match s with
  | String b s' => if Ascii.eqb b c then lstrip_char c s' else s
  | EmptyString => EmptyString
  end.

(** [slug.startswith(NAV_PREFIXES)]. *)
Definition is_nav (slug : string) : bool :=
  existsb (startswith slug) NAV_PREFIXES.

(** A literal in lower case matched under IGNORECASE. *)
Fixpoint strip_prefix_ignorecase (p s : string) : option string :=
  match p with
  | EmptyString => Some s
  | String a p' =>
      match s with
      | String b s' =>
          if Ascii.eqb a (Calculator.lower_char b)
          then strip_prefix_ignorecase p' s' else None
      | EmptyString => None
      end
  end.

(** The pattern of the token column, matched at the start of the text
    under IGNORECASE: a captured non-empty run of digits and dots, a
    captured unit letter, and the word [tokens]. *)
Definition token_match (col_text : string) : option (string * string) :=
  '(number, s1) ← span1 number_char col_text;
  match s1 with
  | String c s2 =>
      if unit_char c
      then _ ← strip_prefix_ignorecase "tokens" s2;
           Some (number, String c EmptyString)
      else None
  | EmptyString => None
  end.

(** [re.search]: the match of [m] at the first position that has one. *)
Fixpoint search {A} (m : string -> option A) (s : string) : option A :=
  match m s with
  | Some r => Some r
  | None =>
      match s with
      | String _ s' => search m s'
      | EmptyString => None
      end
  end.

(** The percentage pattern: a captured run of digits and a percent
    sign. *)
Definition percent_pattern (s : string) : option string :=
  '(digits, s1) ← span1 is_digit s;
  _ ← strip_prefix "%" s1;
  Some digits.

(** [sep.join(l)]. *)
Fixpoint join (sep : string) (l : list string) : string :=
  match l with
  | [] => EmptyString
  | [x] => x
  | x :: l' => x +:+ sep +:+ join sep l'
  end.

(** [sub in s]. *)
Definition contains (sub s : string) : bool :=
  if find_sub sub s is Some _ then true else false.

(** What the body of the loop reads off the token column. *)
Definition read_token_col (col : TokenCol) : option (Z * Z) :=
  total_tokens ←
    match token_match (col_text col) with
    | Some (number, unit_str) => parse_token_count (number +:+ unit_str)
    | None => Some 0
    end;
  let percent_change :=
    match search percent_pattern (col_text col) with
    | Some digits => int_of_digits digits
    | None => 0
    end in
  let percent_change :=
    match svg col with
    | Some classes =>
        if contains "text-red" (join " " classes)
        then - percent_change else percent_change
    | None => percent_change
    end in
  Some (total_tokens, percent_change).

(** One round of the loop over the grid rows, on [results] and
    [rank]. *)
Definition scrape_row (st : list RankedModel.t * Z) (row : GridRow)
  : option (list RankedModel.t * Z) :=
  let '(results, rank) := st in
  match model_link row with
  | None => Some st
  | Some link =>
      let slug := lstrip_char "/" (default EmptyString (href link)) in
      if String.eqb slug EmptyString || is_nav slug
         || negb (contains_char "/" slug)
      then Some st
      else
        let name := link_text link in
        let rank := rank + 1 in
        '(total_tokens, percent_change) ←
          match token_col row with
          | Some col => read_token_col col
          | None => Some (0, 0)
          end;
        Some (results ++
              [ {| RankedModel.rank := rank; RankedModel.slug := slug;
                   RankedModel.name := name;
                   RankedModel.total_tokens := total_tokens;
                   RankedModel.percent_change := percent_change |} ],
              rank)
  end.

Fixpoint scrape_rows (st : list RankedModel.t * Z) (grid_rows : list GridRow)
  : option (list RankedModel.t * Z) :=
  match grid_rows with
  | [] => Some st
  | row :: grid_rows' => st' ← scrape_row st row; scrape_rows st' grid_rows'
  end.

(** [scrape_rankings] on the grid rows of the page fetched. *)
Definition scrape_rankings (grid_rows : list GridRow)
  : option (list RankedModel.t) :=
  fst <$> scrape_rows ([], 0) grid_rows.

(** ** The activity legend of a model page *)

(** The value of a legend entry: [<div>], a captured number with an
    optional unit letter in upper case, [</div>]. *)
Definition value_div (s : string) : option string :=
  s1 ← strip_prefix "<div>" s;
  '(number, s2) ← span1 number_char s1;
  match s2 with
  | String c s3 =>
      if unit_char c && Ascii.eqb (upper_char c) c
      then _ ← strip_prefix "</div>" s3; Some (number +:+ String c EmptyString)
      else _ ← strip_prefix "</div>" s2; Some number
  | EmptyString => None
  end.

(** The heading of a legend entry: a [div] whose class starts with
    [font-medium], up to the end of its tag, the label, [</div>]. *)
Definition label_div (label : string) (s : string) : option string :=
  s1 ← strip_prefix ("<div class=" +:+ DQ +:+ "font-medium") s;
  s2 ← strip_prefix DQ (span (not_char dquote) s1).2;
  s3 ← strip_prefix ">" (span (not_char ">") s2).2;
  strip_prefix (label +:+ "</div>") s3.

(** The pattern of a label under DOTALL: the [aria-label] attribute, a
    lazily matched gap, the heading, a lazily matched gap, the value.
    A lazy gap tries what follows it at each position in turn. *)
Definition label_pattern (label : string) (s : string) : option string :=
  s1 ← strip_prefix ("aria-label=" +:+ DQ +:+ label +:+ DQ) s;
  search (fun s2 => s3 ← label_div label s2; search value_div s3) s1.

Definition label_tokens (label html : string) : option Z :=
  match search (label_pattern label) html with
  | Some group => parse_token_count group
  | None => Some 0
  end.

Definition _scrape_model_activity_html (html : string)
  : option Scraper.Activity :=
  prompt_tokens ← label_tokens "Prompt" html;
  completion_tokens ← label_tokens "Completion" html;
  reasoning_tokens ← label_tokens "Reasoning" html;
  Some {| Scraper.prompt_tokens := prompt_tokens;
          Scraper.completion_tokens := completion_tokens;
          Scraper.reasoning_tokens := reasoning_tokens;
          Scraper.cached_tokens := 0;
          Scraper.request_count := 0 |}.

(** ** Dates as the pages write them *)

Section Dates.

(** [datetime.strptime(s, "%Y-%m-%d")], as the day number of the date
    read; [None] when it raises [ValueError]. *)
Variable strptime : string -> option Z.

(** [d.strftime("%Y-%m-%d")] for the date with day number [d]. *)
Variable strftime : Z -> string.

(** [d - timedelta(days=i)]: the dates of [datetime] have the day
    numbers 1 to 3652059, and a result outside them raises
    [OverflowError]. *)
Definition minus_days (d i : Z) : option Z :=
  if bool_decide (1 <= d - i <= 3652059) then Some (d - i) else None.

(** The loop over [range(days)] that fills [dates_to_sum]. *)
Fixpoint candidate_dates (end_ : Z) (today : string) (skip_partial : bool)
    (range : list Z) : option (list string) :=
  match range with
  | [] => Some []
  | i :: range' =>
      d ← strftime <$> minus_days end_ i;
      dates ← candidate_dates end_ today skip_partial range';
      if skip_partial && bool_decide (d = today) then Some dates
      else Some (d :: dates)
  end.

Definition add_day (daily_data : gmap string Scraper.DailyRecord)
    (result : Scraper.Activity) (d : string) : Scraper.Activity :=
  match daily_data !! d with
  | Some day =>
      {| Scraper.prompt_tokens :=
           Scraper.prompt_tokens result + Scraper.prompt day;
         Scraper.completion_tokens :=
           Scraper.completion_tokens result + Scraper.completion day;
         Scraper.reasoning_tokens :=
           Scraper.reasoning_tokens result + Scraper.reasoning day;
         Scraper.cached_tokens :=
           Scraper.cached_tokens result + Scraper.cached day;
         Scraper.request_count :=
           Scraper.request_count result + Scraper.count day |}
  | None => result
  end.

Definition dates_to_sum (end_date : string) (days : Z) (skip_partial : bool)
  : Scraper.Clock (option (list string)) := fun now =>
  end_ ← strptime end_date;
  let today := strftime (Scraper.utcnow now) in
  dates ← candidate_dates end_ today skip_partial (seqZ 0 days);
  if skip_partial && bool_decide (end_date = today)
     && bool_decide (Z.of_nat (length dates) < days)
  then extra ← strftime <$> minus_days end_ days; Some (dates ++ [extra])
  else Some dates.

(** [sum_daily_window] on the history as the extractor returns it,
    keyed by date strings, and on the end date as a string. *)
Definition sum_daily_window (daily_data : gmap string Scraper.DailyRecord)
    (end_date : string) (days : Z) (skip_partial : bool)
  : Scraper.Clock (option Scraper.Activity) := fun now =>
  dates ← dates_to_sum end_date days skip_partial now;
  Some (foldl (add_day daily_data) Scraper.zero_activity dates).

(** ** The model pages *)

(** [scrape_model_daily_data] on the response to the request: the text
    of the page, or [None] when the request failed. *)
Definition scrape_model_daily_data (response : option string)
  : gmap string Scraper.DailyRecord :=
  match response with
  | None => ∅
  | Some text => Scraper._extract_daily_data text
  end.

(** [sorted(keys, reverse=True)[0]]: the greatest key; [None] is
    [IndexError]. *)
Definition latest (keys : list string) : option string :=
  foldr (fun k acc =>
           match acc with
           | Some m => if String.ltb m k then Some k else Some m
           | None => Some k
           end) None keys.

Definition scrape_model_activity (response : option string)
  : Scraper.Clock (option Scraper.Activity) := fun now =>
  match response with
  | None => Some Scraper.zero_activity
  | Some text =>
      let daily_data := Scraper._extract_daily_data text in
      if bool_decide (daily_data = ∅) then _scrape_model_activity_html text
      else
        end_ ← latest (map_to_list daily_data).*1;
        sum_daily_window daily_data end_ 7 true now
  end.

(** ** main.py: the snapshots already saved *)

(** [os.path.exists] on the snapshot file of a date. *)
Variable snapshot_exists : string -> bool.

(** The loop over [range(0, days_back + 1)]. *)
Fixpoint find_snapshot (today_dt : Z) (offsets : list Z)
  : option (option string) :=
  match offsets with
  | [] => Some None
  | offset :: offsets' =>
      check_date ← strftime <$> minus_days today_dt offset;
      if snapshot_exists check_date then Some (Some check_date)
      else find_snapshot today_dt offsets'
  end.

Definition _find_recent_snapshot (today : string) (days_back : Z)
  : option (option string) :=
  today_dt ← strptime today;
  find_snapshot today_dt (seqZ 0 (days_back + 1)).

End Dates.

End Pages.

(* ===================================================================== *)
(** * The calendar of datetime *)
(* ===================================================================== *)

(** The proleptic Gregorian calendar as [datetime] computes it, and the
    two conversions for the format [%Y-%m-%d].  The years 1 to 9999 are
    the ones [datetime] has; [strftime] writes the year with four
    digits. *)
Module Calendar.
Import Text.

Definition _is_leap (year : Z) : bool :=
  (year mod 4 =? 0) && (negb (year mod 100 =? 0) || (year mod 400 =? 0)).

Definition _days_before_year (year : Z) : Z :=
  let y := year - 1 in y * 365 + y / 4 - y / 100 + y / 400.

Definition _DAYS_IN_MONTH : list Z :=
  [31; 28; 31; 30; 31; 30; 31; 31; 30; 31; 30; 31].

Definition _days_in_month (year month : Z) : Z :=
  if (month =? 2) && _is_leap year then 29
  else nth (Z.to_nat (month - 1)) _DAYS_IN_MONTH 0.

Definition _days_before_month (year month : Z) : Z :=
  foldr Z.add 0 (firstn (Z.to_nat (month - 1)) _DAYS_IN_MONTH)
  + (if (2 <? month) && _is_leap year then 1 else 0).

Definition _ymd2ord (year month day : Z) : Z :=
  _days_before_year year + _days_before_month year month + day.

Definition _DI400Y : Z := _days_before_year 401.
Definition _DI100Y : Z := _days_before_year 101.
Definition _DI4Y : Z := _days_before_year 5.

Definition _ord2ymd (n : Z) : Z * Z * Z :=
  let n := n - 1 in
  let n400 := n / _DI400Y in
  let n := n mod _DI400Y in
  let year := n400 * 400 + 1 in
  let n100 := n / _DI100Y in
  let n := n mod _DI100Y in
  let n4 := n / _DI4Y in
  let n := n mod _DI4Y in
  let n1 := n / 365 in
  let n := n mod 365 in
  let year := year + n100 * 100 + n4 * 4 + n1 in
  if (n1 =? 4) || (n100 =? 4) then (year - 1, 12, 31)
  else
    let leapyear := (n1 =? 3) && (negb (n4 =? 24) || (n100 =? 3)) in
    let month := Z.shiftr (n + 50) 5 in
    let preceding :=
      foldr Z.add 0 (firstn (Z.to_nat (month - 1)) _DAYS_IN_MONTH)
      + (if (2 <? month) && leapyear then 1 else 0) in
    let '(month, preceding) :=
      if n <? preceding
      then (month - 1,
            preceding
            - (nth (Z.to_nat (month - 2)) _DAYS_IN_MONTH 0
               + (if (month - 1 =? 2) && leapyear then 1 else 0)))
      else (month, preceding) in
    (year, month, n - preceding + 1).

(** A digit within a range. *)
Definition digit_in (lo hi : Z) (s : string) : option (Z * string) :=
  match s with
  | String c s' =>
      if is_digit c && (lo <=? digit_value c) && (digit_value c <=? hi)
      then Some (digit_value c, s') else None
  | EmptyString => None
  end.

(** The alternatives of the month directive, in the order the pattern
    lists them: 10 to 12, 01 to 09, 1 to 9. *)
Definition month_alternatives (s : string) : list (Z * string) :=
  omap id
    [ (s1 ← strip_prefix "1" s; '(d, s2) ← digit_in 0 2 s1; Some (10 + d, s2));
      (s1 ← strip_prefix "0" s; digit_in 1 9 s1);
      digit_in 1 9 s ].

(** The alternatives of the day directive: 30 and 31, 10 to 29, 01 to
    09, 1 to 9, and a space before 1 to 9. *)
Definition day_alternatives (s : string) : list (Z * string) :=
  omap id
    [ (s1 ← strip_prefix "3" s; '(d, s2) ← digit_in 0 1 s1; Some (30 + d, s2));
      ('(t, s1) ← digit_in 1 2 s; '(d, s2) ← digit_in 0 9 s1;
       Some (10 * t + d, s2));
      (s1 ← strip_prefix "0" s; digit_in 1 9 s1);
      digit_in 1 9 s;
      (s1 ← strip_prefix " " s; digit_in 1 9 s1) ].

(** The first way to read a month, a hyphen and a day. *)
Definition month_and_day (s : string) : option (Z * Z * string) :=
  head
    (omap (fun m : Z * string =>
             s1 ← strip_prefix "-" m.2;
             '(d, s2) ← head (day_alternatives s1);
             Some (m.1, d, s2))
          (month_alternatives s)).

(** [datetime.strptime(s, "%Y-%m-%d")]: four digits, a hyphen, a month,
    a hyphen and a day with nothing left over, naming a date that
    exists. *)
Definition strptime (s : string) : option Z :=
  '(y, s1) ← digits_exact 4 s;
  s2 ← strip_prefix "-" s1;
  '(month, day, rest) ← month_and_day s2;
  let year := int_of_digits y in
  if String.eqb rest EmptyString && (1 <=? year)
     && (day <=? _days_in_month year month)
  then Some (_ymd2ord year month day) else None.

(** The decimal digits of [n], at least [width] of them. *)
Fixpoint digits_of (width : nat) (n : Z) : string :=
  match width with
  | O => EmptyString
  | S width' =>
      digits_of width' (n / 10)
      +:+ String (ascii_of_N (Z.to_N (48 + n mod 10))) EmptyString
  end.

Definition strftime (d : Z) : string :=
  let '(year, month, day) := _ord2ymd d in
  digits_of 4 year +:+ "-" +:+ digits_of 2 month +:+ "-" +:+ digits_of 2 day.

End Calendar.

(* ===================================================================== *)
(** * src/readme_gen.py: the labels of the charts *)
(* ===================================================================== *)

Module ReadmeGen.
Import Text.

Definition _sanitize_mermaid_label (text : string) : string :=
  let text := replace DQ "'" text in
  let text := replace "(" "" text in
  let text := replace ")" "" text in
  let text := replace "[" "" text in
  let text := replace "]" "" text in
  let text := replace "{" "" text in
  let text := replace "}" "" text in
  let text := replace "#" "" text in
  let text := replace ":" " -" text in
  let text := replace ";" "" text in
  Pages.strip text.

(** [text[:n]]: a negative [n] counts from the end of the text. *)
Definition slice_to (n : Z) (text : string) : string :=
  if n <? 0 then take (Z.to_nat (Z.of_nat (String.length text) + n)) text
  else take (Z.to_nat n) text.

Definition _truncate_label (text : string) (max_len : Z) : string :=
  let text := _sanitize_mermaid_label text in
  let text :=
    match find_sub " - " text with
    | Some (_, rest) => rest
    | None => text
    end in
  if max_len <? Z.of_nat (String.length text)
  then slice_to (max_len - 2) text +:+ ".."
  else text.

End ReadmeGen.

(* ===================================================================== *)
(** * Vocabulary of the specification *)
(* ===================================================================== *)

Module Spec.
Import Scraper.

(** The sum of one field of the records that [daily_data] holds for the
    [dates]; a date it has no record for contributes zero. *)
Definition field_sum (f : DailyRecord -> Z) (daily_data : gmap Z DailyRecord)
    (dates : list Z) : Z :=
  foldr (fun d acc => from_option f 0 (daily_data !! d) + acc) 0 dates.

(** The field-wise sum of the records of the [dates]. *)
Definition window_sum (daily_data : gmap Z DailyRecord) (dates : list Z)
  : Activity :=
  {| prompt_tokens := field_sum prompt daily_data dates;
     completion_tokens := field_sum completion daily_data dates;
     reasoning_tokens := field_sum reasoning daily_data dates;
     cached_tokens := field_sum cached daily_data dates;
     request_count := field_sum count daily_data dates |}.

(** The dates [end_date - i] for [i] from [first] to [first + n - 1]. *)
Definition days_back (end_date first n : Z) : list Z :=
  (fun i => end_date - i) <$> seqZ first n.

(** The date of a first-pattern match and the numbers it carries. *)
Definition daily_date (e : string * string * string * string * string * string)
  : string := e.1.1.1.1.1.

Definition daily_completion
    (e : string * string * string * string * string * string) : Z :=
  Text.int_of_digits e.1.1.1.2.

Definition daily_prompt
    (e : string * string * string * string * string * string) : Z :=
  Text.int_of_digits e.1.1.2.

Definition daily_reasoning
    (e : string * string * string * string * string * string) : Z :=
  Text.int_of_digits e.1.2.

Definition daily_count
    (e : string * string * string * string * string * string) : Z :=
  Text.int_of_digits e.2.

(** The sum of [f] over the matches [es] whose date is [d]. *)
Definition sum_on {E} (date : E -> string) (f : E -> Z) (d : string)
    (es : list E) : Z :=
  foldr (fun e acc => if bool_decide (date e = d) then f e + acc else acc) 0 es.

Definition on_date {E} (date : E -> string) (d : string) (es : list E) : bool :=
  existsb (fun e => bool_decide (date e = d)) es.

(** The record the specification gives a date: the sums over the
    first-pattern matches of that date, and as cached count the sum
    over the second-pattern matches of that date. *)
Definition grouped_record (d : string)
    (daily_entries : list (string * string * string * string * string * string))
    (cached_entries : list (string * string)) : DailyRecord :=
  {| prompt := sum_on daily_date daily_prompt d daily_entries;
     completion := sum_on daily_date daily_completion d daily_entries;
     reasoning := sum_on daily_date daily_reasoning d daily_entries;
     cached := sum_on fst (fun e => Text.int_of_digits e.2) d cached_entries;
     count := sum_on daily_date daily_count d daily_entries |}.

(** [sum(models.values())]. *)
Definition models_sum (models : gmap string Z) : Z :=
  map_fold (fun _ v acc => v + acc) 0 models.

(** The sum of the numbers of the pairs extracted for an entry. *)
Fixpoint pairs_total (pairs : list (string * string)) : option Z :=
  match pairs with
  | [] => Some 0
  | p :: pairs' =>
      tokens ← tokens_of p.2; rest ← pairs_total pairs'; Some (tokens + rest)
  end.

(** The segments the extractor keeps: those of at least 1000
    characters. *)
Definition segments (html : string) : list string :=
  filter (fun script => (1000 <= String.length script)%nat)
         (Text.findall script_tag html).

(** What holds of an entry built from the pairs extracted for it: its
    total is the sum of their numbers, its others bucket is not
    negative, the parts do not exceed the total, and they add up to it
    when no key occurs twice. *)
Definition entry_of_pairs (e : WeeklyChartEntry)
    (pairs : list (string * string)) : Prop :=
  build_entry (week_start e) pairs = Some e
  ∧ has_model_slugs pairs = true
  ∧ pairs_total pairs = Some (total e)
  ∧ 0 <= others e
  ∧ models_sum (models e) + others e <= total e
  ∧ (NoDup pairs.*1 -> total e = models_sum (models e) + others e).

Definition entry_accounted (e : WeeklyChartEntry) : Prop :=
  ∃ pairs, entry_of_pairs e pairs.

(** One round of the selection: a strictly longer list of entries
    replaces the best one so far. *)
Definition keep_larger (best_entries entries : list WeeklyChartEntry)
  : list WeeklyChartEntry :=
  if (length best_entries <? length entries)%nat then entries else best_entries.

(** A segment none of whose marker matches holds a key with a slash. *)
Definition no_model_slugs (script : string) : Prop :=
  Forall (fun m => has_model_slugs (pairs_of m.2) = false)
         (Text.findall chart_marker (unescape script)).

(** The number of marker matches of a segment that hold a key with a
    slash: the entries the extractor accepts from it. *)
Definition accepted_count (script : string) : nat :=
  length (filter (fun m => has_model_slugs (pairs_of m.2) = true)
                 (Text.findall chart_marker (unescape script))).

(** Ascending order of week starts, as Python compares strings. *)
Definition week_le (a b : WeeklyChartEntry) : Prop :=
  String.leb (week_start a) (week_start b) = true.

(** The week start of an entry is a date in ISO form. *)
Definition week_is_date (e : WeeklyChartEntry) : Prop :=
  ∃ y m d, Text.iso_shaped (week_start e) y m d.

(** Chronological order of week starts. *)
Definition week_not_after (a b : WeeklyChartEntry) : Prop :=
  Text.date_number (week_start a) <= Text.date_number (week_start b).

(** Descending order of estimated revenue. *)
Definition revenue_ge (a b : RevenueRecord.t) : Prop :=
  SFleb (RevenueRecord.estimated_revenue b)
        (RevenueRecord.estimated_revenue a) = true.

(** The unrounded revenue of one ranked model. *)
Definition model_revenue (activities : gmap string Activity)
    (pricing : PyDict.dict Api.PriceInfo) (model : RankedModel.t)
  : option PyFloat.float :=
  let activity :=
    default zero_activity (activities !! RankedModel.slug model) in
  let price_info := Calculator._find_pricing (RankedModel.slug model) pricing in
  Calculator.revenue_of
    (prompt_tokens activity) (completion_tokens activity)
    (cached_tokens activity)
    (from_option Api.prompt_price PyFloat.zero price_info)
    (from_option Api.completion_price PyFloat.zero price_info)
    (from_option Api.cache_read_price PyFloat.zero price_info).

(** [prompt_tokens + completion_tokens] of the activity resolved for a
    ranked model. *)
Definition observed_total (activities : gmap string Activity)
    (model : RankedModel.t) : Z :=
  let activity :=
    default zero_activity (activities !! RankedModel.slug model) in
  prompt_tokens activity + completion_tokens activity.

(** What the zero-evidence rule gives the record of a ranked model: the
    model is kept with its leaderboard total, its ratios are 0.0, and
    its estimated revenue compares equal to 0.0 once the cached tokens
    are 0 as well and the resolved prices are finite. *)
Definition zero_evidence_record (activities : gmap string Activity)
    (model : RankedModel.t) (record : RevenueRecord.t) : Prop :=
  RevenueRecord.slug record = RankedModel.slug model
  ∧ RevenueRecord.total_tokens record = RankedModel.total_tokens model
  ∧ RevenueRecord.prompt_ratio record = PyFloat.zero
  ∧ RevenueRecord.completion_ratio record = PyFloat.zero
  ∧ RevenueRecord.reasoning_ratio record = PyFloat.zero
  ∧ (prompt_tokens (default zero_activity (activities !! RankedModel.slug model)) = 0 ->
     cached_tokens (default zero_activity (activities !! RankedModel.slug model)) = 0 ->
     PyFloat.is_finite (RevenueRecord.prompt_price record) = true ->
     PyFloat.is_finite (RevenueRecord.completion_price record) = true ->
     PyFloat.is_finite (RevenueRecord.cache_read_price record) = true ->
     PyFloat.eqb (RevenueRecord.estimated_revenue record) PyFloat.zero = true).

(** The sum of the leaderboard totals. *)
Definition leaderboard_total (rankings : list RankedModel.t) : Z :=
  foldr (fun model acc => RankedModel.total_tokens model + acc) 0 rankings.

(** The sum of the rounded per-model revenues, rounded to 2 decimals. *)
Definition rounded_total (models : list RevenueRecord.t) : PyFloat.float :=
  PyFloat.round
    (foldl PyFloat.add PyFloat.zero (RevenueRecord.estimated_revenue <$> models))
    2.

(** The estimated revenue of a record is not a NaN. *)
Definition revenue_known (x : RevenueRecord.t) : Prop :=
  PyFloat.is_nan (RevenueRecord.estimated_revenue x) = false.

(** The state of the loop over the pairs of one entry: no volume is
    negative and the parts do not exceed the total. *)
Definition volumes_ok (acc : gmap string Z * Z * Z) : Prop :=
  0 <= acc.1.2
  ∧ map_Forall (fun _ v => 0 <= v) acc.1.1
  ∧ models_sum acc.1.1 + acc.1.2 <= acc.2.

(** What the leaderboard says of a ranked model, and what a record keeps
    of it. *)
Definition model_listing (model : RankedModel.t)
  : Z * string * string * Z * Z :=
  (RankedModel.rank model, RankedModel.slug model, RankedModel.name model,
   RankedModel.total_tokens model, RankedModel.percent_change model).

Definition record_listing (record : RevenueRecord.t)
  : Z * string * string * Z * Z :=
  (RevenueRecord.rank record, RevenueRecord.slug record,
   RevenueRecord.name record, RevenueRecord.total_tokens record,
   RevenueRecord.percent_change record).

(** The activity the reconciler resolves for a ranked model. *)
Definition resolved_activity (activities : gmap string Activity)
    (model : RankedModel.t) : Activity :=
  default zero_activity (activities !! RankedModel.slug model).

(** The counts a record keeps of the activity of its model. *)
Definition record_activity (record : RevenueRecord.t) : Activity :=
  {| prompt_tokens := RevenueRecord.prompt_tokens record;
     completion_tokens := RevenueRecord.completion_tokens record;
     reasoning_tokens := RevenueRecord.reasoning_tokens record;
     cached_tokens := RevenueRecord.cached_tokens record;
     request_count := RevenueRecord.request_count record |}.

(** The sum of one count over the activities resolved for the ranked
    models. *)
Definition activity_sum (f : Activity -> Z) (activities : gmap string Activity)
    (rankings : list RankedModel.t) : Z :=
  foldr (fun model acc => f (resolved_activity activities model) + acc) 0
        rankings.

(** The record of a ranked model: what it keeps of the leaderboard, of
    the activity and of the price book. *)
Definition record_of_model (activities : gmap string Activity)
    (pricing : PyDict.dict Api.PriceInfo) (model : RankedModel.t)
    (record : RevenueRecord.t) : Prop :=
  let price_info := Calculator._find_pricing (RankedModel.slug model) pricing in
  record_listing record = model_listing model
  ∧ record_activity record = resolved_activity activities model
  ∧ RevenueRecord.prompt_price record
    = from_option Api.prompt_price PyFloat.zero price_info
  ∧ RevenueRecord.completion_price record
    = from_option Api.completion_price PyFloat.zero price_info
  ∧ RevenueRecord.reasoning_price record
    = from_option Api.reasoning_price PyFloat.zero price_info
  ∧ RevenueRecord.cache_read_price record
    = from_option Api.cache_read_price PyFloat.zero price_info
  ∧ RevenueRecord.is_free record
    = PyFloat.eqb (RevenueRecord.prompt_price record) PyFloat.zero
      && PyFloat.eqb (RevenueRecord.completion_price record) PyFloat.zero
  ∧ ∃ revenue,
      Calculator.revenue_of
        (RevenueRecord.prompt_tokens record)
        (RevenueRecord.completion_tokens record)
        (RevenueRecord.cached_tokens record)
        (RevenueRecord.prompt_price record)
        (RevenueRecord.completion_price record)
        (RevenueRecord.cache_read_price record) = Some revenue
      ∧ RevenueRecord.estimated_revenue record = PyFloat.round revenue 2.

(** The number of records counted as free, and as paid. *)
Definition free_records (records : list RevenueRecord.t) : Z :=
  Z.of_nat (length (filter (fun r => RevenueRecord.is_free r = true) records)).

Definition paid_records (records : list RevenueRecord.t) : Z :=
  Z.of_nat (length (filter (fun r => RevenueRecord.is_free r = false) records)).

(** Two records whose estimated revenues compare equal to [v]. *)
Definition revenue_tied (v : PyFloat.float) (r : RevenueRecord.t) : Prop :=
  SFcompare (RevenueRecord.estimated_revenue r) v = Some Eq.

#[global] Instance revenue_tied_dec v r : Decision (revenue_tied v r) :=
  decide (SFcompare (RevenueRecord.estimated_revenue r) v = Some Eq).

(** Two activities with the same billable counts: prompt, completion and
    cached tokens. *)
Definition same_billable (a b : Activity) : Prop :=
  prompt_tokens a = prompt_tokens b
  ∧ completion_tokens a = completion_tokens b
  ∧ cached_tokens a = cached_tokens b.

(** What two records say of the revenue of one model. *)
Definition same_earnings (r1 r2 : RevenueRecord.t) : Prop :=
  record_listing r1 = record_listing r2
  ∧ RevenueRecord.estimated_revenue r1 = RevenueRecord.estimated_revenue r2
  ∧ RevenueRecord.is_free r1 = RevenueRecord.is_free r2.

(** The keys under which the reconciler accepts a price for [slug]: the
    slug itself, the slug up to its first colon, or a key that starts
    with the vendor of the slug and a slash and whose similarity with
    the slug exceeds 0.7. *)
Definition price_candidate (slug k : string) : Prop :=
  k = slug
  ∨ k = Calculator.split_head ":" slug
  ∨ (Text.startswith k (Calculator.split_head "/" slug +:+ "/") = true
     ∧ PyFloat.gtb (Calculator._slug_similarity slug k) Calculator.threshold
       = true).

(** The float 1.0. *)
Definition one : PyFloat.float := PyFloat.nearest 1 1.

(** The models of the feed that are indexed under the key [k]. *)
Definition indexed_under (k : string) (model : Api.RawModel) : Prop :=
  k ≠ EmptyString
  ∧ (Api.raw_canonical_slug model = k ∨ Api.raw_id model = k).

#[global] Instance indexed_under_dec k model : Decision (indexed_under k model) :=
  decide (k ≠ EmptyString
          ∧ (Api.raw_canonical_slug model = k ∨ Api.raw_id model = k)).

(** The field-wise sum of two activities. *)
Definition add_activity (a b : Activity) : Activity :=
  {| prompt_tokens := prompt_tokens a + prompt_tokens b;
     completion_tokens := completion_tokens a + completion_tokens b;
     reasoning_tokens := reasoning_tokens a + reasoning_tokens b;
     cached_tokens := cached_tokens a + cached_tokens b;
     request_count := request_count a + request_count b |}.

(** No count of a record is negative. *)
Definition record_nonneg (r : DailyRecord) : Prop :=
  0 <= prompt r ∧ 0 <= completion r ∧ 0 <= reasoning r ∧ 0 <= cached r
  ∧ 0 <= count r.

(** What the loop over the pairs of an entry keeps in [models]: no key
    [Others], and every other key of the pairs read so far. *)
Definition models_cover (models : gmap string Z)
    (pairs : list (string * string)) : Prop :=
  models !! "Others" = None
  ∧ ∀ p, p ∈ pairs -> p.1 ≠ "Others" -> is_Some (models !! p.1).

(** ** Token counts, the leaderboard and dates *)

(** A unit of a token count: none, or one of the letters T, G, B, M and
    K in either case. *)
Definition is_unit (u : string) : Prop :=
  u = EmptyString ∨ ∃ c, Pages.unit_char c = true ∧ u = String c EmptyString.

(** What the parser computes from a number and a unit. *)
Definition scaled (number_str u : string) : option Z :=
  number ← Pages.float_of_number number_str;
  multiplier ← PyFloat.of_int (Pages.multipliers (Pages.upper u));
  PyFloat.to_int (PyFloat.mul number multiplier).

(** A float that is not below zero: a zero, a positive number, the
    positive infinity, or a NaN. *)
Definition not_negative (x : PyFloat.float) : Prop :=
  match x with
  | S754_finite s _ _ | S754_infinity s => s = false
  | _ => True
  end.

(** What a leaderboard row says of the model scraped from it. *)
Definition scraped_from (model : RankedModel.t) (row : Pages.GridRow) : Prop :=
  ∃ link,
    Pages.model_link row = Some link
    ∧ RankedModel.slug model
      = Pages.lstrip_char "/" (default EmptyString (Pages.href link))
    ∧ RankedModel.name model = Pages.link_text link
    ∧ (Pages.token_col row = None ->
       RankedModel.total_tokens model = 0
       ∧ RankedModel.percent_change model = 0)
    ∧ (RankedModel.percent_change model < 0 ->
       ∃ col classes,
         Pages.token_col row = Some col ∧ Pages.svg col = Some classes
         ∧ Pages.contains "text-red" (Pages.join " " classes) = true).

(** A slug the leaderboard scraper keeps: not empty, without a leading
    slash, with a slash, and with none of the navigation prefixes. *)
Definition model_slug (slug : string) : Prop :=
  slug ≠ EmptyString
  ∧ Text.startswith slug "/" = false
  ∧ Text.contains_char "/" slug = true
  ∧ Forall (fun prefix => Text.startswith slug prefix = false)
           Pages.NAV_PREFIXES.

(** The day numbers from [D - days] to [D]. *)
Definition window_days (D days : Z) : list Z := seqZ (D - days) (days + 1).

(** A day number that [datetime] has, that the two conversions take to
    its date string and back, and under whose date string the history
    keyed by strings holds what the history keyed by day numbers holds
    for the day. *)
Definition dated (strptime : string -> option Z) (strftime : Z -> string)
    (text_data : gmap string DailyRecord)
    (daily_data : gmap Z DailyRecord) (d : Z) : Prop :=
  1 <= d <= 3652059
  ∧ strptime (strftime d) = Some d
  ∧ text_data !! strftime d = daily_data !! d.

(** The greatest key of a history keyed by date strings. *)
Definition latest_date (daily_data : gmap string DailyRecord)
    (d : string) : Prop :=
  is_Some (daily_data !! d)
  ∧ ∀ d', is_Some (daily_data !! d') -> String.leb d' d = true.

(** ** The labels of the charts *)

(** The characters the labels of the charts must not hold. *)
Definition mermaid_chars : list ascii :=
  [Text.dquote; "("; ")"; "["; "]"; "{"; "}"; "#"; ":"; ";"]%char.

(** A character that is none of the [banned] ones. *)
Definition avoids (banned : list ascii) (c : ascii) : bool :=
  negb (existsb (Ascii.eqb c) banned).

(** A text without any of the characters that break a chart. *)
Definition chart_safe (text : string) : Prop :=
  Text.all_chars (avoids mermaid_chars) text = true.

(** ** The window sum on date strings, the records and the pairs *)

(** The sum of one field of the records that a history keyed by date
    strings holds for the [dates]; a date it has no record for
    contributes zero. *)
Definition text_field_sum (f : DailyRecord -> Z)
    (text_data : gmap string DailyRecord) (dates : list string) : Z :=
  foldr (fun d acc => from_option f 0 (text_data !! d) + acc) 0 dates.

(** The field-wise sum of the records of the [dates]. *)
Definition text_window_sum (text_data : gmap string DailyRecord)
    (dates : list string) : Activity :=
  {| prompt_tokens := text_field_sum prompt text_data dates;
     completion_tokens := text_field_sum completion text_data dates;
     reasoning_tokens := text_field_sum reasoning text_data dates;
     cached_tokens := text_field_sum cached text_data dates;
     request_count := text_field_sum count text_data dates |}.

(** A day number that [datetime] has. *)
Definition in_calendar (d : Z) : Prop := 1 <= d <= 3652059.

(** A candidate that the loop of the window sum keeps. *)
Definition kept (skip_partial : bool) (today d : string) : Prop :=
  skip_partial && bool_decide (d = today) = false.

#[global] Instance kept_dec skip_partial today d :
  Decision (kept skip_partial today d) :=
  decide (skip_partial && bool_decide (d = today) = false).

(** What a record holds of the revenue of its model: the listing of the
    model, and its unrounded revenue rounded to 2 decimals. *)
Definition earns (activities : gmap string Activity)
    (pricing : PyDict.dict Api.PriceInfo) (model : RankedModel.t)
    (record : RevenueRecord.t) : Prop :=
  record_listing record = model_listing model
  ∧ ∃ revenue,
      model_revenue activities pricing model = Some revenue
      ∧ RevenueRecord.estimated_revenue record = PyFloat.round revenue 2.

(** The pairs extracted for an entry of the page: the matches of the
    pair pattern in a chart object that a segment kept holds under the
    week start of the entry. *)
Definition extracted_pairs (html date_str : string)
    (pairs : list (string * string)) : Prop :=
  ∃ script from_brace,
    script ∈ segments html
    ∧ (date_str, from_brace) ∈ Text.findall chart_marker (unescape script)
    ∧ pairs = pairs_of from_brace.

End Spec.

(* ===================================================================== *)
(** * Inputs of the examples *)
(* ===================================================================== *)

(** An entry with completion price 0.02 and an empty reasoning price. *)
Definition entry_002 : Api.RawModel :=
  {| Api.raw_id := "anthropic/claude-sonnet-4.5";
     Api.raw_canonical_slug := "anthropic/claude-4.5-sonnet-20250929";
     Api.raw_name := "Anthropic: Claude Sonnet 4.5";
     Api.raw_pricing :=
       {[ "prompt" := "0.01"; "completion" := "0.02";
          "internal_reasoning" := "" ]} |}.

(** The synthetic history of the specification: ten days, day [i]
    holding [i] prompt tokens. *)
Definition ten_days : gmap Z Scraper.DailyRecord :=
  list_to_map
    ((fun i => (i, {| Scraper.prompt := i; Scraper.completion := 0;
                      Scraper.reasoning := 0; Scraper.cached := 0;
                      Scraper.count := 1 |})) <$> seqZ 1 10).

(** A page with two variants of one model on one day, a second day, and
    cached counts for the first day only. *)
Definition analytics_page : string :=
  Text.quoted
    ("[{\'date\':\'2025-01-13 00:00:00\',\'model_permaslug\':\'a/b\',"
     +:+ "\'variant\':\'standard\',\'total_completion_tokens\':10,"
     +:+ "\'total_prompt_tokens\':20,\'total_native_tokens_reasoning\':3,"
     +:+ "\'count\':2},"
     +:+ "{'date':'2025-01-13','model_permaslug':'a/b','variant':'free',"
     +:+ "'total_completion_tokens':1,'total_prompt_tokens':2,"
     +:+ "'total_native_tokens_reasoning':0,'count':1},"
     +:+ "{'date':'2025-01-14','model_permaslug':'a/b','variant':'free',"
     +:+ "'total_completion_tokens':4,'total_prompt_tokens':5,"
     +:+ "'total_native_tokens_reasoning':1,'count':1}]"
     +:+ String Text.newline
           ("[{'date':'2025-01-13','model_permaslug':'a/b','variant':'free',"
            +:+ "'total_native_tokens_cached':7},"
            +:+ "{'date':'2025-01-13','model_permaslug':'a/b',"
            +:+ "'variant':'standard','total_native_tokens_cached':5}]")).

(** A page whose only entry reports more reasoning tokens than
    completion tokens. *)
Definition reasoning_heavy_page : string :=
  Text.quoted
    ("{'date':'2025-01-13','model_permaslug':'a/b','variant':'free',"
     +:+ "'total_completion_tokens':1,'total_prompt_tokens':2,"
     +:+ "'total_native_tokens_reasoning':30,'count':1}").

(** Inputs of the examples. *)
Definition ranked (rank : Z) (slug : string) (total_tokens : Z) : RankedModel.t :=
  {| RankedModel.rank := rank; RankedModel.slug := slug;
     RankedModel.name := slug; RankedModel.total_tokens := total_tokens;
     RankedModel.percent_change := 0 |}.

Definition activity (prompt completion reasoning cached : Z) : Scraper.Activity :=
  {| Scraper.prompt_tokens := prompt; Scraper.completion_tokens := completion;
     Scraper.reasoning_tokens := reasoning; Scraper.cached_tokens := cached;
     Scraper.request_count := 1 |}.

Definition priced (slug : string) (prompt completion cache_read : PyFloat.float)
  : string * Api.PriceInfo :=
  (slug,
   {| Api.id := slug; Api.name := slug; Api.prompt_price := prompt;
      Api.completion_price := completion; Api.reasoning_price := completion;
      Api.image_price := PyFloat.zero; Api.web_search_price := PyFloat.zero;
      Api.cache_read_price := cache_read;
      Api.cache_write_price := PyFloat.zero |}).

(** Two models that each earn 0.004: one prompt token at 0.004. *)
Definition two_small_rankings : list RankedModel.t :=
  [ranked 1 "a/b" 100; ranked 2 "c/d" 50].

Definition two_small_activities : gmap string Scraper.Activity :=
  {[ "a/b" := activity 1 0 0 0; "c/d" := activity 1 0 0 0 ]}.

Definition two_small_pricing : PyDict.dict Api.PriceInfo :=
  [priced "a/b" (PyFloat.nearest 4 1000) PyFloat.zero PyFloat.zero;
   priced "c/d" (PyFloat.nearest 4 1000) PyFloat.zero PyFloat.zero].

(** A model page with a day of requests that carried no prompt and no
    completion tokens, and 1000 cached tokens for that day. *)
Definition cached_only_page : string :=
  Text.quoted
    ("{'date':'2025-01-13','model_permaslug':'a/b','variant':'standard',"
     +:+ "'total_completion_tokens':0,'total_prompt_tokens':0,"
     +:+ "'total_native_tokens_reasoning':0,'count':1}"
     +:+ "{'date':'2025-01-13','model_permaslug':'a/b','variant':'standard',"
     +:+ "'total_native_tokens_cached':1000}").

(** A model with no prompt and no completion tokens observed, 1000
    cached tokens, and a cache-read price of 0.5. *)
Definition cached_only_rankings : list RankedModel.t := [ranked 1 "a/b" 100].

Definition cached_only_activities : gmap string Scraper.Activity :=
  {[ "a/b" := activity 0 0 0 1000 ]}.

Definition cached_only_pricing : PyDict.dict Api.PriceInfo :=
  [priced "a/b" PyFloat.zero PyFloat.zero (PyFloat.nearest 5 10)].

(** Filler text that brings a script to the size the extractor asks
    for. *)
Definition filler (n : nat) : string := string_of_list_ascii (repeat " "%char n).

(** A listing page with one script.  Its first entry nests a breakdown
    that repeats the key of a model; its second entry is flat. *)
Definition nested_chart_page : string :=
  Text.quoted
    ("<html><script>self.__next_f.push([1,'" +:+ filler 1000
     +:+ "{\'x\':\'2025-01-13\',\'ys\':{\'a/b\':5,\'Others\':7,"
     +:+ "\'detail\':{\'a/b\':3}}},"
     +:+ "{\'x\':\'2025-01-06\',\'ys\':{\'a/b\':4,\'c/d\':2,\'Others\':9}}"
     +:+ "'])</script></html>").

(** A listing page with three scripts of sufficient size: one entry with
    model keys, then two entries with model keys, then three entries
    without any. *)
Definition three_chart_page : string :=
  Text.quoted
    ("<script>" +:+ filler 1000
     +:+ "{'x':'2025-01-20','ys':{'a/b':1}}</script>"
     +:+ "<script>" +:+ filler 1000
     +:+ "{'x':'2025-01-13','ys':{'a/b':5,'Others':7}},"
     +:+ "{'x':'2025-01-06','ys':{'c/d':4}}</script>"
     +:+ "<script>" +:+ filler 1200
     +:+ "{'x':'2025-01-06','ys':{'openai':4}},"
     +:+ "{'x':'2025-01-13','ys':{'openai':5}},"
     +:+ "{'x':'2025-01-20','ys':{'openai':6}}</script>").

Definition entry (week_start : string) (models : list (string * Z))
    (others total : Z) : Scraper.WeeklyChartEntry :=
  {| Scraper.week_start := week_start; Scraper.models := list_to_map models;
     Scraper.others := others; Scraper.total := total |}.

(** The activity of the model of [cached_only_rankings] with 7 reasoning
    tokens and 9 requests more. *)
Definition cached_only_activities_reasoning : gmap string Scraper.Activity :=
  {[ "a/b" := {| Scraper.prompt_tokens := 0; Scraper.completion_tokens := 0;
                 Scraper.reasoning_tokens := 7; Scraper.cached_tokens := 1000;
                 Scraper.request_count := 10 |} ]}.

(** A leaderboard of four grid rows: a navigation link, a model that
    gained, a row without link, and a model that lost. *)
Definition grid_row (href text : string)
    (col : option (string * option (list string))) : Pages.GridRow :=
  {| Pages.model_link :=
       Some {| Pages.href := Some href; Pages.link_text := text |};
     Pages.token_col :=
       (fun c => {| Pages.col_text := c.1; Pages.svg := c.2 |}) <$> col |}.

Definition leaderboard_rows : list Pages.GridRow :=
  [grid_row "/docs/quickstart" "Docs" None;
   grid_row "/moonshotai/kimi-k2.5-0127" "Kimi K2.5 0127"
     (Some ("1.16Ttokens222%", Some ["h-4"; "text-green-500"]));
   {| Pages.model_link := None; Pages.token_col := None |};
   grid_row "/a/b" "A B" (Some ("706Btokens5%", Some ["h-4"; "text-red-500"]))].

Definition leaderboard_models : list RankedModel.t :=
  [{| RankedModel.rank := 1; RankedModel.slug := "moonshotai/kimi-k2.5-0127";
      RankedModel.name := "Kimi K2.5 0127";
      RankedModel.total_tokens := 1160000000000;
      RankedModel.percent_change := 222 |};
   {| RankedModel.rank := 2; RankedModel.slug := "a/b";
      RankedModel.name := "A B"; RankedModel.total_tokens := 706000000000;
      RankedModel.percent_change := -5 |}].

(** The history of [analytics_page] keyed by the day numbers of its
    dates. *)
Definition analytics_days : gmap Z Scraper.DailyRecord :=
  list_to_map
    (omap (fun e => (fun d => (d, e.2)) <$> Calendar.strptime e.1)
          (map_to_list (Scraper._extract_daily_data analytics_page))).

(** The snapshots of a data directory that holds one file. *)
Definition one_snapshot (d : string) : bool := bool_decide (d = "2025-01-10").

(** Ten days of history keyed by date strings, from 2025-01-05 to
    2025-01-14, the [i]-th day holding [i] prompt tokens. *)
Definition ten_dated_days : gmap string Scraper.DailyRecord :=
  list_to_map
    ((fun i => (Calendar.strftime (739255 + i),
                {| Scraper.prompt := i; Scraper.completion := 0;
                   Scraper.reasoning := 0; Scraper.cached := 0;
                   Scraper.count := 1 |})) <$> seqZ 1 10).

(** Three models that earn 1.0, a NaN and 2.0: the price of the second
    is a NaN, as [float] reads it off the text [nan]. *)
Definition nan_priced_rankings : list RankedModel.t :=
  [ranked 1 "a/b" 300; ranked 2 "c/d" 200; ranked 3 "e/f" 100].

Definition nan_priced_activities : gmap string Scraper.Activity :=
  {[ "a/b" := activity 1 0 0 0; "c/d" := activity 1 0 0 0;
     "e/f" := activity 2 0 0 0 ]}.

Definition nan_priced_pricing : PyDict.dict Api.PriceInfo :=
  [priced "a/b" (PyFloat.nearest 1 1) PyFloat.zero PyFloat.zero;
   priced "c/d" S754_nan PyFloat.zero PyFloat.zero;
   priced "e/f" (PyFloat.nearest 1 1) PyFloat.zero PyFloat.zero].

(* ===================================================================== *)
(** * Numbers read from the page *)
(* ===================================================================== *)

Section Numbers.
Import Text PyFloat.

Lemma int_of_digits_from_nonneg (s : string) (acc : Z) :
  0 <= acc -> 0 <= int_of_digits_from acc s.
Proof.
  revert acc. induction s as [|c s IH]; intros acc Hacc; simpl; [done|].
  apply IH. unfold digit_value. lia.
Qed.

Lemma int_of_digits_nonneg (s : string) : 0 <= int_of_digits s.
Proof. by apply int_of_digits_from_nonneg. Qed.

(** Rounding a non-negative quantity gives a non-negative integer part. *)
Lemma to_int_binary_round_aux (mx ex : Z) (lx : location) (t : Z) :
  to_int (binary_round_aux prec emax false mx ex lx) = Some t -> 0 <= t.
Proof.
  unfold binary_round_aux.
  destruct (shr_fexp prec emax mx ex lx) as [mrs' e'].
  destruct (shr_fexp prec emax _ e' loc_Exact) as [mrs'' e''].
  destruct (shr_m mrs'') as [|m|m]; simpl; [by intros [= <-]| |done].
  destruct (e'' <=? emax - prec); simpl; [|done].
  intros [= <-]. by apply Z.shiftl_nonneg.
Qed.

Lemma to_int_nearest_nonneg (a b t : Z) :
  0 <= a -> 0 < b -> to_int (nearest a b) = Some t -> 0 <= t.
Proof.
  intros Ha Hb. destruct a as [|p|p], b as [|q|q]; try lia; simpl.
  - by intros [= <-].
  - destruct (SFdiv_core_binary prec emax (Z.pos p) 0 (Z.pos q) 0)
      as [[mz ez] lz].
    apply to_int_binary_round_aux.
Qed.

Lemma tokens_of_nonneg (tokens_str : string) (t : Z) :
  Scraper.tokens_of tokens_str = Some t -> 0 <= t.
Proof.
  unfold Scraper.tokens_of, float_of_decimal.
  destruct (span is_digit tokens_str) as [ip r].
  destruct r as [|c fp].
  - apply to_int_nearest_nonneg; [apply int_of_digits_nonneg|lia].
  - destruct (Ascii.eqb_spec c ".") as [->|Hne].
    + apply to_int_nearest_nonneg; [apply int_of_digits_nonneg|].
      apply Z.pow_pos_nonneg; lia.
    + intros Hrun. apply (to_int_nearest_nonneg (int_of_digits ip) 1);
        [apply int_of_digits_nonneg|lia|].
      revert Hrun.
      destruct c as [[] [] [] [] [] [] [] []]; try done.
  Qed.

End Numbers.

Section Captures.
Import Text.

Lemma span_all_chars (P : ascii -> bool) (s : string) :
  all_chars P (span P s).1 = true.
Proof.
  induction s as [|c s IH]; simpl; [done|].
  destruct (P c) eqn:HP; [|done].
  destruct (span P s) as [a b]. simpl in *. by rewrite HP, IH.
Qed.

Lemma span1_is_digits (s digits rest : string) :
  span1 is_digit s = Some (digits, rest) -> is_digits digits = true.
Proof.
  unfold span1, is_digits. pose proof (span_all_chars is_digit s) as Hall.
  destruct (span is_digit s) as [a b]. simpl in Hall.
  destruct a as [|c a]; [done|]. intros [= <- <-]. by rewrite Hall.
Qed.

Lemma digits_exact_spec (n : nat) (s digits rest : string) :
  digits_exact n s = Some (digits, rest) ->
  String.length digits = n ∧ all_chars is_digit digits = true.
Proof.
  revert s digits rest. induction n as [|n IH]; intros s digits rest; simpl.
  - by intros [= <- <-].
  - destruct s as [|c s]; [done|].
    destruct (is_digit c) eqn:Hc; [|done].
    destruct (digits_exact n s) as [[a b]|] eqn:Hrest; simpl; [|done].
    intros [= <- <-]. destruct (IH _ _ _ Hrest) as [Hlen Hall].
    simpl. rewrite Hc, Hall. split; [by f_equal|done].
Qed.

Lemma iso_date_shaped (s date_str rest : string) :
  iso_date s = Some (date_str, rest) -> ∃ y m d, iso_shaped date_str y m d.
Proof.
  unfold iso_date.
  destruct (digits_exact 4 s) as [[y s1]|] eqn:Hy;
    cbn -[strip_prefix digits_exact]; [|done].
  destruct (strip_prefix "-" s1) as [s2|];
    cbn -[strip_prefix digits_exact]; [|done].
  destruct (digits_exact 2 s2) as [[m s3]|] eqn:Hm;
    cbn -[strip_prefix digits_exact]; [|done].
  destruct (strip_prefix "-" s3) as [s4|];
    cbn -[strip_prefix digits_exact]; [|done].
  destruct (digits_exact 2 s4) as [[d s5]|] eqn:Hd;
    cbn -[strip_prefix digits_exact]; [|done].
  intros [= <- <-]. exists y, m, d.
  apply digits_exact_spec in Hy as [? ?], Hm as [? ?], Hd as [? ?].
  by repeat split.
Qed.

Lemma digit_value_bounds (c : ascii) :
  is_digit c = true ->
  0 <= digit_value c <= 9 ∧ Z.of_N (N_of_ascii c) = 48 + digit_value c.
Proof.
  unfold is_digit, digit_value.
  intros [H1%N.leb_le H2%N.leb_le]%andb_true_iff. lia.
Qed.

Lemma int_of_digits_from_value (s : string) (acc : Z) :
  int_of_digits_from acc s
  = acc * 10 ^ Z.of_nat (String.length s) + int_of_digits s.
Proof.
  unfold int_of_digits. revert acc.
  induction s as [|c s IH]; intros acc; simpl String.length; simpl int_of_digits_from.
  - simpl. lia.
  - rewrite (IH (10 * acc + digit_value c)), (IH (10 * 0 + digit_value c)).
    rewrite Nat2Z.inj_succ, Z.pow_succ_r by lia. lia.
Qed.

Lemma int_of_digits_bound (s : string) :
  all_chars is_digit s = true ->
  0 <= int_of_digits s < 10 ^ Z.of_nat (String.length s).
Proof.
  induction s as [|c s IH]; simpl all_chars; simpl String.length.
  - intros _. vm_compute. split; [discriminate|reflexivity].
  - intros [Hc Hs]%andb_true_iff. specialize (IH Hs).
    apply digit_value_bounds in Hc as [Hc _].
    unfold int_of_digits. simpl int_of_digits_from.
    rewrite int_of_digits_from_value.
    rewrite Nat2Z.inj_succ, Z.pow_succ_r by lia. nia.
Qed.

(** Digit strings of one length compare as the numbers they write. *)
Lemma compare_digits (u v r r' : string) :
  String.length u = String.length v ->
  all_chars is_digit u = true -> all_chars is_digit v = true ->
  String.compare (u +:+ r) (v +:+ r')
  = match int_of_digits u ?= int_of_digits v with
    | Eq => String.compare r r'
    | c => c
    end.
Proof.
  revert v. induction u as [|c u IH]; intros [|d v]; simpl String.length;
    try done.
  intros [= Hlen] [Hc Hu]%andb_true_iff [Hd Hv]%andb_true_iff.
  simpl String.append. simpl String.compare. rewrite (IH v Hlen Hu Hv).
  pose proof (int_of_digits_bound u Hu) as Hbu.
  pose proof (int_of_digits_bound v Hv) as Hbv. rewrite <- Hlen in Hbv.
  apply digit_value_bounds in Hc as [Hc Hcode_c], Hd as [Hd Hcode_d].
  unfold Ascii.compare.
  rewrite <- (N2Z.inj_compare (N_of_ascii c) (N_of_ascii d)), Hcode_c, Hcode_d.
  unfold int_of_digits at 3 4. simpl int_of_digits_from.
  rewrite !int_of_digits_from_value, <- Hlen.
  set (n := 10 ^ Z.of_nat (String.length u)) in *.
  assert (digit_value c < digit_value d ->
          digit_value c * n + n <= digit_value d * n) as Hcd by nia.
  assert (digit_value d < digit_value c ->
          digit_value d * n + n <= digit_value c * n) as Hdc by nia.
  destruct (Z.compare_spec (48 + digit_value c) (48 + digit_value d));
    destruct (Z.compare_spec (int_of_digits u) (int_of_digits v));
    destruct (Z.compare_spec ((10 * 0 + digit_value c) * n + int_of_digits u)
                             ((10 * 0 + digit_value d) * n + int_of_digits v));
    try done; lia.
Qed.

Lemma append_empty_r (s : string) : s +:+ EmptyString = s.
Proof.
  induction s as [|c s IH]; [done|].
  change (String c (s +:+ EmptyString) = String c s). by f_equal.
Qed.

Lemma compare_digits_end (u v : string) :
  String.length u = String.length v ->
  all_chars is_digit u = true -> all_chars is_digit v = true ->
  String.compare u v = (int_of_digits u ?= int_of_digits v).
Proof.
  intros Hlen Hu Hv.
  pose proof (compare_digits u v EmptyString EmptyString Hlen Hu Hv) as Hcmp.
  rewrite !append_empty_r in Hcmp. rewrite Hcmp. simpl.
  by destruct (int_of_digits u ?= int_of_digits v).
Qed.

Lemma date_number_from_digits (u r : string) (acc : Z) :
  all_chars is_digit u = true ->
  date_number_from acc (u +:+ r)
  = date_number_from (int_of_digits_from acc u) r.
Proof.
  revert acc. induction u as [|c u IH]; intros acc; simpl; [done|].
  intros [Hc Hu]%andb_true_iff. rewrite Hc. by apply IH.
Qed.

Lemma date_number_from_digits_end (u : string) (acc : Z) :
  all_chars is_digit u = true ->
  date_number_from acc u = int_of_digits_from acc u.
Proof.
  intros Hu. rewrite <- (append_empty_r u) at 1.
  by rewrite date_number_from_digits.
Qed.

Lemma date_number_from_hyphen (r : string) (acc : Z) :
  date_number_from acc ("-" +:+ r) = date_number_from acc r.
Proof. reflexivity. Qed.

Lemma compare_hyphen (r r' : string) :
  String.compare ("-" +:+ r) ("-" +:+ r') = String.compare r r'.
Proof. reflexivity. Qed.

Lemma date_number_shaped (s y m d : string) :
  iso_shaped s y m d ->
  date_number s
  = (int_of_digits y * 100 + int_of_digits m) * 100 + int_of_digits d
    ∧ 0 <= int_of_digits m < 100 ∧ 0 <= int_of_digits d < 100.
Proof.
  intros (-> & Hly & Hlm & Hld & Hy & Hm & Hd).
  pose proof (int_of_digits_bound m Hm) as Hbm.
  pose proof (int_of_digits_bound d Hd) as Hbd.
  rewrite Hlm in Hbm. rewrite Hld in Hbd.
  split; [|done]. unfold date_number.
  rewrite date_number_from_digits, date_number_from_hyphen by done.
  rewrite date_number_from_digits, date_number_from_hyphen by done.
  rewrite date_number_from_digits_end by done.
  rewrite (int_of_digits_from_value d), (int_of_digits_from_value m),
    (int_of_digits_from_value y), Hlm, Hld.
  change (10 ^ Z.of_nat 2) with 100. lia.
Qed.

(** On dates in ISO form the order of strings is the chronological
    order. *)
Lemma compare_iso_dates (a b ya ma da yb mb db : string) :
  iso_shaped a ya ma da -> iso_shaped b yb mb db ->
  String.compare a b = (date_number a ?= date_number b).
Proof.
  intros Ha Hb.
  destruct (date_number_shaped _ _ _ _ Ha) as (-> & Hma & Hda).
  destruct (date_number_shaped _ _ _ _ Hb) as (-> & Hmb & Hdb).
  destruct Ha as (-> & Hlya & Hlma & Hlda & Hya & Hma' & Hda').
  destruct Hb as (-> & Hlyb & Hlmb & Hldb & Hyb & Hmb' & Hdb').
  rewrite compare_digits, compare_hyphen by (done || congruence).
  rewrite compare_digits, compare_hyphen by (done || congruence).
  rewrite compare_digits_end by (done || congruence).
  destruct (Z.compare_spec (int_of_digits ya) (int_of_digits yb));
    destruct (Z.compare_spec (int_of_digits ma) (int_of_digits mb));
    destruct (Z.compare_spec (int_of_digits da) (int_of_digits db));
    symmetry; first [apply Z.compare_eq_iff | apply Z.compare_lt_iff
                    | apply Z.compare_gt_iff]; lia.
Qed.

End Captures.

Section PairCaptures.
Import Text Scraper Spec.

(** The number a pair captures is a match of [\d+] or of [\d+.\d+]. *)
Lemma pair_pattern_number (s rest slug tokens_str : string) :
  pair_pattern s = Some ((slug, tokens_str), rest) ->
  ∃ ip, is_digits ip = true
        ∧ (tokens_str = ip
           ∨ ∃ fp, is_digits fp = true ∧ tokens_str = ip +:+ "." +:+ fp).
Proof.
  unfold pair_pattern.
  destruct (strip_prefix DQ s) as [s1|]; cbn -[strip_prefix span1]; [|done].
  destruct (span1 (not_char dquote) s1) as [[key s2]|];
    cbn -[strip_prefix span1]; [|done].
  destruct (strip_prefix _ s2) as [s3|]; cbn -[strip_prefix span1]; [|done].
  destruct (span1 is_digit s3) as [[ip s4]|] eqn:Hip;
    cbn -[strip_prefix span1]; [|done].
  apply span1_is_digits in Hip.
  destruct s4 as [|c s5]; [intros [= _ <- _]; eauto|].
  destruct (Ascii.eqb_spec c ".") as [->|Hne].
  - destruct (span1 is_digit s5) as [[fp s6]|] eqn:Hfp.
    + apply span1_is_digits in Hfp. intros [= _ <- _]. eauto 6.
    + intros [= _ <- _]. eauto.
  - intros Hrun. exists ip. split; [done|]. left.
    destruct c as [[] [] [] [] [] [] [] []]; try done;
      by injection Hrun as _ <- _.
Qed.

Lemma span_digits_stop (u r : string) :
  all_chars is_digit u = true ->
  (∀ c r', r = String c r' -> is_digit c = false) ->
  span is_digit (u +:+ r) = (u, r).
Proof.
  intros Hu Hr. induction u as [|c u IH].
  - change (EmptyString +:+ r) with r. destruct r as [|c r']; [done|].
    simpl. by rewrite (Hr c r').
  - apply andb_true_iff in Hu as [Hc Hu].
    change (String c u +:+ r) with (String c (u +:+ r)). simpl.
    by rewrite Hc, (IH Hu).
Qed.

(** [float] of a match of [\d+] is the float nearest to the integer
    written. *)
Lemma float_of_decimal_integer (ip : string) :
  is_digits ip = true ->
  float_of_decimal ip = PyFloat.nearest (int_of_digits ip) 1.
Proof.
  intros [Hip _]%andb_true_iff. unfold float_of_decimal.
  rewrite <- (append_empty_r ip) at 1.
  by rewrite span_digits_stop.
Qed.

(** [float] of a match of [\d+.\d+] is the float nearest to the decimal
    written: the integer written by all its digits, over the power of
    ten of its number of decimals. *)
Lemma float_of_decimal_fraction (ip fp : string) :
  is_digits ip = true ->
  float_of_decimal (ip +:+ "." +:+ fp)
  = PyFloat.nearest (int_of_digits (ip +:+ fp))
                    (10 ^ Z.of_nat (String.length fp)).
Proof.
  intros [Hip _]%andb_true_iff. unfold float_of_decimal.
  rewrite span_digits_stop; [done|done|].
  intros c r' [= <- _]. reflexivity.
Qed.

End PairCaptures.

(* ===================================================================== *)
(** * The price book *)
(* ===================================================================== *)

Section PriceBook.
Import PyFloat Api.
Variable py_float : string -> option float.

(** An empty raw price resolves to 0.0. *)
Lemma _parse_price_empty : _parse_price py_float EmptyString = zero.
Proof. reflexivity. Qed.

(** A raw price that [float] rejects resolves to 0.0. *)
Lemma _parse_price_malformed (value : string) :
  py_float value = None -> _parse_price py_float value = zero.
Proof.
  intros Hraise. unfold _parse_price.
  case_bool_decide; [done|]. by rewrite Hraise.
Qed.

End PriceBook.

Section Dict.
Context {V : Type}.

Lemma dict_get_set_eq (k : string) (v : V) (d : PyDict.dict V) :
  PyDict.get k (PyDict.set k v d) = Some v.
Proof.
  induction d as [|[k' v'] d IH]; simpl.
  - by rewrite String.eqb_refl.
  - destruct (String.eqb k' k) eqn:Hk; simpl.
    + by rewrite String.eqb_refl.
    + by rewrite Hk.
Qed.

Lemma dict_get_set_ne (k k' : string) (v : V) (d : PyDict.dict V) :
  k ≠ k' -> PyDict.get k' (PyDict.set k v d) = PyDict.get k' d.
Proof.
  intros Hne. induction d as [|[k0 v0] d IH]; simpl.
  - by apply String.eqb_neq in Hne as ->.
  - destruct (String.eqb_spec k0 k) as [->|Hk0]; simpl.
    + by apply String.eqb_neq in Hne as ->.
    + by rewrite IH.
Qed.

End Dict.

Section PriceIndex.
Import Api.
Variable py_float : string -> option PyFloat.float.

(** An entry is indexed under its canonical slug and under its
    identifier, and both keys hold the same record. *)
Lemma index_entry_lookup (pricing_map : PyDict.dict PriceInfo) (model : RawModel) :
  raw_canonical_slug model ≠ EmptyString -> raw_id model ≠ EmptyString ->
  PyDict.get (raw_canonical_slug model) (index_entry py_float pricing_map model)
  = Some (price_entry py_float model)
  ∧ PyDict.get (raw_id model) (index_entry py_float pricing_map model)
    = Some (price_entry py_float model).
Proof.
  intros Hslug Hid. unfold index_entry.
  rewrite !bool_decide_eq_false_2 by done. split.
  - destruct (decide (raw_id model = raw_canonical_slug model)) as [->|Hne].
    + apply dict_get_set_eq.
    + rewrite dict_get_set_ne by done. apply dict_get_set_eq.
  - apply dict_get_set_eq.
Qed.

End PriceIndex.

(** C7. If the parsed reasoning price of a raw pricing entry compares
    equal to 0.0, the reasoning price of the record built from the entry
    is the parsed completion price. *)
Theorem reasoning_price_falls_back_to_completion
    (py_float : string -> option PyFloat.float) (model : Api.RawModel) :
  PyFloat.eqb
    (Api._parse_price py_float
       (Api.price_field (Api.raw_pricing model) "internal_reasoning" ""))
    PyFloat.zero = true ->
  Api.reasoning_price (Api.price_entry py_float model)
  = Api._parse_price py_float
      (Api.price_field (Api.raw_pricing model) "completion" "0").
Proof.
  intros Hzero. unfold Api.price_entry. cbn [Api.reasoning_price].
  by rewrite Hzero.
Qed.

Lemma reasoning_price_falls_back_to_completion_witness :
  Api.reasoning_price (Api.price_entry Api.decimal_float entry_002)
  = PyFloat.nearest 2 100.
Proof.
  rewrite (reasoning_price_falls_back_to_completion Api.decimal_float entry_002).
  - vm_compute. reflexivity.
  - vm_compute. reflexivity.
Defined.

(* ===================================================================== *)
(** * The chart extractor *)
(* ===================================================================== *)

Section ChartEntries.
Import Text Scraper Spec.

Lemma models_sum_insert_fresh (models : gmap string Z) (k : string) (v : Z) :
  models !! k = None -> models_sum (<[k := v]> models) = v + models_sum models.
Proof.
  intros Hfresh. unfold models_sum.
  rewrite map_fold_insert_L; [done| |done]. intros. lia.
Qed.

Lemma models_sum_delete (models : gmap string Z) (k : string) (v : Z) :
  models !! k = Some v -> models_sum models = v + models_sum (delete k models).
Proof.
  intros Hk. unfold models_sum.
  rewrite (map_fold_delete_L _ _ k v models); [done| |done]. intros. lia.
Qed.

(** Overwriting a key replaces its old volume in the sum. *)
Lemma models_sum_insert (models : gmap string Z) (k : string) (v : Z) :
  models_sum (<[k := v]> models)
  = v + models_sum models - default 0 (models !! k).
Proof.
  destruct (models !! k) as [v0|] eqn:Hk; simpl.
  - rewrite <- (insert_delete_eq models k v).
    rewrite models_sum_insert_fresh by apply lookup_delete_eq.
    rewrite (models_sum_delete models k v0) by done. lia.
  - rewrite models_sum_insert_fresh by done. lia.
Qed.

Lemma add_pair_volumes_ok acc acc' (p : string * string) :
  add_pair acc p = Some acc' -> volumes_ok acc -> volumes_ok acc'.
Proof.
  destruct acc as [[models others] total]. unfold add_pair, volumes_ok.
  destruct (tokens_of p.2) as [tokens|] eqn:Htokens; simpl; [|done].
  apply tokens_of_nonneg in Htokens.
  intros Hacc (Hothers & Hmodels & Hsum).
  destruct (String.eqb p.1 "Others"); injection Hacc as <-; simpl.
  - repeat split; [done|done|lia].
  - repeat split; [done|by apply map_Forall_insert_2|].
    rewrite models_sum_insert.
    destruct (models !! p.1) as [v0|] eqn:Hk; simpl; [|lia].
    apply Hmodels in Hk. simpl in Hk. lia.
Qed.

Lemma add_pairs_volumes_ok (pairs : list (string * string)) acc acc' :
  add_pairs acc pairs = Some acc' -> volumes_ok acc -> volumes_ok acc'.
Proof.
  revert acc. induction pairs as [|p pairs IH]; intros acc; simpl.
  - by intros [= <-].
  - destruct (add_pair acc p) as [acc1|] eqn:Hstep; simpl; [|done].
    intros Hrest Hacc. apply (IH acc1 Hrest).
    by apply (add_pair_volumes_ok acc acc1 p).
Qed.

Lemma add_pairs_total (pairs : list (string * string)) acc acc' :
  add_pairs acc pairs = Some acc' ->
  ∃ s, pairs_total pairs = Some s ∧ acc'.2 = acc.2 + s.
Proof.
  revert acc. induction pairs as [|p pairs IH]; intros acc; simpl.
  - intros [= <-]. exists 0. split; [done|lia].
  - destruct acc as [[models others] total]. unfold add_pair at 1.
    destruct (tokens_of p.2) as [tokens|]; simpl; [|done].
    destruct (String.eqb p.1 "Others"); simpl; intros Hrest;
      destruct (IH _ Hrest) as (s & -> & ->); simpl;
      exists (tokens + s); (split; [done|lia]).
Qed.

(** With pairwise distinct keys nothing is overwritten. *)
Lemma add_pairs_distinct (pairs : list (string * string)) acc acc' :
  add_pairs acc pairs = Some acc' ->
  NoDup pairs.*1 ->
  (∀ k, k ∈ pairs.*1 -> acc.1.1 !! k = None) ->
  ("Others" ∈ pairs.*1 -> acc.1.2 = 0) ->
  models_sum acc.1.1 + acc.1.2 = acc.2 ->
  models_sum acc'.1.1 + acc'.1.2 = acc'.2.
Proof.
  revert acc. induction pairs as [|p pairs IH]; intros acc; simpl.
  - by intros [= <-].
  - destruct acc as [[models others] total]. unfold add_pair at 1.
    destruct (tokens_of p.2) as [tokens|]; simpl; [|done].
    intros Hrest [Hp Hnodup]%NoDup_cons Hfresh Hothers Hsum.
    destruct (String.eqb_spec p.1 "Others") as [Hkey|Hkey];
      apply (IH _ Hrest Hnodup); simpl.
    + intros k Hk. apply Hfresh. by right.
    + intros Hin. rewrite Hkey in Hp. done.
    + rewrite Hothers in Hsum by (rewrite <- Hkey; left). lia.
    + intros k Hk. rewrite lookup_insert_ne; [apply Hfresh; by right|].
      intros Heq. by rewrite <- Heq in Hk.
    + intros Hin. apply Hothers. by right.
    + rewrite models_sum_insert_fresh by (apply Hfresh; left). lia.
Qed.

Lemma build_entry_spec (date_str : string) (pairs : list (string * string))
    (e : WeeklyChartEntry) :
  has_model_slugs pairs = true ->
  build_entry date_str pairs = Some e -> entry_of_pairs e pairs.
Proof.
  unfold build_entry. intros Hslugs.
  destruct (add_pairs (∅, 0, 0) pairs) as [[[ms os] tot]|] eqn:Hloop;
    simpl; [|done].
  intros [= <-]. unfold entry_of_pairs, build_entry.
  cbn [week_start models others total]. rewrite Hloop.
  split; [done|]. split; [done|].
  destruct (add_pairs_total _ _ _ Hloop) as (s & Hs & Htotal).
  simpl in Htotal. subst tot.
  pose proof (add_pairs_volumes_ok _ _ _ Hloop) as Hok.
  destruct Hok as (Ho & _ & Hsum).
  { repeat split; simpl; [done|apply map_Forall_empty|].
    unfold models_sum. rewrite map_fold_empty. lia. }
  simpl in Ho, Hsum.
  split; [by rewrite Hs|]. split; [done|]. split; [lia|].
  intros Hnodup. symmetry.
  apply (add_pairs_distinct _ _ _ Hloop Hnodup); simpl; done.
Qed.

Lemma collect_entries_accounted (matches : list (string * string))
    (es : list WeeklyChartEntry) :
  collect_entries matches = Some es -> Forall entry_accounted es.
Proof.
  revert es. induction matches as [|[date_str from_brace] matches IH];
    intros es; simpl.
  - by intros [= <-].
  - case_bool_decide; [by apply IH|].
    destruct (has_model_slugs _) eqn:Hslugs; simpl; [|by apply IH].
    destruct (build_entry _ _) as [e|] eqn:Hbuild; simpl; [|done].
    destruct (collect_entries matches) as [es'|]; simpl; [|done].
    intros [= <-]. constructor; [|by apply IH].
    exists (pairs_of from_brace). by eapply build_entry_spec.
Qed.

End ChartEntries.

(* ===================================================================== *)
(** * The order of strings *)
(* ===================================================================== *)

Section StringOrder.

Lemma string_compare_trans_le (a b c : string) :
  String.compare a b ≠ Gt -> String.compare b c ≠ Gt ->
  String.compare a c ≠ Gt.
Proof.
  revert b c. induction a as [|x a IH]; intros [|y b] [|z c]; simpl; try done.
  unfold Ascii.compare.
  destruct (N.compare_spec (N_of_ascii x) (N_of_ascii y)) as [Hxy|Hxy|Hxy];
    destruct (N.compare_spec (N_of_ascii y) (N_of_ascii z)) as [Hyz|Hyz|Hyz];
    destruct (N.compare_spec (N_of_ascii x) (N_of_ascii z)) as [Hxz|Hxz|Hxz];
    try done; try lia.
  apply IH.
Qed.

Lemma string_leb_trans (a b c : string) :
  String.leb a b = true -> String.leb b c = true -> String.leb a c = true.
Proof.
  unfold String.leb. intros Hab Hbc.
  pose proof (string_compare_trans_le a b c) as Htrans.
  destruct (String.compare a b), (String.compare b c), (String.compare a c);
    try done; exfalso; by apply Htrans.
Qed.

Lemma string_ltb_leb (a b : string) :
  String.ltb a b = true -> String.leb a b = true.
Proof. unfold String.ltb, String.leb. by destruct (String.compare a b). Qed.

Lemma string_ltb_false_leb (a b : string) :
  String.ltb a b = false -> String.leb b a = true.
Proof.
  unfold String.ltb, String.leb. rewrite (String.compare_antisym a b).
  by destruct (String.compare b a).
Qed.

End StringOrder.

Section Selection.
Import Text Scraper Spec.

Lemma insert_by_week_perm (e : WeeklyChartEntry) (l : list WeeklyChartEntry) :
  insert_by_week e l ≡ₚ e :: l.
Proof.
  induction l as [|y l IH]; simpl; [done|].
  destruct (String.ltb _ _); [|done]. rewrite IH. apply Permutation_swap.
Qed.

Lemma sorted_by_week_perm (l : list WeeklyChartEntry) : sorted_by_week l ≡ₚ l.
Proof.
  induction l as [|e l IH]; simpl; [done|].
  by rewrite insert_by_week_perm, IH.
Qed.

Lemma insert_by_week_sorted (e : WeeklyChartEntry) (l : list WeeklyChartEntry) :
  StronglySorted week_le l -> StronglySorted week_le (insert_by_week e l).
Proof.
  induction 1 as [|y l Hsorted IH Hy]; simpl.
  - repeat constructor.
  - destruct (String.ltb _ _) eqn:Hlt.
    + constructor; [done|].
      rewrite insert_by_week_perm. constructor; [|done].
      by apply string_ltb_leb.
    + assert (week_le e y) as Hey by by apply string_ltb_false_leb.
      constructor; [by constructor|].
      constructor; [done|].
      eapply Forall_impl; [exact Hy|].
      intros z Hyz. unfold week_le in *. by eapply string_leb_trans.
Qed.

Lemma sorted_by_week_sorted (l : list WeeklyChartEntry) :
  StronglySorted week_le (sorted_by_week l).
Proof.
  induction l as [|e l IH]; simpl; [constructor|].
  by apply insert_by_week_sorted.
Qed.

(** The loop over the scripts looks at the segments of at least 1000
    characters and keeps the first of the longest entry lists. *)
Lemma select_best_segments (script_tags : list string)
    (best_entries : list WeeklyChartEntry) :
  select_best best_entries script_tags
  = ess ← mapM script_entries
             (filter (fun script => (1000 <= String.length script)%nat)
                     script_tags);
    Some (foldl keep_larger best_entries ess).
Proof.
  revert best_entries.
  induction script_tags as [|script script_tags IH]; intros best_entries;
    simpl; [done|].
  rewrite filter_cons.
  destruct (Nat.ltb_spec (String.length script) 1000) as [Hshort|Hlong].
  - rewrite decide_False by lia. apply IH.
  - rewrite decide_True by lia. simpl.
    destruct (script_entries script) as [entries|]; simpl; [|done].
    rewrite IH.
    by destruct (mapM script_entries _).
Qed.

Lemma foldl_keep_larger (ess : list (list WeeklyChartEntry))
    (best_entries : list WeeklyChartEntry) :
  (length best_entries <= length (foldl keep_larger best_entries ess))%nat
  ∧ Forall (fun es =>
              (length es <= length (foldl keep_larger best_entries ess))%nat)
           ess
  ∧ (foldl keep_larger best_entries ess = best_entries
     ∨ ∃ i : nat,
         ess !! i = Some (foldl keep_larger best_entries ess)
         ∧ (length best_entries
            < length (foldl keep_larger best_entries ess))%nat
         ∧ ∀ (j : nat) es,
             (j < i)%nat -> ess !! j = Some es ->
             (length es < length (foldl keep_larger best_entries ess))%nat).
Proof.
  revert best_entries.
  induction ess as [|es ess IH]; intros best_entries; simpl.
  - split; [done|]. split; [constructor|by left].
  - destruct (IH (keep_larger best_entries es)) as (Hle & Hall & Hpick).
    set (r := foldl keep_larger (keep_larger best_entries es) ess) in *.
    assert (length best_entries <= length (keep_larger best_entries es)
            ∧ length es <= length (keep_larger best_entries es))%nat
      as [Hb Hes].
    { unfold keep_larger.
      destruct (Nat.ltb_spec (length best_entries) (length es)); lia. }
    split; [lia|]. split; [constructor; [lia|done]|].
    destruct Hpick as [Hkeep|(i & Hi & Hlt & Hfirst)].
    + unfold keep_larger in Hkeep.
      destruct (Nat.ltb_spec (length best_entries) (length es)) as [Hlt|Hge].
      * right. exists 0%nat. rewrite Hkeep. simpl.
        split; [done|]. split; [done|]. intros j es' Hj. lia.
      * by left.
    + right. exists (S i). simpl. split; [done|]. split; [lia|].
      intros [|j] es' Hj; simpl.
      * intros [= <-]. lia.
      * apply Hfirst. lia.
Qed.

(** Entries without a model key are passed over. *)
Lemma collect_entries_no_slugs (matches : list (string * string)) :
  Forall (fun m => has_model_slugs (pairs_of m.2) = false) matches ->
  collect_entries matches = Some [].
Proof.
  induction 1 as [|[date_str from_brace] matches Hm _ IH]; simpl; [done|].
  simpl in Hm. rewrite Hm. simpl. by case_bool_decide.
Qed.

Lemma collect_entries_length (matches : list (string * string))
    (es : list WeeklyChartEntry) :
  collect_entries matches = Some es ->
  length es
  = length (filter (fun m => has_model_slugs (pairs_of m.2) = true) matches).
Proof.
  revert es. induction matches as [|[date_str from_brace] matches IH];
    intros es; simpl.
  - by intros [= <-].
  - destruct (has_model_slugs (pairs_of from_brace)) eqn:Hslugs.
    + rewrite filter_cons_True by done.
      rewrite bool_decide_eq_false_2.
      2:{ intros Hnone. by rewrite Hnone in Hslugs. }
      simpl.
      destruct (build_entry _ _) as [e|]; simpl; [|done].
      destruct (collect_entries matches) as [es'|]; simpl; [|done].
      intros [= <-]. simpl. f_equal. by apply IH.
    + rewrite filter_cons_False by (simpl; by rewrite Hslugs).
      simpl. case_bool_decide; apply IH.
Qed.

Lemma mapM_script_entries_length (scripts : list string)
    (ess : list (list WeeklyChartEntry)) :
  mapM script_entries scripts = Some ess ->
  Forall2 (fun script es => length es = accepted_count script) scripts ess.
Proof.
  intros Hess%mapM_Some.
  induction Hess as [|script es scripts ess Hscript _ IH]; constructor;
    [|done].
  by apply collect_entries_length in Hscript.
Qed.

End Selection.

Section Shapes.
Import Text Scraper Spec.

Lemma scan_Forall {A} (P : A -> Prop) (m : string -> option (A * string)) :
  (∀ s a rest, m s = Some (a, rest) -> P a) ->
  ∀ s skip, Forall P (scan m skip s).
Proof.
  intros Hm. induction s as [|c s IH]; intros skip; simpl; [constructor|].
  destruct skip as [|k]; [|apply IH].
  destruct (m (String c s)) as [[a rest]|] eqn:Hmatch; [|apply IH].
  constructor; [by eapply Hm|apply IH].
Qed.

Lemma chart_marker_date (s date_str from_brace rest : string) :
  chart_marker s = Some ((date_str, from_brace), rest) ->
  ∃ y m d, iso_shaped date_str y m d.
Proof.
  unfold chart_marker.
  destruct (strip_prefix _ s) as [s1|]; cbn -[strip_prefix iso_date]; [|done].
  destruct (iso_date s1) as [[date s2]|] eqn:Hdate;
    cbn -[strip_prefix iso_date]; [|done].
  destruct (strip_prefix _ _) as [s3|]; cbn -[strip_prefix iso_date]; [|done].
  intros [= <- _ _]. by eapply iso_date_shaped.
Qed.

Lemma collect_entries_dates (matches : list (string * string))
    (es : list WeeklyChartEntry) :
  Forall (fun m => ∃ y mo d, iso_shaped m.1 y mo d) matches ->
  collect_entries matches = Some es -> Forall week_is_date es.
Proof.
  intros Hmatches. revert es.
  induction Hmatches as [|[date_str from_brace] matches Hm _ IH];
    intros es; simpl.
  - by intros [= <-].
  - case_bool_decide; [by apply IH|].
    destruct (has_model_slugs _); simpl; [|by apply IH].
    unfold build_entry.
    destruct (add_pairs _ _) as [[[ms os] tot]|]; simpl; [|done].
    destruct (collect_entries matches) as [es'|]; simpl; [|done].
    intros [= <-]. constructor; [done|by apply IH].
Qed.

Lemma script_entries_dates (script : string) (es : list WeeklyChartEntry) :
  script_entries script = Some es -> Forall week_is_date es.
Proof.
  apply collect_entries_dates. apply scan_Forall.
  intros s [date_str from_brace] rest. apply chart_marker_date.
Qed.

Lemma mapM_script_entries_dates (scripts : list string)
    (ess : list (list WeeklyChartEntry)) :
  mapM script_entries scripts = Some ess -> Forall (Forall week_is_date) ess.
Proof.
  intros Hess%mapM_Some.
  induction Hess as [|script es scripts ess Hscript _ IH]; constructor;
    [|done].
  by apply script_entries_dates in Hscript.
Qed.

Lemma week_le_not_after (a b : WeeklyChartEntry) :
  week_is_date a -> week_is_date b -> week_le a b -> week_not_after a b.
Proof.
  intros (ya & ma & da & Ha) (yb & mb & db & Hb).
  unfold week_le, week_not_after, String.leb.
  rewrite (compare_iso_dates _ _ _ _ _ _ _ _ Ha Hb).
  destruct (Z.compare_spec (date_number (week_start a))
                           (date_number (week_start b))); try done; lia.
Qed.

Lemma StronglySorted_week_not_after (l : list WeeklyChartEntry) :
  Forall week_is_date l -> StronglySorted week_le l ->
  StronglySorted week_not_after l.
Proof.
  intros Hdates Hsorted.
  induction Hsorted as [|a l Hsorted IH Ha]; [constructor|].
  apply Forall_cons in Hdates as [Hda Hdl].
  constructor; [by apply IH|].
  rewrite Forall_forall in Ha, Hdl. apply Forall_forall.
  intros b Hb. apply week_le_not_after; auto.
Qed.

End Shapes.

Section Raises.
Import Scraper Spec.

(** The extractor raises exactly when the number conversion raises in
    one of the segments kept. *)
Lemma scrape_rankings_history_raises (html : string) :
  scrape_rankings_history html = None
  ↔ mapM script_entries (segments html) = None.
Proof.
  unfold scrape_rankings_history. rewrite select_best_segments.
  fold (segments html).
  by destruct (mapM script_entries (segments html)).
Qed.

End Raises.

Example scrape_rankings_history_nested_chart_page :
  Scraper.scrape_rankings_history nested_chart_page
  = Some [entry "2025-01-06" [("a/b", 4); ("c/d", 2)] 9 15;
          entry "2025-01-13" [("a/b", 3)] 7 15].
Proof. vm_compute. reflexivity. Qed.

(** C4, as stated, fails: a key met twice in the span of an entry counts
    twice in the total and once in the map. *)
Lemma chart_entry_total_exceeds_parts :
  ¬ (∀ entries e,
       Scraper.scrape_rankings_history nested_chart_page = Some entries ->
       e ∈ entries ->
       Scraper.total e = Spec.models_sum (Scraper.models e) + Scraper.others e
       ∧ 0 <= Scraper.others e).
Proof.
  intros Hclaim.
  destruct (Hclaim _ (entry "2025-01-13" [("a/b", 3)] 7 15)
              scrape_rankings_history_nested_chart_page) as [Htotal _].
  - right. left.
  - vm_compute in Htotal. discriminate.
Qed.

Section ExtractedPairs.
Import Text Scraper Spec.

(** What holds of an entry and of any pairs that build it. *)
Lemma build_entry_accounts (date_str : string) (pairs : list (string * string))
    (e : WeeklyChartEntry) :
  build_entry date_str pairs = Some e ->
  week_start e = date_str
  ∧ pairs_total pairs = Some (total e)
  ∧ 0 <= others e
  ∧ models_sum (models e) + others e <= total e
  ∧ (NoDup pairs.*1 -> total e = models_sum (models e) + others e).
Proof.
  unfold build_entry.
  destruct (add_pairs (∅, 0, 0) pairs) as [[[ms os] tot]|] eqn:Hloop;
    simpl; [|done].
  intros [= <-]. cbn [week_start models others total].
  split; [done|].
  destruct (add_pairs_total _ _ _ Hloop) as (s & Hs & Htotal).
  simpl in Htotal. subst tot.
  pose proof (add_pairs_volumes_ok _ _ _ Hloop) as Hok.
  destruct Hok as (Ho & _ & Hsum).
  { repeat split; simpl; [done|apply map_Forall_empty|].
    unfold models_sum. rewrite map_fold_empty. lia. }
  simpl in Ho, Hsum.
  split; [by rewrite Hs|]. split; [done|]. split; [lia|].
  intros Hnodup. symmetry.
  apply (add_pairs_distinct _ _ _ Hloop Hnodup); simpl; done.
Qed.

(** Every entry the loop over the marker matches returns is built from
    the pairs of one of the matches, under its date. *)
Lemma collect_entries_extracted (matches : list (string * string))
    (es : list WeeklyChartEntry) :
  collect_entries matches = Some es ->
  Forall (fun e => ∃ from_brace,
            (week_start e, from_brace) ∈ matches
            ∧ entry_of_pairs e (pairs_of from_brace)) es.
Proof.
  revert es. induction matches as [|[date_str from_brace] matches IH];
    intros es; simpl.
  - by intros [= <-].
  - assert (∀ es', collect_entries matches = Some es' ->
                   Forall (fun e => ∃ from_brace',
                             (week_start e, from_brace')
                             ∈ (date_str, from_brace) :: matches
                             ∧ entry_of_pairs e (pairs_of from_brace')) es')
      as IH'.
    { intros es' Hes'. eapply Forall_impl; [by apply IH|].
      intros e (fb & Hin & He). exists fb. split; [by right|done]. }
    case_bool_decide; [by apply IH'|].
    destruct (has_model_slugs _) eqn:Hslugs; simpl; [|by apply IH'].
    destruct (build_entry _ _) as [e|] eqn:Hbuild; simpl; [|done].
    destruct (collect_entries matches) as [es'|]; simpl; [|done].
    intros [= <-]. constructor; [|by apply IH'].
    exists from_brace.
    pose proof (build_entry_accounts _ _ _ Hbuild) as (Hdate & _).
    rewrite Hdate. split; [by left|]. by eapply build_entry_spec.
Qed.

End ExtractedPairs.

(** C4, amended. Every entry produced is built from the pairs extracted
    for it: the matches of the pair pattern in a chart object that a
    segment of the page holds under the week start of the entry.  Its
    total is the sum of the numbers of these pairs, its others bucket is
    non-negative, and the total is at least the named volumes plus the
    others bucket, with equality when no key occurs twice among the
    pairs; and the same holds of any list of pairs that builds the
    entry. *)
Theorem chart_entry_total_accounts_for_pairs
    (html : string) (entries : list Scraper.WeeklyChartEntry)
    (e : Scraper.WeeklyChartEntry) :
  Scraper.scrape_rankings_history html = Some entries ->
  e ∈ entries ->
  (∃ pairs,
     Spec.extracted_pairs html (Scraper.week_start e) pairs
     ∧ Scraper.build_entry (Scraper.week_start e) pairs = Some e
     ∧ Spec.pairs_total pairs = Some (Scraper.total e)
     ∧ (NoDup pairs.*1 ->
        Scraper.total e
        = Spec.models_sum (Scraper.models e) + Scraper.others e))
  ∧ 0 <= Scraper.others e
  ∧ Spec.models_sum (Scraper.models e) + Scraper.others e <= Scraper.total e
  ∧ ∀ pairs,
      Scraper.build_entry (Scraper.week_start e) pairs = Some e ->
      Spec.pairs_total pairs = Some (Scraper.total e)
      ∧ (NoDup pairs.*1 ->
         Scraper.total e
         = Spec.models_sum (Scraper.models e) + Scraper.others e).
Proof.
  unfold Scraper.scrape_rankings_history. rewrite select_best_segments.
  fold (Spec.segments html).
  destruct (mapM Scraper.script_entries _) as [ess|] eqn:Hess; simpl; [|done].
  intros [= <-] He. rewrite sorted_by_week_perm in He.
  apply mapM_Some in Hess.
  destruct (foldl_keep_larger ess []) as (_ & _ & [Hnone|(i & Hi & _)]).
  { rewrite Hnone in He. by apply elem_of_nil in He. }
  destruct (Forall2_lookup_r _ _ _ _ _ Hess Hi) as (script & Hscript & Hrun).
  pose proof (collect_entries_extracted _ _ Hrun) as Hall.
  rewrite Forall_forall in Hall.
  destruct (Hall e He) as (from_brace & Hmatch & Hbuild & _ & Htotal & Ho & Hle & Heq).
  split; [|split; [done|split; [done|]]].
  - exists (Scraper.pairs_of from_brace). split; [|done].
    exists script, from_brace. split; [|done].
    by eapply list_elem_of_lookup_2.
  - intros pairs Hpairs.
    destruct (build_entry_accounts _ _ _ Hpairs) as (_ & Hp & _ & _ & Hq).
    done.
Qed.

Lemma chart_entry_total_accounts_for_pairs_witness :
  ∃ pairs,
    Spec.extracted_pairs nested_chart_page "2025-01-06" pairs
    ∧ Scraper.build_entry "2025-01-06" pairs
      = Some (entry "2025-01-06" [("a/b", 4); ("c/d", 2)] 9 15)
    ∧ Spec.pairs_total pairs = Some 15.
Proof.
  destruct (chart_entry_total_accounts_for_pairs nested_chart_page _
              (entry "2025-01-06" [("a/b", 4); ("c/d", 2)] 9 15)
              scrape_rankings_history_nested_chart_page)
    as ((pairs & Hextracted & Hbuild & Htotal & _) & _).
  - left.
  - exists pairs. exact (conj Hextracted (conj Hbuild Htotal)).
Defined.

(** C5. Each segment kept yields as many accepted entries as it has
    marker matches holding a key with a slash; among the segments kept,
    the extractor selects the first one with the greatest number of
    accepted entries; a segment none of whose entries holds a key with a
    slash yields no accepted entry, and a segment without accepted
    entries is never the selected one; the output is the selected list in
    ascending order of week start, which is the chronological order of
    the dates. *)
Theorem chart_extractor_selects_first_largest
    (html : string) (ess : list (list Scraper.WeeklyChartEntry)) :
  mapM Scraper.script_entries (Spec.segments html) = Some ess ->
  ∃ best,
    Scraper.scrape_rankings_history html = Some (Scraper.sorted_by_week best)
    ∧ Forall2 (fun script es => length es = Spec.accepted_count script)
              (Spec.segments html) ess
    ∧ Forall (fun es => (length es <= length best)%nat) ess
    ∧ ((best = [] ∧ Forall (fun es => es = []) ess)
       ∨ (best ≠ []
          ∧ ∃ i : nat,
              ess !! i = Some best
              ∧ ∀ (j : nat) es,
                  (j < i)%nat -> ess !! j = Some es ->
                  (length es < length best)%nat))
    ∧ (∀ script,
         Spec.no_model_slugs script -> Scraper.script_entries script = Some [])
    ∧ Scraper.sorted_by_week best ≡ₚ best
    ∧ StronglySorted Spec.week_le (Scraper.sorted_by_week best)
    ∧ Forall Spec.week_is_date (Scraper.sorted_by_week best)
    ∧ StronglySorted Spec.week_not_after (Scraper.sorted_by_week best).
Proof.
  intros Hess. exists (foldl Spec.keep_larger [] ess).
  destruct (foldl_keep_larger ess []) as (_ & Hmax & Hpick).
  assert (Forall Spec.week_is_date
            (Scraper.sorted_by_week (foldl Spec.keep_larger [] ess)))
    as Hdates.
  { rewrite sorted_by_week_perm.
    destruct Hpick as [->|(i & Hi & _)]; [constructor|].
    pose proof (mapM_script_entries_dates _ _ Hess) as Hall.
    by apply (Forall_lookup_1 _ _ _ _ Hall) in Hi. }
  split; [|split; [|split; [done|split; [|split; [|split; [|split; [|split]]]]]]].
  - unfold Scraper.scrape_rankings_history. rewrite select_best_segments.
    fold (Spec.segments html). by rewrite Hess.
  - by apply mapM_script_entries_length.
  - destruct Hpick as [Hnone|(i & Hi & Hlt & Hfirst)].
    + left. split; [done|]. rewrite Hnone in Hmax.
      eapply Forall_impl; [exact Hmax|]. intros [|e es]; simpl; [done|lia].
    + right. split; [|by exists i].
      intros Hempty. rewrite Hempty in Hlt. simpl in Hlt. lia.
  - intros script Hscript. by apply collect_entries_no_slugs.
  - apply sorted_by_week_perm.
  - apply sorted_by_week_sorted.
  - done.
  - apply StronglySorted_week_not_after; [done|apply sorted_by_week_sorted].
Qed.

Example scrape_rankings_history_three_chart_page :
  Scraper.scrape_rankings_history three_chart_page
  = Some [entry "2025-01-06" [("c/d", 4)] 0 4;
          entry "2025-01-13" [("a/b", 5)] 7 12].
Proof. vm_compute. reflexivity. Qed.

Lemma chart_extractor_selects_first_largest_witness :
  mapM Scraper.script_entries (Spec.segments three_chart_page)
  = Some [[entry "2025-01-20" [("a/b", 1)] 0 1];
          [entry "2025-01-13" [("a/b", 5)] 7 12;
           entry "2025-01-06" [("c/d", 4)] 0 4];
          []]
  ∧ ∃ best,
      Scraper.scrape_rankings_history three_chart_page
      = Some (Scraper.sorted_by_week best)
      ∧ StronglySorted Spec.week_not_after (Scraper.sorted_by_week best).
Proof.
  assert (mapM Scraper.script_entries (Spec.segments three_chart_page)
          = Some [[entry "2025-01-20" [("a/b", 1)] 0 1];
                  [entry "2025-01-13" [("a/b", 5)] 7 12;
                   entry "2025-01-06" [("c/d", 4)] 0 4];
                  []]) as Hess by (vm_compute; reflexivity).
  split; [exact Hess|].
  destruct (chart_extractor_selects_first_largest three_chart_page _ Hess)
    as (best & Hrun & _ & _ & _ & _ & _ & _ & _ & Hsorted).
  exists best. exact (conj Hrun Hsorted).
Defined.

(* ===================================================================== *)
(** * The daily analytics extractor *)
(* ===================================================================== *)

Section Daily.
Import Text Scraper Spec.

Lemma sum_on_absent {E} (date : E -> string) (f : E -> Z) (d : string)
    (es : list E) :
  on_date date d es = false -> sum_on date f d es = 0.
Proof.
  induction es as [|e es IH]; simpl; [done|].
  intros [Hne Hes]%orb_false_iff. rewrite Hne. auto.
Qed.

Lemma sum_on_le {E} (date : E -> string) (f g : E -> Z) (d : string)
    (es : list E) :
  Forall (fun e => f e <= g e) es -> sum_on date f d es <= sum_on date g d es.
Proof.
  induction 1 as [|e es He _ IH]; simpl; [done|].
  case_bool_decide; lia.
Qed.

(** The loop that sums the cached counts by date. *)
Lemma foldl_add_cached_lookup (es : list (string * string))
    (m : gmap string Z) (d : string) :
  foldl add_cached m es !! d
  = if on_date fst d es
    then Some (default 0 (m !! d)
               + sum_on fst (fun e => Text.int_of_digits e.2) d es)
    else m !! d.
Proof.
  revert m. induction es as [|e es IH]; intros m; simpl; [done|].
  rewrite IH. unfold add_cached. simpl.
  case_bool_decide as Hd; simpl.
  - rewrite Hd, lookup_insert_eq. simpl.
    destruct (on_date fst d es) eqn:Hes; f_equal; [lia|].
    rewrite sum_on_absent by done. lia.
  - by rewrite lookup_insert_ne.
Qed.

(** The grouping loop. *)
Lemma foldl_add_daily_lookup
    (es : list (string * string * string * string * string * string))
    (m : gmap string DailyRecord) (d : string) :
  foldl add_daily m es !! d
  = if on_date daily_date d es
    then
      let r := default zero_record (m !! d) in
      Some {| prompt := prompt r + sum_on daily_date daily_prompt d es;
              completion := completion r + sum_on daily_date daily_completion d es;
              reasoning := reasoning r + sum_on daily_date daily_reasoning d es;
              cached := cached r;
              count := count r + sum_on daily_date daily_count d es |}
    else m !! d.
Proof.
  revert m. induction es as [|e es IH]; intros m; simpl; [done|].
  rewrite IH.
  destruct e as [[[[[date_str variant] comp] prompt_str] reasoning_str] count_str].
  unfold daily_date, daily_prompt, daily_completion, daily_reasoning,
    daily_count. simpl.
  case_bool_decide as Hd; simpl.
  - subst date_str. rewrite lookup_insert_eq. simpl.
    destruct (on_date _ d es) eqn:Hes.
    + f_equal. f_equal; lia.
    + f_equal. rewrite !sum_on_absent by done. f_equal; lia.
  - by rewrite lookup_insert_ne.
Qed.

(** The merge of the cached counts into the grouped records. *)
Lemma map_fold_merge_cached_lookup (daily_totals : gmap string DailyRecord)
    (cached_by_date : gmap string Z) (d : string) :
  map_fold merge_cached daily_totals cached_by_date !! d
  = (fun r => {| prompt := prompt r; completion := completion r;
                 reasoning := reasoning r;
                 cached := default (cached r) (cached_by_date !! d);
                 count := count r |}) <$> daily_totals !! d.
Proof.
  revert d.
  apply (map_fold_weak_ind
           (fun (r : gmap string DailyRecord) (m : gmap string Z) =>
              ∀ d, r !! d
                   = (fun t => {| prompt := prompt t; completion := completion t;
                                  reasoning := reasoning t;
                                  cached := default (cached t) (m !! d);
                                  count := count t |}) <$> daily_totals !! d)).
  - intros d. rewrite lookup_empty. simpl.
    destruct (daily_totals !! d) as [[]|]; done.
  - intros i x m r Hfresh IH d. unfold merge_cached.
    destruct (decide (i = d)) as [->|Hne].
    + rewrite lookup_insert_eq. pose proof (IH d) as Hd.
      rewrite Hfresh in Hd. rewrite Hd.
      destruct (daily_totals !! d) as [t|]; simpl; [|done].
      by rewrite lookup_insert_eq.
    + rewrite (lookup_insert_ne m) by done.
      rewrite <- (IH d).
      destruct (r !! i); [by rewrite lookup_insert_ne|done].
Qed.

(** What the extractor holds for a date. *)
Lemma _extract_daily_data_lookup (html d : string) :
  _extract_daily_data html !! d
  = if on_date daily_date d (Text.findall daily_pattern html)
    then Some (grouped_record d (Text.findall daily_pattern html)
                                (Text.findall cached_pattern html))
    else None.
Proof.
  unfold _extract_daily_data. case_bool_decide as Hnone.
  - rewrite Hnone. done.
  - rewrite map_fold_merge_cached_lookup, foldl_add_daily_lookup,
      foldl_add_cached_lookup.
    destruct (on_date daily_date d _); [|done].
    rewrite !lookup_empty. simpl. unfold grouped_record. f_equal.
    f_equal.
    destruct (on_date fst d _) eqn:Hcached; simpl; [done|].
    by rewrite sum_on_absent.
Qed.

Lemma number_field_digits (name s digits rest : string) :
  number_field name s = Some (digits, rest) -> is_digits digits = true.
Proof.
  unfold number_field.
  destruct (quoted_name name s) as [s1|]; cbn -[strip_prefix span1]; [|done].
  destruct (strip_prefix ":" s1) as [s2|]; cbn -[strip_prefix span1]; [|done].
  apply span1_is_digits.
Qed.

(** The numbers a first-pattern match captures are matches of [\d+],
    on which [int_of_digits] is [int]. *)
Lemma daily_pattern_numbers (s rest : string)
    (e : string * string * string * string * string * string) :
  daily_pattern s = Some (e, rest) ->
  is_digits e.1.1.1.2 = true ∧ is_digits e.1.1.2 = true
  ∧ is_digits e.1.2 = true ∧ is_digits e.2 = true.
Proof.
  unfold daily_pattern.
  repeat
    (match goal with
     | |- context [mbind _ (number_field ?n ?x)] =>
         let H := fresh "Hnum" in
         destruct (number_field n x) as [[? ?]|] eqn:H;
         [apply number_field_digits in H|];
         cbn -[strip_prefix span quoted_name Q number_field date_field];
         [|done]
     | |- context [mbind _ ?o] =>
         destruct o as [?|];
         cbn -[strip_prefix span quoted_name Q number_field date_field];
         [|done]
     | |- context [let '(_, _) := ?p in _] => destruct p
     | |- context [match ?p with (_, _) => _ end] => destruct p
     end).
  intros [= <- _]. simpl. done.
Qed.

Lemma lazy_cached_field_digits (s digits rest : string) :
  lazy_cached_field s = Some (digits, rest) -> is_digits digits = true.
Proof.
  induction s as [|c s IH]; cbn -[number_field];
    destruct (number_field "total_native_tokens_cached" _)
      as [[digits' rest']|] eqn:Hnum.
  - intros [= <- _]. by eapply number_field_digits.
  - done.
  - intros [= <- _]. by eapply number_field_digits.
  - destruct (Ascii.eqb c newline); [done|apply IH].
Qed.

Lemma cached_pattern_number (s rest : string) (e : string * string) :
  cached_pattern s = Some (e, rest) -> is_digits e.2 = true.
Proof.
  unfold cached_pattern.
  destruct (date_field s) as [[date_str s1]|];
    cbn -[quoted_name lazy_cached_field]; [|done].
  destruct (quoted_name _ s1) as [s2|];
    cbn -[quoted_name lazy_cached_field]; [|done].
  destruct (lazy_cached_field s2) as [[cached s3]|] eqn:Hlazy;
    cbn -[quoted_name lazy_cached_field]; [|done].
  intros [= <- _]. by eapply lazy_cached_field_digits.
Qed.

End Daily.

(** C9. The record the extractor holds for a date is the field-wise sum
    of the first-pattern matches of that date, with the sum of the
    second-pattern matches of that date as cached count (0 when there is
    none); a date without first-pattern match has no record. *)
Theorem daily_record_is_grouped_sum (html d : string) :
  Scraper._extract_daily_data html !! d
  = (if Spec.on_date Spec.daily_date d (Text.findall Scraper.daily_pattern html)
     then Some (Spec.grouped_record d
                  (Text.findall Scraper.daily_pattern html)
                  (Text.findall Scraper.cached_pattern html))
     else None)
  ∧ (Spec.on_date fst d (Text.findall Scraper.cached_pattern html) = false ->
     Scraper.cached
       (Spec.grouped_record d
          (Text.findall Scraper.daily_pattern html)
          (Text.findall Scraper.cached_pattern html)) = 0).
Proof.
  split; [apply _extract_daily_data_lookup|].
  intros Hnone. simpl. by apply sum_on_absent.
Qed.

Example _extract_daily_data_analytics_page :
  map_to_list (Scraper._extract_daily_data analytics_page)
  = [("2025-01-13",
      {| Scraper.prompt := 22; Scraper.completion := 11;
         Scraper.reasoning := 3; Scraper.cached := 12; Scraper.count := 3 |});
     ("2025-01-14",
      {| Scraper.prompt := 5; Scraper.completion := 4;
         Scraper.reasoning := 1; Scraper.cached := 0; Scraper.count := 1 |})].
Proof. vm_compute. reflexivity. Qed.

(** C8, as stated, fails: the extractor copies the counts of the page. *)
Lemma daily_record_reasoning_above_completion :
  ¬ (∀ d r, Scraper._extract_daily_data reasoning_heavy_page !! d = Some r ->
            Scraper.completion r >= Scraper.reasoning r).
Proof.
  intros Hinv.
  specialize (Hinv "2025-01-13"
    {| Scraper.prompt := 2; Scraper.completion := 1; Scraper.reasoning := 30;
       Scraper.cached := 0; Scraper.count := 1 |}).
  vm_compute in Hinv. apply Hinv; reflexivity.
Qed.

(** C8, amended. When every first-pattern match of the page has a
    completion count at least its reasoning count, so has every record
    the extractor produces. *)
Theorem daily_record_completion_covers_reasoning
    (html d : string) (r : Scraper.DailyRecord) :
  Forall (fun e => Spec.daily_reasoning e <= Spec.daily_completion e)
         (Text.findall Scraper.daily_pattern html) ->
  Scraper._extract_daily_data html !! d = Some r ->
  Scraper.completion r >= Scraper.reasoning r.
Proof.
  intros Hentries. rewrite _extract_daily_data_lookup.
  destruct (Spec.on_date _ d _); [|done].
  intros [= <-]. simpl. apply Z.le_ge. by apply sum_on_le.
Qed.

Lemma daily_record_completion_covers_reasoning_witness :
  ∃ r,
    Scraper._extract_daily_data analytics_page !! "2025-01-13" = Some r
    ∧ Scraper.completion r >= Scraper.reasoning r.
Proof.
  eexists. split; [vm_compute; reflexivity|].
  apply (daily_record_completion_covers_reasoning analytics_page "2025-01-13").
  - vm_compute. repeat constructor; discriminate.
  - vm_compute. reflexivity.
Defined.

(* ===================================================================== *)
(** * The window aggregator *)
(* ===================================================================== *)

Section Window.
Import Scraper Spec.
Variable daily_data : gmap Z DailyRecord.

(** The accumulation loop adds the window sum to its accumulator. *)
Lemma foldl_add_day (dates : list Z) (acc : Activity) :
  foldl (add_day daily_data) acc dates
  = {| prompt_tokens := prompt_tokens acc + field_sum prompt daily_data dates;
       completion_tokens :=
         completion_tokens acc + field_sum completion daily_data dates;
       reasoning_tokens :=
         reasoning_tokens acc + field_sum reasoning daily_data dates;
       cached_tokens := cached_tokens acc + field_sum cached daily_data dates;
       request_count := request_count acc + field_sum count daily_data dates |}.
Proof.
  revert acc. induction dates as [|d dates IH]; intros acc; simpl.
  - destruct acc; simpl; f_equal; lia.
  - rewrite IH. unfold add_day.
    destruct (daily_data !! d) as [day|]; simpl; f_equal; lia.
Qed.

Lemma foldl_add_day_zero (dates : list Z) :
  foldl (add_day daily_data) zero_activity dates = window_sum daily_data dates.
Proof. rewrite foldl_add_day. reflexivity. Qed.

(** Without the partial-day rule the loop keeps every candidate. *)
Lemma candidate_dates_all (end_date today : Z) (range : list Z) :
  candidate_dates end_date today false range
  = (fun i => end_date - i) <$> range.
Proof. induction range as [|i range IH]; simpl; [done|]. by rewrite IH. Qed.

(** With the rule, the loop keeps the candidates other than today. *)
Lemma candidate_dates_skip (end_date today : Z) (range : list Z) :
  candidate_dates end_date today true range
  = filter (fun d => d ≠ today) ((fun i => end_date - i) <$> range).
Proof.
  induction range as [|i range IH]; simpl; [done|].
  rewrite filter_cons. case_bool_decide; case_decide; try done; by rewrite IH.
Qed.

Lemma filter_all {A} (P : A -> Prop) `{!∀ x, Decision (P x)} (l : list A) :
  Forall P l -> filter P l = l.
Proof.
  induction 1 as [|x l Hx _ IH]; [done|].
  by rewrite filter_cons_True, IH.
Qed.

Lemma filter_days_back_outside (end_date today first n : Z) :
  today <= end_date - (first + n) ∨ end_date - first < today ->
  filter (fun d => d ≠ today) (days_back end_date first n)
  = days_back end_date first n.
Proof.
  intros Hout. apply filter_all. unfold days_back.
  apply Forall_fmap, Forall_seqZ. intros i Hi. simpl. lia.
Qed.

Lemma days_back_app (end_date first n1 n2 : Z) :
  0 <= n1 -> 0 <= n2 ->
  days_back end_date first (n1 + n2)
  = days_back end_date first n1 ++ days_back end_date (first + n1) n2.
Proof.
  intros Hn1 Hn2. unfold days_back. by rewrite seqZ_app, fmap_app.
Qed.

Lemma days_back_nil (end_date first n : Z) :
  n <= 0 -> days_back end_date first n = [].
Proof. intros Hn. unfold days_back. by rewrite seqZ_nil. Qed.

Lemma days_back_split (end_date first n k : Z) :
  0 <= k <= n ->
  days_back end_date first n
  = days_back end_date first k ++ days_back end_date (first + k) (n - k).
Proof.
  intros Hk. rewrite <- days_back_app by lia. f_equal. lia.
Qed.

Lemma days_back_cons (end_date first n : Z) :
  0 < n ->
  days_back end_date first n
  = (end_date - first) :: days_back end_date (first + 1) (n - 1).
Proof. intros Hn. by rewrite (days_back_split _ _ _ 1) by lia. Qed.

Lemma days_back_snoc (end_date first n : Z) :
  0 < n ->
  days_back end_date first n
  = days_back end_date first (n - 1) ++ [end_date - (first + n - 1)].
Proof.
  intros Hn. rewrite (days_back_split _ _ _ (n - 1)) by lia.
  replace (n - (n - 1)) with 1 by lia.
  rewrite (days_back_cons _ _ 1) by lia.
  rewrite (days_back_nil _ _ (1 - 1)) by lia.
  do 3 f_equal. lia.
Qed.

Lemma length_days_back (end_date first n : Z) :
  length (days_back end_date first n) = Z.to_nat n.
Proof. unfold days_back. by rewrite length_fmap, length_seqZ. Qed.

(** The dates summed when the clock reads the end date itself. *)
Lemma dates_to_sum_today (end_date days : Z) :
  dates_to_sum end_date days true end_date = days_back end_date 1 days.
Proof.
  unfold dates_to_sum, utcnow. rewrite candidate_dates_skip.
  fold (days_back end_date 0 days).
  rewrite bool_decide_eq_true_2 by done. simpl.
  destruct (decide (days <= 0)) as [Hle|Hpos].
  - rewrite !days_back_nil by lia. rewrite filter_nil. simpl.
    rewrite bool_decide_eq_false_2 by lia. done.
  - rewrite (days_back_cons end_date 0 days) by lia.
    rewrite filter_cons_False by (intros Hne; apply Hne; lia).
    rewrite filter_days_back_outside by lia.
    rewrite length_days_back.
    rewrite bool_decide_eq_true_2 by lia.
    rewrite (days_back_snoc end_date 1 days) by lia.
    do 3 f_equal. lia.
Qed.

(** The dates summed when the rule is off, or when the clock reads a
    date outside the window. *)
Lemma dates_to_sum_outside (end_date days now : Z) (skip_partial : bool) :
  skip_partial = false ∨ now <= end_date - days ∨ end_date < now ->
  dates_to_sum end_date days skip_partial now = days_back end_date 0 days.
Proof.
  intros Hout. unfold dates_to_sum, utcnow.
  destruct skip_partial; simpl.
  - destruct Hout as [?|Hout]; [done|].
    rewrite candidate_dates_skip. fold (days_back end_date 0 days).
    rewrite filter_days_back_outside by lia.
    case_bool_decide as Heq; simpl; [|done].
    rewrite length_days_back.
    rewrite bool_decide_eq_false_2; [done|]. lia.
  - by rewrite candidate_dates_all.
Qed.

(** The dates summed when the clock reads a date strictly inside the
    window: today is passed over and nothing replaces it. *)
Lemma dates_to_sum_inside (end_date days now : Z) :
  end_date - days < now < end_date ->
  dates_to_sum end_date days true now
  = days_back end_date 0 (end_date - now)
    ++ days_back end_date (end_date - now + 1) (days - (end_date - now) - 1).
Proof.
  intros Hin. unfold dates_to_sum, utcnow.
  rewrite candidate_dates_skip. fold (days_back end_date 0 days).
  rewrite (bool_decide_eq_false_2 (end_date = now)) by lia.
  rewrite andb_false_r.
  rewrite (days_back_split end_date 0 days (end_date - now)) by lia.
  rewrite (days_back_cons end_date (0 + (end_date - now))) by lia.
  rewrite filter_app.
  rewrite filter_cons_False by (intros Hne; apply Hne; lia).
  rewrite !filter_days_back_outside by lia.
  do 2 f_equal; lia.
Qed.

End Window.

(** The test of the specification: days 3 to 9 sum to 42. *)
Example sum_daily_window_ten_days :
  Scraper.prompt_tokens (Scraper.sum_daily_window ten_days 10 7 true 10) = 42
  ∧ Scraper.prompt_tokens (Scraper.sum_daily_window ten_days 10 7 false 10) = 49.
Proof. split; vm_compute; reflexivity. Qed.

(** C10. With the partial-day rule on and the clock reading a date
    strictly inside the window, that date is left out and no earlier
    date replaces it: [days - 1] dates are summed. *)
Theorem partial_day_inside_window_not_replaced
    (daily_data : gmap Z Scraper.DailyRecord) (D days now : Z) :
  D - days < now < D ->
  Scraper.dates_to_sum D days true now
  = filter (fun d => d ≠ now) (Spec.days_back D 0 days)
  ∧ Z.of_nat (length (Scraper.dates_to_sum D days true now)) = days - 1
  ∧ (D - days ∉ Scraper.dates_to_sum D days true now)
  ∧ Scraper.sum_daily_window daily_data D days true now
    = Spec.window_sum daily_data
        (filter (fun d => d ≠ now) (Spec.days_back D 0 days)).
Proof.
  intros Hin.
  assert (Scraper.dates_to_sum D days true now
          = filter (fun d => d ≠ now) (Spec.days_back D 0 days)) as Hdates.
  { rewrite dates_to_sum_inside by done.
    rewrite (days_back_split D 0 days (D - now)) by lia.
    rewrite (days_back_cons D (0 + (D - now))) by lia.
    rewrite filter_app.
    rewrite filter_cons_False by (intros Hne; apply Hne; lia).
    rewrite !filter_days_back_outside by lia.
    do 2 f_equal; lia. }
  split; [done|]. split; [|split].
  - rewrite dates_to_sum_inside by done.
    rewrite length_app, !length_days_back. lia.
  - rewrite Hdates, list_elem_of_filter. unfold Spec.days_back.
    rewrite list_elem_of_fmap. setoid_rewrite elem_of_seqZ.
    intros [_ (i & Hi & Hrange)]. lia.
  - unfold Scraper.sum_daily_window. rewrite Hdates.
    apply foldl_add_day_zero.
Qed.

Lemma partial_day_inside_window_not_replaced_witness :
  Scraper.dates_to_sum 10 7 true 8 = [10; 9; 7; 6; 5; 4]
  ∧ Scraper.prompt_tokens (Scraper.sum_daily_window ten_days 10 7 true 8) = 41.
Proof.
  destruct (partial_day_inside_window_not_replaced ten_days 10 7 8)
    as (Hdates & _ & _ & Hsum); [lia|].
  split.
  - rewrite Hdates. vm_compute. reflexivity.
  - rewrite Hsum. vm_compute. reflexivity.
Defined.

(** C6, as stated, fails on the window sum: the same explicit inputs
    give two results under two readings of the clock. *)
Lemma sum_daily_window_depends_on_clock :
  Scraper.sum_daily_window ten_days 10 7 true 10
  ≠ Scraper.sum_daily_window ten_days 10 7 true 11.
Proof. vm_compute. discriminate. Qed.

(** C6, amended. The extractors are functions of the page text alone.
    The window sum is a function of its explicit inputs and of the date
    the clock reads: two runs on the same inputs agree when the
    partial-day rule is off, when both read the same date, or when
    both dates read are outside the window. *)
Theorem core_operations_deterministic
    (html1 html2 : string) (daily_data : gmap Z Scraper.DailyRecord)
    (D days now1 now2 : Z) (skip_partial : bool) :
  html1 = html2 ->
  skip_partial = false ∨ now1 = now2
  ∨ ((now1 <= D - days ∨ D < now1) ∧ (now2 <= D - days ∨ D < now2)) ->
  Scraper.scrape_rankings_history html1 = Scraper.scrape_rankings_history html2
  ∧ Scraper._extract_daily_data html1 = Scraper._extract_daily_data html2
  ∧ Scraper.sum_daily_window daily_data D days skip_partial now1
    = Scraper.sum_daily_window daily_data D days skip_partial now2.
Proof.
  intros -> Hclock. split; [done|]. split; [done|].
  unfold Scraper.sum_daily_window.
  destruct Hclock as [Hoff|[->|[Hout1 Hout2]]]; [|done|].
  - by rewrite !dates_to_sum_outside by auto.
  - by rewrite !dates_to_sum_outside by auto.
Qed.

Lemma core_operations_deterministic_witness :
  Scraper.sum_daily_window ten_days 10 7 true 11
  = Scraper.sum_daily_window ten_days 10 7 true 3.
Proof.
  apply (core_operations_deterministic EmptyString EmptyString ten_days
           10 7 11 3 true); [reflexivity|].
  right. right. lia.
Defined.

(* ===================================================================== *)
(** * The order of floats *)
(* ===================================================================== *)

Section FloatOrder.

Lemma lex_compare_antisym e1 m1 e2 m2 :
  PyFloat.lex_compare e2 m2 e1 m1 = CompOpp (PyFloat.lex_compare e1 m1 e2 m2).
Proof.
  unfold PyFloat.lex_compare. rewrite (Z.compare_antisym e1 e2).
  destruct (e1 ?= e2); simpl; try done.
  apply (Pos.compare_antisym m1 m2).
Qed.

Lemma lex_compare_trans_le e1 m1 e2 m2 e3 m3 :
  PyFloat.lex_compare e1 m1 e2 m2 ≠ Gt -> PyFloat.lex_compare e2 m2 e3 m3 ≠ Gt ->
  PyFloat.lex_compare e1 m1 e3 m3 ≠ Gt.
Proof.
  unfold PyFloat.lex_compare.
  change (Pos.compare_cont Eq m1 m2) with (m1 ?= m2)%positive.
  change (Pos.compare_cont Eq m2 m3) with (m2 ?= m3)%positive.
  change (Pos.compare_cont Eq m1 m3) with (m1 ?= m3)%positive.
  destruct (Z.compare_spec e1 e2), (Z.compare_spec e2 e3),
    (Z.compare_spec e1 e3); try done; try lia;
  destruct (Pos.compare_spec m1 m2), (Pos.compare_spec m2 m3),
    (Pos.compare_spec m1 m3); try done; lia.
Qed.

Lemma SFcompare_finite s1 m1 e1 s2 m2 e2 :
  SFcompare (S754_finite s1 m1 e1) (S754_finite s2 m2 e2)
  = Some match s1, s2 with
         | true, false => Lt
         | false, true => Gt
         | false, false => PyFloat.lex_compare e1 m1 e2 m2
         | true, true => CompOpp (PyFloat.lex_compare e1 m1 e2 m2)
         end.
Proof.
  simpl. unfold PyFloat.lex_compare. destruct s1, s2; try done;
    by destruct (e1 ?= e2).
Qed.

Lemma SFcompare_antisym (x y : spec_float) :
  SFcompare y x = CompOpp <$> SFcompare x y.
Proof.
  destruct x as [sx|sx| |sx mx ex], y as [sy|sy| |sy my ey];
    try rewrite !SFcompare_finite; simpl;
    try done; try (by destruct sx); try (by destruct sy);
    try (by destruct sx, sy).
  rewrite (lex_compare_antisym ex mx ey my).
  destruct sx, sy; simpl; try done; f_equal;
    by destruct (PyFloat.lex_compare ex mx ey my).
Qed.

Lemma SFltb_SFleb (x y : spec_float) : SFltb x y = true -> SFleb x y = true.
Proof. unfold SFltb, SFleb. by destruct (SFcompare x y) as [[]|]. Qed.

Lemma SFltb_false_SFleb (x y : spec_float) :
  PyFloat.is_nan x = false -> PyFloat.is_nan y = false ->
  SFltb x y = false -> SFleb y x = true.
Proof.
  unfold SFltb, SFleb. rewrite (SFcompare_antisym x y).
  intros Hx Hy.
  destruct (SFcompare x y) as [[]|] eqn:Hc; simpl; try done.
  destruct x, y; simpl in *; done.
Qed.

Lemma SFleb_trans (x y z : spec_float) :
  SFleb x y = true -> SFleb y z = true -> SFleb x z = true.
Proof.
  unfold SFleb.
  destruct x as [sx|sx| |sx mx ex], y as [sy|sy| |sy my ey],
    z as [sz|sz| |sz mz ez];
    try rewrite !SFcompare_finite; simpl; try done;
    try (by destruct sx); try (by destruct sy); try (by destruct sz);
    try (by destruct sx, sy); try (by destruct sx, sz);
    try (by destruct sy, sz); try (by destruct sx, sy, sz).
  destruct sx, sy, sz; simpl; try done.
  - pose proof (lex_compare_trans_le ez mz ey my ex mx) as Htrans.
    rewrite (lex_compare_antisym ex mx ey my),
      (lex_compare_antisym ey my ez mz),
      (lex_compare_antisym ex mx ez mz) in Htrans.
    destruct (PyFloat.lex_compare ex mx ey my), (PyFloat.lex_compare ey my ez mz),
      (PyFloat.lex_compare ex mx ez mz); simpl in *; try done;
      intros _ _; exfalso; by apply Htrans.
  - pose proof (lex_compare_trans_le ex mx ey my ez mz) as Htrans.
    destruct (PyFloat.lex_compare ex mx ey my), (PyFloat.lex_compare ey my ez mz),
      (PyFloat.lex_compare ex mx ez mz); simpl in *; try done;
      intros _ _; exfalso; by apply Htrans.
Qed.

End FloatOrder.

(* ===================================================================== *)
(** * The revenue reconciler *)
(* ===================================================================== *)

Section Reconciler.
Import PyFloat Calculator Spec.

Variable activities : gmap string Scraper.Activity.
Variable pricing : PyDict.dict Api.PriceInfo.

(** What one round of the loop adds to the state. *)
Lemma process_model_spec (st st' : LoopState) (model : RankedModel.t) :
  process_model activities pricing st model = Some st' ->
  ∃ revenue record,
    model_revenue activities pricing model = Some revenue
    ∧ models_result st' = models_result st ++ [record]
    ∧ RevenueRecord.estimated_revenue record = round revenue 2
    ∧ RevenueRecord.total_tokens record = RankedModel.total_tokens model
    ∧ RevenueRecord.slug record = RankedModel.slug model
    ∧ total_revenue st' = add (total_revenue st) revenue
    ∧ total_tokens st' = total_tokens st + RankedModel.total_tokens model.
Proof.
  unfold process_model, model_revenue. intros Hstep.
  destruct (ratios _ _ _) as [[[pr cr] rr]|]; simpl in Hstep; [|done].
  destruct (revenue_of _ _ _ _ _ _) as [revenue|]; simpl in Hstep; [|done].
  injection Hstep as <-. simpl. eauto 10.
Qed.

(** What the whole loop adds to the state. *)
Lemma process_models_spec (rankings : list RankedModel.t) (st st' : LoopState) :
  process_models activities pricing st rankings = Some st' ->
  ∃ revenues records,
    mapM (model_revenue activities pricing) rankings = Some revenues
    ∧ models_result st' = models_result st ++ records
    ∧ RevenueRecord.estimated_revenue <$> records
      = (fun revenue => round revenue 2) <$> revenues
    ∧ RevenueRecord.total_tokens <$> records
      = RankedModel.total_tokens <$> rankings
    ∧ RevenueRecord.slug <$> records = RankedModel.slug <$> rankings
    ∧ total_revenue st' = foldl add (total_revenue st) revenues
    ∧ total_tokens st' = total_tokens st + Spec.leaderboard_total rankings.
Proof.
  revert st. induction rankings as [|model rankings IH]; intros st; simpl.
  - intros [= <-]. exists [], []. rewrite app_nil_r.
    repeat split; try done. lia.
  - destruct (process_model activities pricing st model) as [st1|] eqn:Hstep;
      simpl; [|done].
    intros Hrest.
    destruct (process_model_spec _ _ _ Hstep)
      as (revenue & record & Hrev & Hres & Hest & Htok & Hslug & Htot & Hsum).
    destruct (IH _ Hrest)
      as (revenues & records & Hrevs & Hres' & Hest' & Htok' & Hslug' & Htot' & Hsum').
    exists (revenue :: revenues), (record :: records).
    rewrite !fmap_cons, Hest, Hest', Htok, Htok', Hslug, Hslug'.
    split; [simpl; by rewrite Hrev, Hrevs|].
    split; [by rewrite Hres', Hres, <- app_assoc|].
    repeat split; try done.
    + simpl. by rewrite Htot', Htot.
    + simpl. rewrite Hsum', Hsum. lia.
Qed.

Lemma insert_by_revenue_perm (x : RevenueRecord.t) (l : list RevenueRecord.t) :
  insert_by_revenue x l ≡ₚ x :: l.
Proof.
  induction l as [|y l IH]; simpl; [done|].
  destruct (ltb _ _); [|done]. rewrite IH. apply Permutation_swap.
Qed.

Lemma sort_by_revenue_perm (l : list RevenueRecord.t) : sort_by_revenue l ≡ₚ l.
Proof.
  induction l as [|x l IH]; simpl; [done|].
  by rewrite insert_by_revenue_perm, IH.
Qed.

Lemma insert_by_revenue_sorted (x : RevenueRecord.t) (l : list RevenueRecord.t) :
  revenue_known x -> Forall Spec.revenue_known l ->
  StronglySorted revenue_ge l ->
  StronglySorted revenue_ge (insert_by_revenue x l).
Proof.
  intros Hx Hl Hsorted.
  induction Hsorted as [|y l Hsorted IH Hy]; simpl.
  - repeat constructor.
  - apply Forall_cons in Hl as [Hy_known Hl].
    destruct (ltb _ _) eqn:Hlt.
    + constructor; [by apply IH|].
      rewrite insert_by_revenue_perm. constructor; [|done].
      by apply SFltb_SFleb.
    + assert (revenue_ge x y) as Hxy by by apply SFltb_false_SFleb.
      constructor; [by constructor|].
      constructor; [done|].
      eapply Forall_impl; [exact Hy|].
      intros z Hyz. unfold revenue_ge in *. by eapply SFleb_trans.
Qed.

Lemma sort_by_revenue_sorted (l : list RevenueRecord.t) :
  Forall Spec.revenue_known l -> StronglySorted revenue_ge (sort_by_revenue l).
Proof.
  induction 1 as [|x l Hx Hl IH]; simpl; [constructor|].
  apply insert_by_revenue_sorted; [done| |done].
  by rewrite sort_by_revenue_perm.
Qed.

End Reconciler.

Section ZeroEvidence.
Import PyFloat Calculator Spec.

Variable activities : gmap string Scraper.Activity.
Variable pricing : PyDict.dict Api.PriceInfo.

(** No tokens at finite prices earn a zero. *)
Lemma revenue_of_no_tokens (prompt_price completion_price cache_read_price : float) :
  is_finite prompt_price = true -> is_finite completion_price = true ->
  is_finite cache_read_price = true ->
  ∃ s, revenue_of 0 0 0 prompt_price completion_price cache_read_price
       = Some (S754_zero s).
Proof.
  destruct prompt_price as [s1|s1| |s1 m1 e1]; try done;
    destruct completion_price as [s2|s2| |s2 m2 e2]; try done;
    destruct cache_read_price as [s3|s3| |s3 m3 e3]; try done;
    intros _ _ _; destruct s1, s2, s3; eexists; reflexivity.
Qed.

Lemma process_model_zero_evidence (st st' : LoopState) (model : RankedModel.t) :
  process_model activities pricing st model = Some st' ->
  observed_total activities model = 0 ->
  ∃ record,
    models_result st' = models_result st ++ [record]
    ∧ zero_evidence_record activities model record.
Proof.
  unfold process_model, observed_total, ratios. intros Hstep Htotal.
  rewrite Htotal in Hstep. rewrite bool_decide_eq_false_2 in Hstep by lia.
  simpl in Hstep.
  destruct (revenue_of _ _ _ _ _ _) as [revenue|] eqn:Hrev; simpl in Hstep;
    [|done].
  injection Hstep as <-. eexists. split; [reflexivity|].
  unfold zero_evidence_record. simpl. repeat split.
  intros Hprompt Hcached Hpp Hcp Hcrp.
  assert (Scraper.completion_tokens
            (default Scraper.zero_activity (activities !! RankedModel.slug model))
          = 0) as Hcompletion by lia.
  rewrite Hprompt, Hcompletion, Hcached in Hrev.
  destruct (revenue_of_no_tokens _ _ _ Hpp Hcp Hcrp) as [s Hzero].
  rewrite Hzero in Hrev. injection Hrev as <-. by destruct s.
Qed.

Lemma process_models_extends (rankings : list RankedModel.t)
    (st st' : LoopState) :
  process_models activities pricing st rankings = Some st' ->
  ∃ records, models_result st' = models_result st ++ records.
Proof.
  intros Hloop.
  destruct (process_models_spec _ _ _ _ _ Hloop) as (_ & records & _ & Hres & _).
  by exists records.
Qed.

Lemma process_models_zero_evidence (rankings : list RankedModel.t)
    (st st' : LoopState) (model : RankedModel.t) :
  process_models activities pricing st rankings = Some st' ->
  model ∈ rankings ->
  observed_total activities model = 0 ->
  ∃ record,
    record ∈ models_result st' ∧ zero_evidence_record activities model record.
Proof.
  revert st. induction rankings as [|model' rankings IH]; intros st; simpl.
  - intros _ Hin. by apply elem_of_nil in Hin.
  - destruct (process_model activities pricing st model') as [st1|] eqn:Hstep;
      simpl; [|done].
    intros Hrest [->|Hin]%elem_of_cons Htotal.
    + destruct (process_model_zero_evidence _ _ _ Hstep Htotal)
        as (record & Hres & Hrecord).
      destruct (process_models_extends _ _ _ Hrest) as [records Hres'].
      exists record. split; [|done].
      rewrite Hres', Hres. set_solver.
    + by apply (IH st1).
Qed.

(** The part of the zero-evidence rule that holds of every input. *)
Lemma zero_evidence_rule (rankings : list RankedModel.t)
    (report : RevenueReport.t) (model : RankedModel.t) :
  calculate_revenue rankings activities pricing = Some report ->
  model ∈ rankings ->
  observed_total activities model = 0 ->
  ∃ record,
    record ∈ RevenueReport.models report
    ∧ zero_evidence_record activities model record.
Proof.
  unfold calculate_revenue. intros Hrun Hin Htotal.
  destruct (process_models activities pricing initial_state rankings)
    as [st|] eqn:Hloop; simpl in Hrun; [|done].
  injection Hrun as <-. simpl.
  destruct (process_models_zero_evidence _ _ _ _ Hloop Hin Htotal)
    as (record & Hrecord & Hfacts).
  exists record. split; [|done]. by rewrite sort_by_revenue_perm.
Qed.

End ZeroEvidence.

(** The concrete case of the specification. *)
Example calculate_revenue_concrete_case :
  (fun report => RevenueReport.total_revenue report)
    <$> Calculator.calculate_revenue
          [ranked 1 "a/b" 1500000]
          {[ "a/b" := activity 1000000 500000 100000 200000 ]}
          [priced "a/b" (PyFloat.nearest 3 1000000) (PyFloat.nearest 15 1000000)
                        (PyFloat.nearest 5 10000000)]
  = Some (PyFloat.nearest 1060 100).
Proof. vm_compute. reflexivity. Qed.

Section Earnings.
Import PyFloat Calculator Spec.

Variable activities : gmap string Scraper.Activity.
Variable pricing : PyDict.dict Api.PriceInfo.

(** One round of the loop appends the record of the model, holding the
    revenue of the model. *)
Lemma process_model_earns (st st' : LoopState) (model : RankedModel.t) :
  process_model activities pricing st model = Some st' ->
  ∃ record,
    models_result st' = models_result st ++ [record]
    ∧ earns activities pricing model record.
Proof.
  unfold process_model, earns, model_revenue. intros Hstep.
  destruct (ratios _ _ _) as [[[pr cr] rr]|]; simpl in Hstep; [|done].
  destruct (revenue_of _ _ _ _ _ _) as [revenue|] eqn:Hrev; simpl in Hstep;
    [|done].
  injection Hstep as <-. eexists. split; [reflexivity|].
  split; [reflexivity|]. by exists revenue.
Qed.

Lemma process_models_earn (rankings : list RankedModel.t)
    (st st' : LoopState) :
  process_models activities pricing st rankings = Some st' ->
  ∃ records,
    models_result st' = models_result st ++ records
    ∧ Forall2 (earns activities pricing) rankings records.
Proof.
  revert st. induction rankings as [|model rankings IH]; intros st; simpl.
  - intros [= <-]. exists []. by rewrite app_nil_r.
  - destruct (process_model activities pricing st model) as [st1|] eqn:Hstep;
      simpl; [|done].
    intros Hrest.
    destruct (process_model_earns _ _ _ Hstep) as (record & Hres & Hrec).
    destruct (IH _ Hrest) as (records & Hres' & Hrecs).
    exists (record :: records). split; [|by constructor].
    by rewrite Hres', Hres, <- app_assoc.
Qed.

End Earnings.

(** C3, as stated, fails in two ways.  On the total revenue: two
    revenues of 0.004 round to 0.0 each, and the report's total is 0.01.
    On the order: a revenue that is a NaN compares as neither smaller
    nor greater, so the sort leaves the revenues 1.0, NaN, 2.0 in this
    order, the greatest last. *)
Lemma revenue_report_total_and_order_fail :
  ¬ (∀ report,
       Calculator.calculate_revenue two_small_rankings two_small_activities
         two_small_pricing = Some report ->
       RevenueReport.total_revenue report
       = Spec.rounded_total (RevenueReport.models report))
  ∧ ∃ report,
      Calculator.calculate_revenue nan_priced_rankings nan_priced_activities
        nan_priced_pricing = Some report
      ∧ RevenueRecord.estimated_revenue <$> RevenueReport.models report
        = [PyFloat.nearest 1 1; S754_nan; PyFloat.nearest 2 1]
      ∧ ¬ StronglySorted Spec.revenue_ge (RevenueReport.models report).
Proof.
  split.
  - intros Hclaim.
    destruct (Calculator.calculate_revenue two_small_rankings
                two_small_activities two_small_pricing) as [report|] eqn:Hrun;
      [|vm_compute in Hrun; discriminate].
    specialize (Hclaim report eq_refl).
    vm_compute in Hrun. injection Hrun as <-.
    vm_compute in Hclaim. discriminate.
  - destruct (Calculator.calculate_revenue nan_priced_rankings
                nan_priced_activities nan_priced_pricing)
      as [report|] eqn:Hrun; [|vm_compute in Hrun; discriminate].
    exists report. split; [done|].
    vm_compute in Hrun. injection Hrun as <-.
    split; [vm_compute; reflexivity|].
    intros Hsorted. apply StronglySorted_inv in Hsorted as [_ Hfirst].
    apply Forall_cons in Hfirst as [Hge _].
    vm_compute in Hge. discriminate.
Qed.

(** C3, amended. The total revenue of the report is the sum of the
    unrounded per-model revenues, accumulated in rank order from 0.0 and
    rounded once to 2 decimals; the records of the report are, in some
    order, one record per ranked model, each holding the listing of its
    model and the revenue of that model rounded to 2 decimals; the total
    tokens are the sum of the leaderboard totals; and the records are in
    descending order of estimated revenue when no estimated revenue is a
    NaN. *)
Theorem revenue_report_aggregates
    (rankings : list RankedModel.t) (activities : gmap string Scraper.Activity)
    (pricing : PyDict.dict Api.PriceInfo) (report : RevenueReport.t) :
  Calculator.calculate_revenue rankings activities pricing = Some report ->
  (∃ revenues records,
     mapM (Spec.model_revenue activities pricing) rankings = Some revenues
     ∧ RevenueReport.total_revenue report
       = PyFloat.round (foldl PyFloat.add PyFloat.zero revenues) 2
     ∧ RevenueReport.models report ≡ₚ records
     ∧ Forall2 (Spec.earns activities pricing) rankings records
     ∧ RevenueRecord.estimated_revenue <$> records
       = (fun revenue => PyFloat.round revenue 2) <$> revenues)
  ∧ RevenueReport.total_tokens report = Spec.leaderboard_total rankings
  ∧ RevenueRecord.total_tokens <$> RevenueReport.models report
    ≡ₚ RankedModel.total_tokens <$> rankings
  ∧ (Forall Spec.revenue_known (RevenueReport.models report) ->
     StronglySorted Spec.revenue_ge (RevenueReport.models report)).
Proof.
  unfold Calculator.calculate_revenue. intros Hrun.
  destruct (Calculator.process_models activities pricing
              Calculator.initial_state rankings) as [st|] eqn:Hloop;
    simpl in Hrun; [|done].
  injection Hrun as <-. simpl in *.
  destruct (process_models_spec _ _ _ _ _ Hloop)
    as (revenues & records & Hrevs & Hres & Hest & Htok & _ & Htot & Hsum).
  destruct (process_models_earn _ _ _ _ _ Hloop) as (records' & Hres' & Hearn).
  simpl in Hres, Hres'. subst records records'.
  split; [|split; [|split]].
  - exists revenues, (Calculator.models_result st).
    split; [done|]. split; [by rewrite Htot|].
    split; [apply sort_by_revenue_perm|]. by split.
  - rewrite Hsum. simpl. lia.
  - by rewrite sort_by_revenue_perm, Htok.
  - intros Hknown. apply sort_by_revenue_sorted.
    by rewrite <- sort_by_revenue_perm.
Qed.

Lemma revenue_report_aggregates_witness :
  ∃ report,
    Calculator.calculate_revenue two_small_rankings two_small_activities
      two_small_pricing = Some report
    ∧ RevenueReport.total_revenue report = PyFloat.nearest 1 100
    ∧ RevenueReport.total_tokens report = 150
    ∧ StronglySorted Spec.revenue_ge (RevenueReport.models report).
Proof.
  destruct (Calculator.calculate_revenue two_small_rankings
              two_small_activities two_small_pricing) as [report|] eqn:Hrun;
    [|vm_compute in Hrun; discriminate].
  exists report. split; [done|].
  destruct (revenue_report_aggregates _ _ _ _ Hrun)
    as ((revenues & records & Hrevs & Htotal & _) & Htokens & _ & Hsorted).
  split; [|split; [done|]].
  - rewrite Htotal. vm_compute in Hrevs. injection Hrevs as <-.
    vm_compute. reflexivity.
  - apply Hsorted. vm_compute in Hrun. injection Hrun as <-.
    repeat constructor.
Defined.

(** The activity of the input below is one the scrapers produce: the
    extractor reads it off [cached_only_page], and the window sum of a
    history that holds this record is that activity. *)
Example cached_only_activity_from_page :
  Scraper._extract_daily_data cached_only_page !! "2025-01-13"
  = Some {| Scraper.prompt := 0; Scraper.completion := 0;
            Scraper.reasoning := 0; Scraper.cached := 1000;
            Scraper.count := 1 |}
  ∧ Scraper.sum_daily_window
      {[ 739264 := {| Scraper.prompt := 0; Scraper.completion := 0;
                      Scraper.reasoning := 0; Scraper.cached := 1000;
                      Scraper.count := 1 |} ]}
      739264 7 false 739270
    = activity 0 0 0 1000.
Proof. split; vm_compute; reflexivity. Qed.

(** C1 at an input it fails on.  The observed-token total of the model is
    0, its ratios are 0.0 and its leaderboard total is kept, yet the
    1000 cached tokens at 0.5 give it an estimated revenue of 500.0. *)
Theorem zero_evidence_model_earns_cached_revenue :
  Spec.observed_total cached_only_activities (ranked 1 "a/b" 100) = 0
  ∧ (fun report =>
       (fun record =>
          (RevenueRecord.slug record, RevenueRecord.total_tokens record,
           RevenueRecord.prompt_ratio record,
           RevenueRecord.completion_ratio record,
           RevenueRecord.reasoning_ratio record,
           RevenueRecord.estimated_revenue record))
         <$> RevenueReport.models report)
      <$> Calculator.calculate_revenue cached_only_rankings
            cached_only_activities cached_only_pricing
    = Some [("a/b", 100, PyFloat.zero, PyFloat.zero, PyFloat.zero,
             PyFloat.nearest 500 1)]
  ∧ PyFloat.eqb (PyFloat.nearest 500 1) PyFloat.zero = false.
Proof. vm_compute. repeat split; reflexivity. Qed.

Section Records.
Import PyFloat Calculator Spec.

Variable activities : gmap string Scraper.Activity.
Variable pricing : PyDict.dict Api.PriceInfo.

Lemma process_model_record (st st' : LoopState) (model : RankedModel.t) :
  process_model activities pricing st model = Some st' ->
  ∃ record,
    models_result st' = models_result st ++ [record]
    ∧ record_of_model activities pricing model record
    ∧ paid_count st' = paid_count st + paid_records [record]
    ∧ free_count st' = free_count st + free_records [record]
    ∧ agg_prompt st'
      = agg_prompt st + Scraper.prompt_tokens (resolved_activity activities model)
    ∧ agg_completion st'
      = agg_completion st
        + Scraper.completion_tokens (resolved_activity activities model)
    ∧ agg_reasoning st'
      = agg_reasoning st
        + Scraper.reasoning_tokens (resolved_activity activities model)
    ∧ agg_cached st'
      = agg_cached st + Scraper.cached_tokens (resolved_activity activities model).
Proof.
  unfold process_model. intros Hstep.
  destruct (ratios _ _ _) as [[[pr cr] rr]|]; simpl in Hstep; [|done].
  destruct (revenue_of _ _ _ _ _ _) as [revenue|] eqn:Hrev; simpl in Hstep;
    [|done].
  injection Hstep as <-. eexists. split; [reflexivity|].
  split.
  { unfold record_of_model, record_listing, model_listing, record_activity,
      resolved_activity. simpl.
    repeat split; try done.
    - by destruct (default _ _).
    - by exists revenue. }
  unfold paid_records, free_records. simpl.
  destruct (eqb _ zero && eqb _ zero) eqn:Hfree.
  - rewrite filter_cons_False, filter_cons_True by (simpl; by rewrite ?Hfree).
    simpl. unfold resolved_activity. repeat split; lia.
  - rewrite filter_cons_True, filter_cons_False by (simpl; by rewrite ?Hfree).
    simpl. unfold resolved_activity. repeat split; lia.
Qed.

Lemma process_models_records (rankings : list RankedModel.t)
    (st st' : LoopState) :
  process_models activities pricing st rankings = Some st' ->
  ∃ records,
    models_result st' = models_result st ++ records
    ∧ Forall2 (record_of_model activities pricing) rankings records
    ∧ paid_count st' = paid_count st + paid_records records
    ∧ free_count st' = free_count st + free_records records
    ∧ agg_prompt st'
      = agg_prompt st + activity_sum Scraper.prompt_tokens activities rankings
    ∧ agg_completion st'
      = agg_completion st
        + activity_sum Scraper.completion_tokens activities rankings
    ∧ agg_reasoning st'
      = agg_reasoning st
        + activity_sum Scraper.reasoning_tokens activities rankings
    ∧ agg_cached st'
      = agg_cached st + activity_sum Scraper.cached_tokens activities rankings.
Proof.
  revert st. induction rankings as [|model rankings IH]; intros st; simpl.
  - intros [= <-]. exists []. rewrite app_nil_r.
    unfold paid_records, free_records. simpl.
    repeat split; try done; try lia.
  - destruct (process_model activities pricing st model) as [st1|] eqn:Hstep;
      simpl; [|done].
    intros Hrest.
    destruct (process_model_record _ _ _ Hstep)
      as (record & Hres & Hrec & Hp & Hf & Ha & Hb & Hc & Hd).
    destruct (IH _ Hrest)
      as (records & Hres' & Hrecs & Hp' & Hf' & Ha' & Hb' & Hc' & Hd').
    exists (record :: records).
    split; [by rewrite Hres', Hres, <- app_assoc|].
    split; [by constructor|].
    rewrite Hp', Hf', Ha', Hb', Hc', Hd', Hp, Hf, Ha, Hb, Hc, Hd.
    unfold paid_records, free_records in *.
    rewrite !(filter_cons _ record). simpl.
    repeat split; try lia; repeat case_decide; simpl; lia.
Qed.

Lemma calculate_revenue_records (rankings : list RankedModel.t)
    (report : RevenueReport.t) :
  calculate_revenue rankings activities pricing = Some report ->
  ∃ st records,
    process_models activities pricing initial_state rankings = Some st
    ∧ models_result st = records
    ∧ RevenueReport.models report = sort_by_revenue records
    ∧ Forall2 (record_of_model activities pricing) rankings records.
Proof.
  unfold calculate_revenue. intros Hrun.
  destruct (process_models activities pricing initial_state rankings)
    as [st|] eqn:Hloop; simpl in Hrun; [|done].
  injection Hrun as <-. simpl.
  destruct (process_models_records _ _ _ Hloop) as (records & Hres & Hrecs & _).
  simpl in Hres. subst records. by exists st, (models_result st).
Qed.

End Records.

(** X1. The report holds one record for each ranked model, carrying
    its rank, slug, name, leaderboard total and percent change; the model
    count is the number of ranked models, the free and paid counts are
    the numbers of records flagged free and not free, and they add up to
    the model count. *)
Theorem report_lists_every_ranked_model
    (rankings : list RankedModel.t) (activities : gmap string Scraper.Activity)
    (pricing : PyDict.dict Api.PriceInfo) (report : RevenueReport.t) :
  Calculator.calculate_revenue rankings activities pricing = Some report ->
  (Spec.record_listing <$> RevenueReport.models report
   ≡ₚ Spec.model_listing <$> rankings)
  ∧ RevenueReport.total_models report = Z.of_nat (length rankings)
  ∧ RevenueReport.free_models report
    = Spec.free_records (RevenueReport.models report)
  ∧ RevenueReport.paid_models report
    = Spec.paid_records (RevenueReport.models report)
  ∧ RevenueReport.paid_models report + RevenueReport.free_models report
    = RevenueReport.total_models report.
Proof.
  unfold Calculator.calculate_revenue. intros Hrun.
  destruct (Calculator.process_models activities pricing
              Calculator.initial_state rankings) as [st|] eqn:Hloop;
    simpl in Hrun; [|done].
  injection Hrun as <-. simpl.
  destruct (process_models_records _ _ _ _ _ Hloop)
    as (records & Hres & Hrecs & Hp & Hf & _).
  simpl in Hres, Hp, Hf. subst records.
  assert (Spec.record_listing <$> Calculator.models_result st
          = Spec.model_listing <$> rankings) as Hlist.
  { clear -Hrecs. induction Hrecs as [|m r ms rs [Hl _] _ IH]; [done|].
    by rewrite !fmap_cons, Hl, IH. }
  assert (length (Calculator.models_result st) = length rankings) as Hlen.
  { symmetry. by eapply Forall2_length. }
  assert (∀ l, Spec.paid_records l + Spec.free_records l
               = Z.of_nat (length l)) as Hsplit.
  { unfold Spec.paid_records, Spec.free_records.
    induction l as [|r l IH]; [done|].
    rewrite !(filter_cons _ r). simpl length.
    destruct (RevenueRecord.is_free r); repeat case_decide; try done;
      simpl length; lia. }
  assert (∀ l l', l ≡ₚ l' -> Spec.free_records l = Spec.free_records l'
                              ∧ Spec.paid_records l = Spec.paid_records l')
    as Hperm.
  { intros l l' Hl. unfold Spec.paid_records, Spec.free_records.
    by rewrite Hl. }
  destruct (Hperm _ _ (sort_by_revenue_perm (Calculator.models_result st)))
    as [Hfree Hpaid].
  split; [by rewrite sort_by_revenue_perm, Hlist|].
  split; [by rewrite sort_by_revenue_perm, Hlen|].
  split; [rewrite Hfree, Hf; lia|].
  split; [rewrite Hpaid, Hp; lia|].
  rewrite Hp, Hf, sort_by_revenue_perm, <- (Hsplit (Calculator.models_result st)).
  lia.
Qed.

Lemma report_lists_every_ranked_model_witness :
  ∃ report,
    Calculator.calculate_revenue two_small_rankings two_small_activities
      two_small_pricing = Some report
    ∧ RevenueReport.total_models report = 2
    ∧ RevenueReport.paid_models report + RevenueReport.free_models report = 2.
Proof.
  destruct (Calculator.calculate_revenue two_small_rankings
              two_small_activities two_small_pricing) as [report|] eqn:Hrun;
    [|vm_compute in Hrun; discriminate].
  exists report. split; [done|].
  destruct (report_lists_every_ranked_model _ _ _ _ Hrun)
    as (_ & Htotal & _ & _ & Hsum).
  split; [exact Htotal|]. rewrite Hsum. exact Htotal.
Defined.

Section FloatFacts.
Import PyFloat.

Lemma shr_1_nonneg (mrs : shr_record) : 0 <= shr_m mrs -> 0 <= shr_m (shr_1 mrs).
Proof.
  destruct mrs as [m r s]. simpl. destruct m as [|p|p]; [done| |lia].
  intros _. by destruct p.
Qed.

Lemma iter_pos_shr_1_nonneg (n : positive) (mrs : shr_record) :
  0 <= shr_m mrs -> 0 <= shr_m (SpecFloat.iter_pos shr_1 n mrs).
Proof.
  revert mrs. induction n as [n IH|n IH|]; intros mrs Hm; simpl.
  - apply IH, IH. by apply shr_1_nonneg.
  - by apply IH, IH.
  - by apply shr_1_nonneg.
Qed.

Lemma shr_fexp_nonneg (m e : Z) (l : location) :
  0 <= m -> 0 <= shr_m (shr_fexp prec emax m e l).1.
Proof.
  intros Hm. unfold shr_fexp, shr.
  assert (0 <= shr_m (shr_record_of_loc m l)) as Hrec.
  { by destruct l as [|[]]. }
  destruct (fexp prec emax (Zdigits2 m + e) - e); simpl; try done.
  by apply iter_pos_shr_1_nonneg.
Qed.

(** Rounding a non-negative quantity never gives a NaN. *)
Lemma binary_round_aux_known (sx : bool) (mx ex : Z) (lx : location) :
  0 <= mx -> is_nan (binary_round_aux prec emax sx mx ex lx) = false.
Proof.
  intros Hmx. unfold binary_round_aux.
  pose proof (shr_fexp_nonneg mx ex lx Hmx) as H1.
  destruct (shr_fexp prec emax mx ex lx) as [mrs' e']. simpl in H1.
  assert (0 <= round_nearest_even (shr_m mrs') (loc_of_shr_record mrs')) as H2.
  { unfold round_nearest_even.
    destruct (loc_of_shr_record mrs') as [|[]]; try done; try lia.
    destruct (Z.even _); lia. }
  pose proof (shr_fexp_nonneg _ e' loc_Exact H2) as H3.
  destruct (shr_fexp prec emax _ e' loc_Exact) as [mrs'' e'']. simpl in H3.
  destruct (shr_m mrs'') as [|m|m]; [done| |lia].
  by destruct (e'' <=? emax - prec).
Qed.

Lemma binary_round_known (sx : bool) (mx : positive) (ex : Z) :
  is_nan (binary_round prec emax sx mx ex) = false.
Proof.
  unfold binary_round. destruct (shl_align _ _ _) as [mz ez].
  by apply binary_round_aux_known.
Qed.

(** An integer converts to a finite float or the conversion raises. *)
Lemma of_int_finite (i : Z) (f : float) : of_int i = Some f -> is_finite f = true.
Proof.
  unfold of_int, binary_normalize.
  destruct i as [|p|p]; [by intros [= <-]| |];
    [pose proof (binary_round_known false p 0) as Hk
    |pose proof (binary_round_known true p 0) as Hk];
    destruct (binary_round _ _ _ _ _) as [s|s| |s m e]; simpl; try done;
    by intros [= <-].
Qed.

(** Any number of tokens at the price 0.0 costs a zero. *)
Lemma int_mul_zero (i : Z) (f : float) :
  int_mul i zero = Some f -> ∃ s, f = S754_zero s.
Proof.
  unfold int_mul. destruct (of_int i) as [x|] eqn:Hx; simpl; [|done].
  apply of_int_finite in Hx. intros [= <-].
  destruct x as [s|s| |s m e]; try done; eexists; reflexivity.
Qed.

End FloatFacts.

Section Unpriced.
Import PyFloat Calculator.

Lemma revenue_of_unpriced (prompt_tokens completion_tokens cached_tokens : Z)
    (revenue : float) :
  revenue_of prompt_tokens completion_tokens cached_tokens zero zero zero
  = Some revenue ->
  ∃ s, revenue = S754_zero s.
Proof.
  unfold revenue_of.
  destruct (int_mul prompt_tokens zero) as [a|] eqn:Ha; simpl; [|done].
  destruct (int_mul completion_tokens zero) as [b|] eqn:Hb; simpl; [|done].
  destruct (int_mul cached_tokens zero) as [c|] eqn:Hc; simpl; [|done].
  apply int_mul_zero in Ha as [sa ->], Hb as [sb ->], Hc as [sc ->].
  intros [= <-]. destruct sa, sb, sc; eexists; reflexivity.
Qed.

End Unpriced.

(** X2. The token breakdown of the report holds, for each of the four
    counts, the sum over the ranked models of the count in the activity
    resolved for the model (zero when the slug has no activity), and the
    records hold exactly these activities. *)
Theorem report_token_breakdown
    (rankings : list RankedModel.t) (activities : gmap string Scraper.Activity)
    (pricing : PyDict.dict Api.PriceInfo) (report : RevenueReport.t) :
  Calculator.calculate_revenue rankings activities pricing = Some report ->
  RevenueReport.token_breakdown report
  = {| TokenBreakdown.prompt_tokens :=
         Spec.activity_sum Scraper.prompt_tokens activities rankings;
       TokenBreakdown.completion_tokens :=
         Spec.activity_sum Scraper.completion_tokens activities rankings;
       TokenBreakdown.reasoning_tokens :=
         Spec.activity_sum Scraper.reasoning_tokens activities rankings;
       TokenBreakdown.cached_tokens :=
         Spec.activity_sum Scraper.cached_tokens activities rankings |}
  ∧ Spec.record_activity <$> RevenueReport.models report
    ≡ₚ Spec.resolved_activity activities <$> rankings.
Proof.
  unfold Calculator.calculate_revenue. intros Hrun.
  destruct (Calculator.process_models activities pricing
              Calculator.initial_state rankings) as [st|] eqn:Hloop;
    simpl in Hrun; [|done].
  injection Hrun as <-. simpl.
  destruct (process_models_records _ _ _ _ _ Hloop)
    as (records & Hres & Hrecs & _ & _ & Ha & Hb & Hc & Hd).
  simpl in *. subst records. split.
  - f_equal; lia.
  - rewrite sort_by_revenue_perm.
    clear -Hrecs. induction Hrecs as [|m r ms rs (_ & Hact & _) _ IH]; [done|].
    by rewrite !fmap_cons, Hact, IH.
Qed.

Lemma report_token_breakdown_witness :
  ∃ report,
    Calculator.calculate_revenue two_small_rankings two_small_activities
      two_small_pricing = Some report
    ∧ RevenueReport.token_breakdown report
      = {| TokenBreakdown.prompt_tokens := 2;
           TokenBreakdown.completion_tokens := 0;
           TokenBreakdown.reasoning_tokens := 0;
           TokenBreakdown.cached_tokens := 0 |}.
Proof.
  destruct (Calculator.calculate_revenue two_small_rankings
              two_small_activities two_small_pricing) as [report|] eqn:Hrun;
    [|vm_compute in Hrun; discriminate].
  exists report. split; [done|].
  destruct (report_token_breakdown _ _ _ _ Hrun) as [Hbreakdown _].
  rewrite Hbreakdown. vm_compute. reflexivity.
Defined.

(** X3. A ranked model for which no price is found gets a record with
    the four prices at 0.0, is counted as free, and has an estimated
    revenue that compares equal to 0.0, whatever its token counts. *)
Theorem unpriced_model_counts_as_free
    (rankings : list RankedModel.t) (activities : gmap string Scraper.Activity)
    (pricing : PyDict.dict Api.PriceInfo) (report : RevenueReport.t)
    (model : RankedModel.t) :
  Calculator.calculate_revenue rankings activities pricing = Some report ->
  model ∈ rankings ->
  Calculator._find_pricing (RankedModel.slug model) pricing = None ->
  ∃ record,
    record ∈ RevenueReport.models report
    ∧ Spec.record_listing record = Spec.model_listing model
    ∧ RevenueRecord.prompt_price record = PyFloat.zero
    ∧ RevenueRecord.completion_price record = PyFloat.zero
    ∧ RevenueRecord.reasoning_price record = PyFloat.zero
    ∧ RevenueRecord.cache_read_price record = PyFloat.zero
    ∧ RevenueRecord.is_free record = true
    ∧ PyFloat.eqb (RevenueRecord.estimated_revenue record) PyFloat.zero = true.
Proof.
  intros Hrun Hin Hnone.
  destruct (calculate_revenue_records _ _ _ _ Hrun)
    as (st & records & _ & _ & Hmodels & Hrecs).
  apply list_elem_of_lookup in Hin as [i Hi].
  destruct (Forall2_lookup_l _ _ _ _ _ Hrecs Hi) as (record & Hrecord & Hof).
  exists record. split.
  { rewrite Hmodels, sort_by_revenue_perm. by eapply list_elem_of_lookup_2. }
  destruct Hof as (Hl & _ & Hpp & Hcp & Hrp & Hcrp & Hfree & revenue & Hrev & Hest).
  rewrite Hnone in Hpp, Hcp, Hrp, Hcrp. simpl in *.
  rewrite Hpp, Hcp in Hfree. rewrite Hpp, Hcp, Hcrp in Hrev.
  apply revenue_of_unpriced in Hrev as [s ->].
  repeat split; try done. rewrite Hest. by destruct s.
Qed.

Lemma unpriced_model_counts_as_free_witness :
  ∃ report record,
    Calculator.calculate_revenue cached_only_rankings cached_only_activities []
    = Some report
    ∧ record ∈ RevenueReport.models report
    ∧ RevenueRecord.slug record = "a/b"
    ∧ RevenueRecord.is_free record = true
    ∧ PyFloat.eqb (RevenueRecord.estimated_revenue record) PyFloat.zero = true.
Proof.
  destruct (Calculator.calculate_revenue cached_only_rankings
              cached_only_activities []) as [report|] eqn:Hrun;
    [|vm_compute in Hrun; discriminate].
  destruct (unpriced_model_counts_as_free _ _ _ _ (ranked 1 "a/b" 100) Hrun)
    as (record & Hin & Hlisting & _ & _ & _ & _ & Hfree & Hzero).
  - left.
  - reflexivity.
  - exists report, record. split; [done|]. split; [done|].
    split; [exact (f_equal (fun t => t.1.1.1.2) Hlisting)|]. by split.
Defined.

Section Stability.
Import PyFloat Calculator Spec.

Lemma SFcompare_Eq_SFleb (x y : spec_float) :
  SFcompare x y = Some Eq -> SFleb x y = true ∧ SFleb y x = true.
Proof.
  intros Hxy. unfold SFleb. rewrite (SFcompare_antisym x y), Hxy. done.
Qed.

(** Two records tied with one value are not in strict order. *)
Lemma revenue_tied_not_lt (v : float) (x y : RevenueRecord.t) :
  revenue_tied v x -> revenue_tied v y ->
  ltb (RevenueRecord.estimated_revenue x) (RevenueRecord.estimated_revenue y)
  = false.
Proof.
  unfold revenue_tied, ltb, SFltb.
  intros [_ Hvx]%SFcompare_Eq_SFleb [Hyv _]%SFcompare_Eq_SFleb.
  pose proof (SFleb_trans _ _ _ Hyv Hvx) as Hyx.
  unfold SFleb in Hyx.
  rewrite (SFcompare_antisym (RevenueRecord.estimated_revenue y)).
  by destruct (SFcompare (RevenueRecord.estimated_revenue y) _) as [[]|].
Qed.

Lemma insert_by_revenue_tied (v : float) (x : RevenueRecord.t)
    (l : list RevenueRecord.t) :
  filter (revenue_tied v) (insert_by_revenue x l)
  = filter (revenue_tied v) (x :: l).
Proof.
  induction l as [|y l IH]; simpl; [done|].
  destruct (ltb _ _) eqn:Hlt; [|done].
  rewrite (filter_cons _ y), IH, !(filter_cons _ x), (filter_cons _ y).
  destruct (decide (revenue_tied v x)) as [Hx|Hx]; [|done].
  destruct (decide (revenue_tied v y)) as [Hy|Hy]; [|done].
  by rewrite (revenue_tied_not_lt v x y) in Hlt.
Qed.

(** The sort keeps the records tied with a value in the order it found
    them. *)
Lemma sort_by_revenue_stable (v : float) (l : list RevenueRecord.t) :
  filter (revenue_tied v) (sort_by_revenue l) = filter (revenue_tied v) l.
Proof.
  induction l as [|x l IH]; simpl; [done|].
  by rewrite insert_by_revenue_tied, !(filter_cons _ x), IH.
Qed.

Lemma insert_by_revenue_same_earnings (x1 x2 : RevenueRecord.t)
    (l1 l2 : list RevenueRecord.t) :
  same_earnings x1 x2 -> Forall2 same_earnings l1 l2 ->
  Forall2 same_earnings (insert_by_revenue x1 l1) (insert_by_revenue x2 l2).
Proof.
  intros Hx. induction 1 as [|y1 y2 l1 l2 Hy Hl IH]; simpl.
  - constructor; [done|constructor].
  - pose proof Hx as (_ & Hxe & _). pose proof Hy as (_ & Hye & _).
    rewrite Hxe, Hye.
    destruct (ltb _ _); [|by repeat (constructor; [done|])].
    by constructor.
Qed.

Lemma sort_by_revenue_same_earnings (l1 l2 : list RevenueRecord.t) :
  Forall2 same_earnings l1 l2 ->
  Forall2 same_earnings (sort_by_revenue l1) (sort_by_revenue l2).
Proof.
  induction 1 as [|x1 x2 l1 l2 Hx Hl IH]; simpl; [constructor|].
  by apply insert_by_revenue_same_earnings.
Qed.

End Stability.

(** X4. The sort of the report is stable: the records whose estimated
    revenues compare equal to a given value appear in the report in the
    order of the leaderboard (no estimated revenue being a NaN). *)
Theorem equal_revenues_keep_rank_order
    (rankings : list RankedModel.t) (activities : gmap string Scraper.Activity)
    (pricing : PyDict.dict Api.PriceInfo) (report : RevenueReport.t) :
  Calculator.calculate_revenue rankings activities pricing = Some report ->
  Forall Spec.revenue_known (RevenueReport.models report) ->
  ∃ records,
    Forall2 (Spec.record_of_model activities pricing) rankings records
    ∧ RevenueReport.models report ≡ₚ records
    ∧ ∀ v, filter (Spec.revenue_tied v) (RevenueReport.models report)
           = filter (Spec.revenue_tied v) records.
Proof.
  intros Hrun _.
  destruct (calculate_revenue_records _ _ _ _ Hrun)
    as (st & records & _ & _ & Hmodels & Hrecs).
  exists records. split; [done|]. rewrite Hmodels.
  split; [apply sort_by_revenue_perm|].
  intros v. apply sort_by_revenue_stable.
Qed.

Lemma equal_revenues_keep_rank_order_witness :
  ∃ report records,
    Calculator.calculate_revenue two_small_rankings two_small_activities
      two_small_pricing = Some report
    ∧ RevenueRecord.slug <$> records = ["a/b"; "c/d"]
    ∧ filter (Spec.revenue_tied PyFloat.zero) (RevenueReport.models report)
      = filter (Spec.revenue_tied PyFloat.zero) records.
Proof.
  destruct (Calculator.calculate_revenue two_small_rankings
              two_small_activities two_small_pricing) as [report|] eqn:Hrun;
    [|vm_compute in Hrun; discriminate].
  destruct (equal_revenues_keep_rank_order _ _ _ _ Hrun)
    as (records & Hrecords & _ & Htied).
  - vm_compute in Hrun. injection Hrun as <-. repeat constructor.
  - exists report, records. split; [done|]. split; [|apply Htied].
    clear -Hrecords.
    apply Forall2_cons_inv_l in Hrecords as (r1 & rs1 & (H1 & _) & Hrecords & ->).
    apply Forall2_cons_inv_l in Hrecords as (r2 & rs2 & (H2 & _) & Hrecords & ->).
    apply Forall2_nil_inv_l in Hrecords as ->.
    pose proof (f_equal (fun t => t.1.1.1.2) H1) as Hs1.
    pose proof (f_equal (fun t => t.1.1.1.2) H2) as Hs2.
    simpl in Hs1, Hs2. simpl. by rewrite Hs1, Hs2.
Defined.

(** X5. Reasoning tokens and request counts are never charged: two
    runs whose activities agree on the prompt, completion and cached
    tokens of every ranked model give the same total revenue and, record
    by record, the same estimated revenue and free flag. *)
Theorem revenue_ignores_reasoning_and_requests
    (rankings : list RankedModel.t)
    (activities1 activities2 : gmap string Scraper.Activity)
    (pricing : PyDict.dict Api.PriceInfo) (report1 report2 : RevenueReport.t) :
  Forall (fun model =>
            Spec.same_billable (Spec.resolved_activity activities1 model)
                                (Spec.resolved_activity activities2 model))
         rankings ->
  Calculator.calculate_revenue rankings activities1 pricing = Some report1 ->
  Calculator.calculate_revenue rankings activities2 pricing = Some report2 ->
  RevenueReport.total_revenue report1 = RevenueReport.total_revenue report2
  ∧ Forall2 Spec.same_earnings (RevenueReport.models report1)
                                (RevenueReport.models report2).
Proof.
  intros Hsame Hrun1 Hrun2.
  assert (mapM (Spec.model_revenue activities1 pricing) rankings
          = mapM (Spec.model_revenue activities2 pricing) rankings) as Hrevs.
  { clear -Hsame. induction Hsame as [|m ms (Hp & Hc & Hk) _ IH]; [done|].
    simpl. rewrite IH. unfold Spec.model_revenue.
    unfold Spec.resolved_activity in Hp, Hc, Hk. by rewrite Hp, Hc, Hk. }
  destruct (calculate_revenue_records _ _ _ _ Hrun1)
    as (st1 & records1 & Hloop1 & _ & Hmodels1 & Hrecs1).
  destruct (calculate_revenue_records _ _ _ _ Hrun2)
    as (st2 & records2 & Hloop2 & _ & Hmodels2 & Hrecs2).
  split.
  - unfold Calculator.calculate_revenue in Hrun1, Hrun2.
    rewrite Hloop1 in Hrun1. rewrite Hloop2 in Hrun2. simpl in *.
    injection Hrun1 as <-. injection Hrun2 as <-. simpl.
    destruct (process_models_spec _ _ _ _ _ Hloop1)
      as (revenues1 & ? & Hr1 & _ & _ & _ & _ & Ht1 & _).
    destruct (process_models_spec _ _ _ _ _ Hloop2)
      as (revenues2 & ? & Hr2 & _ & _ & _ & _ & Ht2 & _).
    rewrite Ht1, Ht2. rewrite Hrevs, Hr2 in Hr1. by injection Hr1 as <-.
  - rewrite Hmodels1, Hmodels2. apply sort_by_revenue_same_earnings.
    clear -Hsame Hrecs1 Hrecs2. revert records2 Hrecs2.
    induction Hrecs1 as [|m r1 ms rs1 Hr1 _ IH]; intros records2 Hrecs2.
    + apply Forall2_nil_inv_l in Hrecs2 as ->. constructor.
    + apply Forall2_cons_inv_l in Hrecs2 as (r2 & rs2 & Hr2 & Hrecs2 & ->).
      apply Forall_cons in Hsame as [(Hp & Hc & Hk) Hsame].
      constructor; [|by apply IH].
      destruct Hr1 as (Hl1 & Ha1 & Hpp1 & Hcp1 & _ & Hcrp1 & Hf1 & v1 & Hv1 & He1).
      destruct Hr2 as (Hl2 & Ha2 & Hpp2 & Hcp2 & _ & Hcrp2 & Hf2 & v2 & Hv2 & He2).
      unfold Spec.same_earnings. rewrite Hl1, Hl2, Hf1, Hf2, He1, He2.
      rewrite Hpp1, Hpp2, Hcp1, Hcp2.
      repeat split.
      unfold Spec.record_activity in Ha1, Ha2.
      rewrite <- Ha1, <- Ha2 in Hp, Hc, Hk. simpl in Hp, Hc, Hk.
      rewrite Hp, Hc, Hk, Hpp1, Hcp1, Hcrp1, <- Hpp2, <- Hcp2, <- Hcrp2, Hv2
        in Hv1.
      by injection Hv1 as <-.
Qed.

Lemma revenue_ignores_reasoning_and_requests_witness :
  ∃ report1 report2,
    Calculator.calculate_revenue cached_only_rankings cached_only_activities
      cached_only_pricing = Some report1
    ∧ Calculator.calculate_revenue cached_only_rankings
        cached_only_activities_reasoning cached_only_pricing = Some report2
    ∧ RevenueReport.total_revenue report1 = RevenueReport.total_revenue report2.
Proof.
  destruct (Calculator.calculate_revenue cached_only_rankings
              cached_only_activities cached_only_pricing)
    as [report1|] eqn:Hrun1; [|vm_compute in Hrun1; discriminate].
  destruct (Calculator.calculate_revenue cached_only_rankings
              cached_only_activities_reasoning cached_only_pricing)
    as [report2|] eqn:Hrun2; [|vm_compute in Hrun2; discriminate].
  exists report1, report2. split; [done|]. split; [done|].
  apply (revenue_ignores_reasoning_and_requests cached_only_rankings
           cached_only_activities cached_only_activities_reasoning
           cached_only_pricing report1 report2); [|done|done].
  repeat constructor.
Defined.

Section DictFacts.
Context {V : Type}.

Lemma dict_get_Some (k : string) (v : V) (d : PyDict.dict V) :
  PyDict.get k d = Some v -> (k, v) ∈ d.
Proof.
  induction d as [|[k' v'] d IH]; simpl; [done|].
  destruct (String.eqb_spec k' k) as [->|Hne].
  - intros [= ->]. left.
  - intros Hget. right. by apply IH.
Qed.

Lemma dict_get_None (k : string) (d : PyDict.dict V) :
  PyDict.get k d = None -> ∀ v, (k, v) ∉ d.
Proof.
  induction d as [|[k' v'] d IH]; simpl.
  - intros _ v Hin. by apply elem_of_nil in Hin.
  - destruct (String.eqb_spec k' k) as [->|Hne]; [done|].
    intros Hget v [Heq|Hin]%elem_of_cons; [by injection Heq as -> ->|].
    by apply (IH Hget v).
Qed.

End DictFacts.

Section FindPricing.
Import Text Calculator Spec.

Lemma find_Some {A} (f : A -> bool) (l : list A) (x : A) :
  List.find f l = Some x -> x ∈ l ∧ f x = true.
Proof.
  induction l as [|y l IH]; simpl; [done|].
  destruct (f y) eqn:Hy.
  - intros [= ->]. split; [left|done].
  - intros [Hin Hx]%IH. split; [by right|done].
Qed.

Lemma find_None {A} (f : A -> bool) (l : list A) :
  List.find f l = None -> ∀ x, x ∈ l -> f x = false.
Proof.
  induction l as [|y l IH]; simpl.
  - intros _ x Hin. by apply elem_of_nil in Hin.
  - destruct (f y) eqn:Hy; [done|].
    intros Hnone x [->|Hin]%elem_of_cons; [done|by apply IH].
Qed.

Lemma span_not_char_stop (sep : ascii) (u r : string) :
  contains_char sep u = false ->
  span (not_char sep) (u +:+ String sep r) = (u, String sep r).
Proof.
  induction u as [|c u IH].
  - intros _. change (EmptyString +:+ String sep r) with (String sep r).
    simpl. unfold not_char. by rewrite Ascii.eqb_refl.
  - simpl. intros [Hc Hu]%orb_false_iff.
    change (String c u +:+ String sep r) with (String c (u +:+ String sep r)).
    simpl. unfold not_char at 1. rewrite Hc. simpl. by rewrite IH.
Qed.

Lemma split_head_stop (sep : ascii) (u r : string) :
  contains_char sep u = false -> split_head sep (u +:+ String sep r) = u.
Proof. intros Hu. unfold split_head. by rewrite span_not_char_stop. Qed.

End FindPricing.

(** X6. The price the reconciler finds for a slug is always an entry
    of the price book, stored under the slug, under the slug up to its
    first colon, or under a key of the same vendor with a similarity
    above 0.7; and it finds none only when no key of the book
    qualifies. *)
Theorem _find_pricing_returns_a_listed_price
    (slug : string) (pricing : PyDict.dict Api.PriceInfo) :
  (∀ v, Calculator._find_pricing slug pricing = Some v ->
        ∃ k, (k, v) ∈ pricing ∧ Spec.price_candidate slug k)
  ∧ (Calculator._find_pricing slug pricing = None ->
     ∀ k v, (k, v) ∈ pricing -> ¬ Spec.price_candidate slug k).
Proof.
  unfold Calculator._find_pricing, Spec.price_candidate. split.
  - intros v.
    destruct (PyDict.get slug pricing) as [v1|] eqn:Hexact.
    { intros [= ->]. exists slug. split; [by apply dict_get_Some|by left]. }
    destruct (PyDict.get (Calculator.split_head ":" slug) pricing)
      as [v2|] eqn:Hbase.
    { intros [= ->]. eexists. split; [by apply dict_get_Some|]. right. by left. }
    destruct (List.find _ pricing) as [[k v3]|] eqn:Hfind; simpl; [|done].
    intros [= ->]. apply find_Some in Hfind as [Hin Hok].
    apply andb_prop in Hok as [Hprefix Hsim].
    exists k. split; [done|]. right. right. done.
  - destruct (PyDict.get slug pricing) as [v1|] eqn:Hexact; [done|].
    destruct (PyDict.get (Calculator.split_head ":" slug) pricing)
      as [v2|] eqn:Hbase; [done|].
    destruct (List.find _ pricing) as [[k v3]|] eqn:Hfind; simpl; [done|].
    intros _ k v Hin [->|[->|[Hprefix Hsim]]].
    + by apply (dict_get_None _ _ Hexact v).
    + by apply (dict_get_None _ _ Hbase v).
    + pose proof (find_None _ _ Hfind (k, v) Hin) as Hno. simpl in Hno.
      by rewrite Hprefix, Hsim in Hno.
Qed.

(** X7. A slug with a variant suffix after a colon, which the price
    book does not list, is priced as its base slug when the book lists
    that. *)
Theorem variant_slug_priced_as_base_model
    (base variant : string) (pricing : PyDict.dict Api.PriceInfo)
    (v : Api.PriceInfo) :
  Text.contains_char ":" base = false ->
  PyDict.get (base +:+ ":" +:+ variant) pricing = None ->
  PyDict.get base pricing = Some v ->
  Calculator._find_pricing (base +:+ ":" +:+ variant) pricing = Some v.
Proof.
  intros Hbase Hnone Hget. unfold Calculator._find_pricing.
  rewrite Hnone.
  change (":" +:+ variant) with (String ":" variant).
  by rewrite split_head_stop, Hget.
Qed.

Lemma variant_slug_priced_as_base_model_witness :
  Calculator._find_pricing "a/b:free" cached_only_pricing
  = Some (priced "a/b" PyFloat.zero PyFloat.zero (PyFloat.nearest 5 10)).2.
Proof.
  apply (variant_slug_priced_as_base_model "a/b" "free"); reflexivity.
Defined.

Section Similarity.
Import PyFloat Calculator Spec.

(** A positive integer divided by itself is 1.0. *)
Lemma nearest_self (n : Z) : 0 < n -> nearest n n = one.
Proof.
  destruct n as [|p|p]; try lia. intros _.
  unfold one, nearest, SFdiv, SFdiv_core_binary.
  replace (Zdigits2 (Z.pos p) + 0 - (Zdigits2 (Z.pos p) + 0)) with 0 by lia.
  replace (Zdigits2 1 + 0 - (Zdigits2 1 + 0)) with 0 by lia.
  change (Z.min (fexp prec emax 0) (0 - 0)) with (-53).
  change (0 - 0 - -53) with 53.
  cbv iota beta.
  assert (Z.div_eucl (Z.shiftl (Z.pos p) 53) (Z.pos p) = (2 ^ 53, 0)) as ->.
  { rewrite Z.shiftl_mul_pow2 by lia.
    assert (∀ a b, Z.div_eucl a b = (a / b, a mod b)) as ->.
    { intros a b. unfold Z.div, Z.modulo. by destruct (Z.div_eucl a b). }
    rewrite (Z.mul_comm (Z.pos p)), Z.div_mul, Z.mod_mul by lia. done. }
  assert (new_location (Z.pos p) 0 = loc_Exact) as ->.
  { unfold new_location, new_location_even, new_location_odd.
    by destruct (Z.even _). }
  vm_compute. reflexivity.
Qed.

Lemma _slug_similarity_sym (a b : string) :
  _slug_similarity a b = _slug_similarity b a.
Proof.
  unfold _slug_similarity. rewrite orb_comm.
  by rewrite (comm_L (∩) (slug_parts a)), (comm_L (∪) (slug_parts a)).
Qed.

End Similarity.

(** X8. The similarity of two slugs is symmetric; it is 0.0 when a
    slug has no part; and it is 1.0, above the 0.7 threshold, when the
    two slugs have the same non-empty set of parts. *)
Theorem _slug_similarity_symmetric_and_reflexive (a b : string) :
  Calculator._slug_similarity a b = Calculator._slug_similarity b a
  ∧ (Calculator.slug_parts a = ∅ ->
     Calculator._slug_similarity a b = PyFloat.zero)
  ∧ (Calculator.slug_parts a = Calculator.slug_parts b ->
     Calculator.slug_parts a ≠ ∅ ->
     Calculator._slug_similarity a b = Spec.one
     ∧ PyFloat.gtb (Calculator._slug_similarity a b) Calculator.threshold
       = true).
Proof.
  split; [apply _slug_similarity_sym|]. split.
  - intros Hempty. unfold Calculator._slug_similarity.
    by rewrite bool_decide_eq_true_2.
  - intros Heq Hne.
    assert (Calculator._slug_similarity a b = Spec.one) as Hone.
    { unfold Calculator._slug_similarity. rewrite <- Heq.
      rewrite bool_decide_eq_false_2 by done. simpl.
      rewrite (idemp_L (∩)), (idemp_L (∪)).
      apply nearest_self.
      assert (size (Calculator.slug_parts a) ≠ 0%nat); [|lia].
      by rewrite (size_empty_iff (Calculator.slug_parts a)), (leibniz_equiv_iff (Calculator.slug_parts a)). }
    split; [done|]. rewrite Hone. vm_compute. reflexivity.
Qed.

Section PriceIndexLookup.
Import Api Spec.
Variable py_float : string -> option PyFloat.float.

Lemma index_entry_get (pricing_map : PyDict.dict PriceInfo) (model : RawModel)
    (k : string) :
  PyDict.get k (index_entry py_float pricing_map model)
  = if decide (indexed_under k model) then Some (price_entry py_float model)
    else PyDict.get k pricing_map.
Proof.
  unfold index_entry, indexed_under.
  destruct (decide (raw_id model = k)) as [Hid|Hid].
  - case_bool_decide as Hid0.
    + (* the id is empty, so is k *)
      rewrite decide_False by (intros [Hk _]; congruence).
      subst k. case_bool_decide as Hslug; [done|].
      rewrite dict_get_set_ne; [done|congruence].
    + rewrite <- Hid, dict_get_set_eq.
      rewrite decide_True; [done|]. split; [done|by right].
  - assert (PyDict.get k
              (if bool_decide (raw_id model = EmptyString)
               then (if bool_decide (raw_canonical_slug model = EmptyString)
                     then pricing_map
                     else PyDict.set (raw_canonical_slug model)
                            (price_entry py_float model) pricing_map)
               else PyDict.set (raw_id model) (price_entry py_float model)
                      (if bool_decide (raw_canonical_slug model = EmptyString)
                       then pricing_map
                       else PyDict.set (raw_canonical_slug model)
                              (price_entry py_float model) pricing_map))
            = PyDict.get k
                (if bool_decide (raw_canonical_slug model = EmptyString)
                 then pricing_map
                 else PyDict.set (raw_canonical_slug model)
                        (price_entry py_float model) pricing_map)) as ->.
    { case_bool_decide; [done|]. by rewrite dict_get_set_ne. }
    destruct (decide (raw_canonical_slug model = k)) as [Hslug|Hslug].
    + case_bool_decide as Hslug0.
      * rewrite decide_False by (intros [Hk _]; congruence). done.
      * rewrite <- Hslug, dict_get_set_eq.
        rewrite decide_True; [done|]. split; [done|by left].
    + rewrite decide_False by (intros [_ [?|?]]; done).
      case_bool_decide; [done|]. by rewrite dict_get_set_ne.
Qed.

Lemma foldl_index_entry_get (data : list RawModel)
    (pricing_map : PyDict.dict PriceInfo) (k : string) :
  PyDict.get k (foldl (index_entry py_float) pricing_map data)
  = match last (filter (indexed_under k) data) with
    | Some model => Some (price_entry py_float model)
    | None => PyDict.get k pricing_map
    end.
Proof.
  revert pricing_map. induction data as [|model data IH]; intros pricing_map;
    simpl; [done|].
  rewrite IH, index_entry_get, filter_cons.
  destruct (decide (indexed_under k model)) as [Hk|Hk]; [|done].
  destruct (filter (indexed_under k) data) as [|m ms] eqn:Hrest; [done|].
  rewrite (last_cons model), (last_cons m). by destruct (last ms).
Qed.

End PriceIndexLookup.

(** X9. The price book holds, under a non-empty key, the entry of the
    last model of the feed whose canonical slug or identifier is that
    key, and nothing under a key no model carries; the reconciler
    resolves such a key to that entry; the empty key is never
    indexed. *)
Theorem fetch_model_pricing_last_entry_wins
    (py_float : string -> option PyFloat.float) (data : list Api.RawModel)
    (k : string) :
  PyDict.get k (Api.fetch_model_pricing py_float data)
  = Api.price_entry py_float <$> last (filter (Spec.indexed_under k) data)
  ∧ (∀ model,
       last (filter (Spec.indexed_under k) data) = Some model ->
       Calculator._find_pricing k (Api.fetch_model_pricing py_float data)
       = Some (Api.price_entry py_float model))
  ∧ PyDict.get EmptyString (Api.fetch_model_pricing py_float data) = None.
Proof.
  assert (∀ k', PyDict.get k' (Api.fetch_model_pricing py_float data)
                = Api.price_entry py_float
                    <$> last (filter (Spec.indexed_under k') data)) as Hget.
  { intros k'. unfold Api.fetch_model_pricing.
    rewrite foldl_index_entry_get.
    by destruct (last _). }
  split; [done|]. split.
  - intros model Hlast. unfold Calculator._find_pricing.
    by rewrite Hget, Hlast.
  - rewrite Hget.
    assert (filter (Spec.indexed_under EmptyString) data = []) as ->; [|done].
    clear Hget. induction data as [|m data IH]; [done|].
    rewrite filter_cons_False; [done|]. intros [Hk _]. by apply Hk.
Qed.

Section DailyShape.
Import Text Scraper Spec.

Lemma date_field_date (s date_str rest : string) :
  date_field s = Some (date_str, rest) -> ∃ y m d, iso_shaped date_str y m d.
Proof.
  unfold date_field.
  destruct (quoted_name "date" s) as [s1|];
    cbn -[strip_prefix iso_date Q span]; [|done].
  destruct (strip_prefix ":" s1) as [s2|];
    cbn -[strip_prefix iso_date Q span]; [|done].
  destruct (Q s2) as [s3|]; cbn -[strip_prefix iso_date Q span]; [|done].
  destruct (iso_date s3) as [[date s4]|] eqn:Hdate;
    cbn -[strip_prefix iso_date Q span]; [|done].
  destruct (Q _) as [s5|]; cbn -[strip_prefix iso_date Q span]; [|done].
  destruct (strip_prefix "," s5) as [s6|];
    cbn -[strip_prefix iso_date Q span]; [|done].
  intros [= <- _]. by eapply iso_date_shaped.
Qed.

Lemma daily_pattern_date (s rest : string)
    (e : string * string * string * string * string * string) :
  daily_pattern s = Some (e, rest) -> ∃ y m d, iso_shaped (daily_date e) y m d.
Proof.
  unfold daily_pattern.
  destruct (date_field s) as [[date_str s1]|] eqn:Hdate;
    cbn -[strip_prefix span quoted_name Q number_field]; [|done].
  apply date_field_date in Hdate.
  repeat
    (match goal with
     | |- context [mbind _ ?o] =>
         destruct o as [?|];
         cbn -[strip_prefix span quoted_name Q number_field];
         [|done]
     | |- context [let '(_, _) := ?p in _] => destruct p
     | |- context [match ?p with (_, _) => _ end] => destruct p
     end).
  by intros [= <- _].
Qed.

Lemma on_date_elem {E} (date : E -> string) (d : string) (es : list E) :
  on_date date d es = true -> ∃ e, e ∈ es ∧ date e = d.
Proof.
  unfold on_date. intros (e & He & Hd)%existsb_exists.
  apply bool_decide_eq_true in Hd.
  exists e. split; [by apply list_elem_of_In|done].
Qed.

Lemma sum_on_nonneg {E} (date : E -> string) (f : E -> Z) (d : string)
    (es : list E) :
  (∀ e, 0 <= f e) -> 0 <= sum_on date f d es.
Proof.
  intros Hf. induction es as [|e es IH]; simpl; [done|].
  case_bool_decide; [|done]. specialize (Hf e). lia.
Qed.

End DailyShape.

(** X10. Every key of the extracted daily history has the form of an
    ISO date, and no count of a record is negative. *)
Theorem daily_records_are_dated_and_nonnegative
    (html d : string) (r : Scraper.DailyRecord) :
  Scraper._extract_daily_data html !! d = Some r ->
  (∃ y m dd, Text.iso_shaped d y m dd) ∧ Spec.record_nonneg r.
Proof.
  rewrite _extract_daily_data_lookup.
  destruct (Spec.on_date _ d _) eqn:Hd; [|done].
  intros [= <-]. split.
  - apply on_date_elem in Hd as (e & He & <-).
    pose proof (scan_Forall
                  (fun e => ∃ y m dd, Text.iso_shaped (Spec.daily_date e) y m dd)
                  Scraper.daily_pattern) as Hall.
    eapply Forall_forall in Hall; [exact Hall| |exact He].
    intros s a rest. apply daily_pattern_date.
  - unfold Spec.record_nonneg, Spec.grouped_record. simpl.
    repeat split; apply sum_on_nonneg; intros e;
      apply int_of_digits_nonneg.
Qed.

Lemma daily_records_are_dated_and_nonnegative_witness :
  ∃ r,
    Scraper._extract_daily_data analytics_page !! "2025-01-13" = Some r
    ∧ Spec.record_nonneg r.
Proof.
  destruct (Scraper._extract_daily_data analytics_page !! "2025-01-13")
    as [r|] eqn:Hr; [|vm_compute in Hr; discriminate].
  exists r. split; [done|].
  apply (daily_records_are_dated_and_nonnegative analytics_page "2025-01-13" r Hr).
Defined.

Section WindowShape.
Import Scraper Spec.

Lemma NoDup_days_back (end_date first n : Z) :
  NoDup (days_back end_date first n).
Proof.
  unfold days_back. apply NoDup_fmap_2; [|apply NoDup_seqZ].
  intros i j Hij. lia.
Qed.

Lemma elem_of_days_back (end_date first n d : Z) :
  d ∈ days_back end_date first n
  ↔ end_date - (first + n) < d <= end_date - first.
Proof.
  unfold days_back. rewrite list_elem_of_fmap. setoid_rewrite elem_of_seqZ.
  split.
  - intros (i & -> & Hi). lia.
  - intros Hd. exists (end_date - d). split; lia.
Qed.

Lemma field_sum_app (f : DailyRecord -> Z) (daily_data : gmap Z DailyRecord)
    (l1 l2 : list Z) :
  field_sum f daily_data (l1 ++ l2)
  = field_sum f daily_data l1 + field_sum f daily_data l2.
Proof.
  induction l1 as [|d l1 IH]; simpl; [done|]. rewrite IH. lia.
Qed.

Lemma days_back_shift (end_date k first n : Z) :
  days_back (end_date - k) first n = days_back end_date (first + k) n.
Proof.
  unfold days_back.
  replace (first + k) with (k + first) by lia.
  rewrite <- (fmap_add_seqZ k first n), <- list_fmap_compose.
  apply list_fmap_ext. intros _ i _. simpl. lia.
Qed.

(** The dates the window sum adds up. *)
Lemma dates_to_sum_shape (D days now : Z) (skip_partial : bool) :
  NoDup (dates_to_sum D days skip_partial now)
  ∧ Forall (fun d => D - days <= d <= D) (dates_to_sum D days skip_partial now)
  ∧ (length (dates_to_sum D days skip_partial now) <= Z.to_nat days)%nat
  ∧ (skip_partial = true -> now ∉ dates_to_sum D days skip_partial now).
Proof.
  assert (skip_partial = false ∨ now <= D - days ∨ D < now
          ∨ (skip_partial = true ∧ 0 < days ∧ now = D)
          ∨ (skip_partial = true ∧ D - days < now < D)) as Hcase.
  { destruct skip_partial; [|by left]. lia. }
  destruct Hcase as [Hoff|[Hout|[Hout|[(-> & Hpos & ->)|[-> Hin]]]]].
  1-3: rewrite dates_to_sum_outside by auto.
  1-3: (split; [apply NoDup_days_back|]; split;
        [apply Forall_forall; intros d Hd%elem_of_days_back; lia|]; split;
        [by rewrite length_days_back|]).
  - by intros ->.
  - intros _ Hd%elem_of_days_back. lia.
  - intros _ Hd%elem_of_days_back. lia.
  - rewrite dates_to_sum_today.
    split; [apply NoDup_days_back|]. split.
    { apply Forall_forall. intros d Hd%elem_of_days_back. lia. }
    split; [by rewrite length_days_back|].
    intros _ Hd%elem_of_days_back. lia.
  - rewrite dates_to_sum_inside by done.
    split.
    { apply NoDup_app. split; [apply NoDup_days_back|].
      split; [|apply NoDup_days_back].
      intros d Hd1%elem_of_days_back Hd2%elem_of_days_back. lia. }
    split.
    { apply Forall_app. split; apply Forall_forall;
        intros d Hd%elem_of_days_back; lia. }
    split; [rewrite length_app, !length_days_back; lia|].
    intros _ [Hd|Hd]%elem_of_app; apply elem_of_days_back in Hd; lia.
Qed.

End WindowShape.

(** X12. Without the partial-day rule, the window of [a + b] days
    ending at [D] is the sum of the window of [a] days ending at [D] and
    the window of [b] days ending at [D - a]: adjacent windows neither
    overlap nor leave a gap. *)
Theorem adjacent_windows_add_up
    (daily_data : gmap Z Scraper.DailyRecord) (D a b now1 now2 now3 : Z) :
  0 <= a -> 0 <= b ->
  Scraper.sum_daily_window daily_data D (a + b) false now1
  = Spec.add_activity
      (Scraper.sum_daily_window daily_data D a false now2)
      (Scraper.sum_daily_window daily_data (D - a) b false now3).
Proof.
  intros Ha Hb. unfold Scraper.sum_daily_window.
  rewrite !dates_to_sum_outside by auto.
  rewrite !foldl_add_day_zero.
  rewrite days_back_app by done. rewrite (days_back_shift D a 0 b).
  unfold Spec.window_sum, Spec.add_activity. simpl.
  by rewrite !field_sum_app.
Qed.

Lemma adjacent_windows_add_up_witness :
  Scraper.sum_daily_window ten_days 10 7 false 10
  = Spec.add_activity (Scraper.sum_daily_window ten_days 10 3 false 10)
                      (Scraper.sum_daily_window ten_days 7 4 false 10).
Proof.
  apply (adjacent_windows_add_up ten_days 10 3 4 10 10 10); lia.
Defined.

Section ChartKeys.
Import Text Scraper Spec.

Lemma add_pairs_models_cover (pairs : list (string * string)) acc acc'
    (seen : list (string * string)) :
  add_pairs acc pairs = Some acc' ->
  models_cover acc.1.1 seen -> models_cover acc'.1.1 (seen ++ pairs).
Proof.
  revert acc seen. induction pairs as [|p pairs IH]; intros acc seen; simpl.
  - intros [= <-]. by rewrite app_nil_r.
  - destruct acc as [[models others] total]. unfold add_pair at 1.
    destruct (tokens_of p.2) as [tokens|]; simpl; [|done].
    intros Hrest [Hothers Hseen].
    replace (seen ++ p :: pairs) with ((seen ++ [p]) ++ pairs)
      by by rewrite <- app_assoc.
    destruct (String.eqb_spec p.1 "Others") as [Hkey|Hkey];
      apply (IH _ _ Hrest); simpl; split; try done.
    + intros q [Hq|Hq]%elem_of_app; [by apply Hseen|].
      apply list_elem_of_singleton in Hq as ->. done.
    + by rewrite lookup_insert_ne.
    + intros q [Hq|Hq]%elem_of_app Hne.
      * destruct (decide (p.1 = q.1)) as [->|Hpq].
        -- rewrite lookup_insert_eq. by eexists.
        -- rewrite lookup_insert_ne by done. by apply Hseen.
      * apply list_elem_of_singleton in Hq as ->.
        rewrite lookup_insert_eq. by eexists.
Qed.

Lemma contains_char_Others : contains_char "/" "Others" = false.
Proof. reflexivity. Qed.

Lemma entry_of_pairs_keys (e : WeeklyChartEntry) (pairs : list (string * string)) :
  entry_of_pairs e pairs ->
  models e !! "Others" = None
  ∧ (∃ slug tokens,
       models e !! slug = Some tokens ∧ contains_char "/" slug = true)
  ∧ map_Forall (fun _ tokens => 0 <= tokens) (models e).
Proof.
  intros (Hbuild & Hslugs & _). unfold build_entry in Hbuild.
  destruct (add_pairs (∅, 0, 0) pairs) as [[[ms os] tot]|] eqn:Hloop;
    simpl in Hbuild; [|done].
  injection Hbuild as <-. simpl.
  destruct (add_pairs_models_cover _ _ _ [] Hloop) as [Hothers Hcover].
  { split; [apply lookup_empty|]. intros p Hp. by apply elem_of_nil in Hp. }
  simpl in Hothers, Hcover. split; [done|]. split.
  - unfold has_model_slugs in Hslugs.
    apply existsb_exists in Hslugs as (p & Hp & Hslash).
    apply list_elem_of_In in Hp.
    destruct (Hcover p Hp) as [tokens Htokens].
    { intros Hkey. rewrite Hkey in Hslash. done. }
    by exists p.1, tokens.
  - pose proof (add_pairs_volumes_ok _ _ _ Hloop) as Hok.
    destruct Hok as (_ & Hmodels & _); [|done].
    repeat split; simpl; [done|apply map_Forall_empty|].
    unfold models_sum. rewrite map_fold_empty. lia.
Qed.

Lemma brace_scan_bound (fuel : nat) (depth : Z) (j k : nat) (s : string) :
  brace_scan fuel depth j s = Some k -> (j <= k < j + fuel)%nat.
Proof.
  revert depth j s. induction fuel as [|fuel IH]; intros depth j s; simpl;
    [done|].
  destruct s as [|c s]; [done|].
  destruct (Ascii.eqb c "{").
  { intros Hk%IH. lia. }
  destruct (Ascii.eqb c "}").
  { case_decide; [intros [= <-]; lia|intros Hk%IH; lia]. }
  intros Hk%IH. lia.
Qed.

Lemma length_substring_le (n m : nat) (s : string) :
  (String.length (substring n m s) <= m)%nat.
Proof.
  revert n m. induction s as [|c s IH]; intros n m.
  - destruct n, m; simpl; lia.
  - destruct n as [|n]; [destruct m as [|m]|]; simpl; [lia| |apply IH].
    specialize (IH 0%nat m). lia.
Qed.

Lemma take_prefix (n : nat) (s : string) : ∃ r, s = take n s +:+ r.
Proof.
  unfold take. revert n. induction s as [|c s IH]; intros n.
  - exists EmptyString. by destruct n.
  - destruct n as [|n]; simpl.
    + by exists (String c s).
    + destruct (IH n) as [r Hr]. exists r. by rewrite Hr at 1.
Qed.

(** A text of at most one character holds no pair. *)
Lemma pairs_of_short (c : ascii) :
  findall pair_pattern (String c EmptyString) = [].
Proof.
  unfold findall. simpl. unfold pair_pattern.
  cbn -[span1]. destruct (Ascii.eqb dquote c); [|done]. done.
Qed.

Lemma pairs_of_unclosed (from_brace : string) :
  brace_scan (Z.to_nat 10000) 0 0 from_brace = None ->
  pairs_of from_brace = [].
Proof.
  intros Hscan. unfold pairs_of, ys_str. rewrite Hscan. simpl.
  destruct from_brace as [|c s]; [done|].
  unfold take. simpl.
  assert (substring 0 0 s = EmptyString) as -> by by destruct s.
  apply pairs_of_short.
Qed.

End ChartKeys.

(** X13. Every entry the chart extractor returns has no model named
    [Others], has at least one model whose slug contains a slash, and
    has no negative model volume. *)
Theorem chart_entries_hold_model_slugs
    (html : string) (entries : list Scraper.WeeklyChartEntry)
    (e : Scraper.WeeklyChartEntry) :
  Scraper.scrape_rankings_history html = Some entries ->
  e ∈ entries ->
  Scraper.models e !! "Others" = None
  ∧ (∃ slug tokens,
       Scraper.models e !! slug = Some tokens
       ∧ Text.contains_char "/" slug = true)
  ∧ map_Forall (fun _ tokens => 0 <= tokens) (Scraper.models e).
Proof.
  unfold Scraper.scrape_rankings_history. rewrite select_best_segments.
  destruct (mapM Scraper.script_entries _) as [ess|] eqn:Hess; simpl; [|done].
  intros [= <-] He. rewrite sorted_by_week_perm in He.
  assert (Forall (Forall Spec.entry_accounted) ess) as Hall.
  { apply mapM_Some in Hess. clear He.
    induction Hess as [|script es scripts ess Hscript _ IH]; constructor;
      [|done].
    by apply collect_entries_accounted in Hscript. }
  destruct (foldl_keep_larger ess []) as (_ & _ & [Hnone|(i & Hi & _)]).
  - rewrite Hnone in He. by apply elem_of_nil in He.
  - apply (Forall_lookup_1 _ _ _ _ Hall) in Hi.
    rewrite Forall_forall in Hi.
    destruct (Hi e He) as (pairs & Hpairs).
    by eapply entry_of_pairs_keys.
Qed.

Lemma chart_entries_hold_model_slugs_witness :
  Scraper.models (entry "2025-01-13" [("a/b", 3)] 7 15) !! "Others" = None
  ∧ ∃ slug tokens,
      Scraper.models (entry "2025-01-13" [("a/b", 3)] 7 15) !! slug
      = Some tokens
      ∧ Text.contains_char "/" slug = true.
Proof.
  destruct (chart_entries_hold_model_slugs nested_chart_page _
              (entry "2025-01-13" [("a/b", 3)] 7 15)
              scrape_rankings_history_nested_chart_page)
    as (Hothers & Hslug & _).
  - right. left.
  - exact (conj Hothers Hslug).
Defined.

(** X14. The text read for an entry is a prefix of at most 10000
    characters of the text from its opening brace; and when no brace
    closes the object within 10000 characters the marker yields no
    entry. *)
Theorem unclosed_chart_object_is_dropped
    (date_str from_brace : string) (matches : list (string * string)) :
  (String.length (Scraper.ys_str from_brace) <= Z.to_nat 10000)%nat
  ∧ (∃ rest, from_brace = Scraper.ys_str from_brace +:+ rest)
  ∧ (Scraper.brace_scan (Z.to_nat 10000) 0 0 from_brace = None ->
     Scraper.collect_entries ((date_str, from_brace) :: matches)
     = Scraper.collect_entries matches).
Proof.
  split; [|split].
  - unfold Scraper.ys_str, Text.take.
    etransitivity; [apply length_substring_le|].
    destruct (Scraper.brace_scan _ 0 0 from_brace) as [k|] eqn:Hscan; simpl.
    + apply brace_scan_bound in Hscan. lia.
    + lia.
  - apply take_prefix.
  - intros Hscan. cbn [Scraper.collect_entries].
    rewrite (pairs_of_unclosed _ Hscan). done.
Qed.

Section CleanText.
Import Text Pages.

Lemma append_assoc (a b c : string) : (a +:+ b) +:+ c = a +:+ (b +:+ c).
Proof.
  induction a as [|x a IH]; [done|].
  change (String x ((a +:+ b) +:+ c) = String x (a +:+ (b +:+ c))).
  by rewrite IH.
Qed.

Lemma append_cons (x : ascii) (a b : string) :
  String x a +:+ b = String x (a +:+ b).
Proof. reflexivity. Qed.

Lemma all_chars_app (P : ascii -> bool) (a b : string) :
  all_chars P (a +:+ b) = all_chars P a && all_chars P b.
Proof.
  induction a as [|x a IH]; [done|].
  rewrite append_cons. simpl. by rewrite IH, andb_assoc.
Qed.

Lemma all_chars_impl (P Q : ascii -> bool) (s : string) :
  (∀ c, P c = true -> Q c = true) ->
  all_chars P s = true -> all_chars Q s = true.
Proof.
  intros HPQ. induction s as [|c s IH]; simpl; [done|].
  intros [Hc Hs]%andb_prop. by rewrite (HPQ c Hc), IH.
Qed.

(** A text without whitespace is its own [strip]. *)
Lemma lstrip_clean (s : string) :
  all_chars (fun c => negb (Calculator.is_space c)) s = true -> lstrip s = s.
Proof.
  destruct s as [|c s]; simpl; [done|].
  intros [Hc _]%andb_prop. by apply negb_true_iff in Hc as ->.
Qed.

Lemma rstrip_clean (s : string) :
  all_chars (fun c => negb (Calculator.is_space c)) s = true -> rstrip s = s.
Proof.
  induction s as [|c s IH]; simpl; [done|].
  intros [Hc Hs]%andb_prop. rewrite (IH Hs).
  apply negb_true_iff in Hc as ->. by destruct s.
Qed.

Lemma strip_clean (s : string) :
  all_chars (fun c => negb (Calculator.is_space c)) s = true -> strip s = s.
Proof. intros Hs. unfold strip. by rewrite lstrip_clean, rstrip_clean. Qed.

(** A text without comma is kept by the removal of the commas. *)
Lemma replace_comma_clean (s : string) :
  all_chars (not_char ",") s = true -> replace "," EmptyString s = s.
Proof.
  unfold replace. induction s as [|c s IH]; [done|].
  cbn [all_chars replace_from]. intros [Hc Hs]%andb_prop.
  unfold startswith. cbn [strip_prefix].
  unfold not_char in Hc. apply negb_true_iff in Hc.
  rewrite Ascii.eqb_sym, Hc. by rewrite IH.
Qed.

Lemma span_app_stop (P : ascii -> bool) (u r : string) :
  all_chars P u = true ->
  (∀ c r', r = String c r' -> P c = false) ->
  span P (u +:+ r) = (u, r).
Proof.
  intros Hu Hr. induction u as [|c u IH].
  - change (EmptyString +:+ r) with r.
    destruct r as [|c r']; [done|]. simpl. by rewrite (Hr c r').
  - simpl in Hu. apply andb_prop in Hu as [Hc Hu].
    rewrite append_cons. simpl. by rewrite Hc, IH.
Qed.

Lemma number_char_clean (c : ascii) :
  number_char c = true ->
  Calculator.is_space c = false ∧ not_char "," c = true ∧ unit_char c = false.
Proof.
  unfold number_char, is_digit, Calculator.is_space, not_char, unit_char,
    upper_char.
  destruct c as [[] [] [] [] [] [] [] []]; vm_compute; try done.
Qed.

Lemma unit_char_clean (c : ascii) :
  unit_char c = true ->
  Calculator.is_space c = false ∧ not_char "," c = true
  ∧ number_char c = false.
Proof.
  unfold number_char, is_digit, Calculator.is_space, not_char, unit_char,
    upper_char.
  destruct c as [[] [] [] [] [] [] [] []]; vm_compute; try done.
Qed.

(** On a number followed by a unit the parser multiplies the two. *)
Lemma parse_token_count_clean (num u : string) :
  all_chars number_char num = true -> num ≠ EmptyString -> Spec.is_unit u ->
  parse_token_count (num +:+ u) = Spec.scaled num u.
Proof.
  intros Hnum Hne Hu. unfold parse_token_count, Spec.scaled.
  assert (all_chars (fun c => negb (Calculator.is_space c)) (num +:+ u) = true
          ∧ all_chars (not_char ",") (num +:+ u) = true) as [Hspace Hcomma].
  { rewrite !all_chars_app.
    rewrite (all_chars_impl number_char (fun c => negb (Calculator.is_space c)))
      by (try done; intros c [-> _]%number_char_clean; done).
    rewrite (all_chars_impl number_char (not_char ","))
      by (try done; intros c (_ & -> & _)%number_char_clean; done).
    destruct Hu as [->|(c & Hc & ->)]; [done|].
    simpl. by destruct (unit_char_clean c Hc) as (-> & -> & _). }
  rewrite strip_clean, replace_comma_clean by done.
  unfold token_pattern, span1.
  rewrite (span_app_stop number_char num u); [|done|].
  2:{ intros c r' ->. destruct Hu as [Hu|(c' & Hc' & Heq)]; [done|].
      injection Heq as -> ->.
      by destruct (unit_char_clean c' Hc') as (_ & _ & ->). }
  destruct num as [|x num]; [done|]. cbn [mbind option_bind].
  destruct Hu as [->|(c & Hc & ->)]; [done|].
  cbn [span]. destruct (unit_char_clean c Hc) as (-> & _ & _).
  cbn [snd]. by rewrite Hc.
Qed.

End CleanText.

Section Signs.
Import PyFloat.

Lemma binary_round_aux_not_negative (mx ex : Z) (lx : location) :
  Spec.not_negative (binary_round_aux prec emax false mx ex lx).
Proof.
  unfold binary_round_aux.
  destruct (shr_fexp prec emax mx ex lx) as [mrs' e'].
  destruct (shr_fexp prec emax _ e' loc_Exact) as [mrs'' e''].
  destruct (shr_m mrs'') as [|m|m]; simpl; try done.
  by destruct (e'' <=? emax - prec).
Qed.

Lemma nearest_not_negative (a b : Z) :
  0 <= a -> 0 < b -> Spec.not_negative (nearest a b).
Proof.
  intros Ha Hb. destruct a as [|p|p], b as [|q|q]; try lia; simpl; [done|].
  unfold SFdiv. destruct (SFdiv_core_binary _ _ _ _ _ _) as [[mz ez] lz].
  apply binary_round_aux_not_negative.
Qed.

Lemma of_int_not_negative (i : Z) (f : float) :
  0 <= i -> of_int i = Some f -> Spec.not_negative f.
Proof.
  intros Hi. unfold of_int, binary_normalize.
  destruct i as [|p|p]; [by intros [= <-]| |lia].
  unfold binary_round. destruct (shl_align _ _ _) as [mz ez].
  pose proof (binary_round_aux_not_negative (Z.pos mz) ez loc_Exact) as Hs.
  destruct (binary_round_aux _ _ _ _ _ _); simpl; try done; by intros [= <-].
Qed.

Lemma mul_not_negative (x y : float) :
  Spec.not_negative x -> Spec.not_negative y -> Spec.not_negative (mul x y).
Proof.
  destruct x as [sx|sx| |sx mx ex], y as [sy|sy| |sy my ey]; simpl;
    try done; try (by intros -> ->); try (by intros _ ->); try (by intros -> _).
  intros -> ->. apply binary_round_aux_not_negative.
Qed.

Lemma to_int_not_negative (x : float) (t : Z) :
  Spec.not_negative x -> to_int x = Some t -> 0 <= t.
Proof.
  destruct x as [s|s| |s m e]; simpl; try done.
  - by intros _ [= <-].
  - intros -> [= <-]. by apply Z.shiftl_nonneg.
Qed.

End Signs.

Section Exact.
Import PyFloat.

(** The float of a positive integer below 2^53: its 53-bit mantissa and
    its exponent. *)
Lemma digits2_pos_size (p : positive) : digits2_pos p = Pos.size p.
Proof. induction p as [p IH|p IH|]; simpl; by rewrite ?IH. Qed.

Lemma Zdigits2_log2 (k : Z) : 0 < k -> Zdigits2 k = Z.log2 k + 1.
Proof.
  destruct k as [|p|p]; try lia. intros _. simpl.
  rewrite digits2_pos_size. destruct p; simpl; lia.
Qed.

Lemma Zdigits2_mul_pow2 (k a : Z) :
  0 < k -> 0 <= a -> Zdigits2 (k * 2 ^ a) = Zdigits2 k + a.
Proof.
  intros Hk Ha. rewrite !Zdigits2_log2 by nia.
  rewrite Z.log2_mul_pow2 by lia. lia.
Qed.

Lemma shr_1_even (j : Z) :
  0 <= j ->
  shr_1 {| shr_m := 2 * j; shr_r := false; shr_s := false |}
  = {| shr_m := j; shr_r := false; shr_s := false |}.
Proof. destruct j as [|p|p]; try lia; done. Qed.

Lemma iter_pos_shr_1_exact (n : positive) (k a : Z) :
  0 <= k -> Z.pos n <= a ->
  SpecFloat.iter_pos shr_1 n
    {| shr_m := k * 2 ^ a; shr_r := false; shr_s := false |}
  = {| shr_m := k * 2 ^ (a - Z.pos n); shr_r := false; shr_s := false |}.
Proof.
  intros Hk. revert a.
  assert (∀ a, 1 <= a ->
            shr_1 {| shr_m := k * 2 ^ a; shr_r := false; shr_s := false |}
            = {| shr_m := k * 2 ^ (a - 1); shr_r := false; shr_s := false |})
    as Hstep.
  { intros a Ha.
    replace (k * 2 ^ a) with (2 * (k * 2 ^ (a - 1))).
    - apply shr_1_even. nia.
    - replace a with (a - 1 + 1) at 2 by lia.
      rewrite Z.pow_add_r by lia. lia. }
  induction n as [n IH|n IH|]; intros a Ha; cbn [SpecFloat.iter_pos].
  - rewrite Hstep, IH, IH by lia. do 3 f_equal. lia.
  - rewrite IH, IH by lia. do 3 f_equal. lia.
  - by apply Hstep.
Qed.

(** Rounding is exact on a quantity that fits the mantissa. *)
Lemma binary_round_aux_exact (k a : Z) :
  0 < k -> Zdigits2 k <= 53 -> 53 - Zdigits2 k <= a ->
  binary_round_aux prec emax false (k * 2 ^ a) (- a) loc_Exact
  = S754_finite false (Z.to_pos (k * 2 ^ (53 - Zdigits2 k))) (Zdigits2 k - 53).
Proof.
  intros Hk Hd Ha.
  assert (1 <= Zdigits2 k) as Hd1.
  { rewrite Zdigits2_log2 by done. pose proof (Z.log2_nonneg k). lia. }
  assert (0 <= a) as Ha0 by lia.
  assert (∀ e, 1 <= e <= 53 -> fexp prec emax e = e - 53) as Hfexp.
  { intros e He. unfold fexp, emin, prec, emax. lia. }
  assert (shr_fexp prec emax (k * 2 ^ a) (- a) loc_Exact
          = ({| shr_m := k * 2 ^ (53 - Zdigits2 k); shr_r := false;
                shr_s := false |}, Zdigits2 k - 53)) as Hshr.
  { unfold shr_fexp, shr. rewrite Zdigits2_mul_pow2 by lia.
    replace (Zdigits2 k + a + - a) with (Zdigits2 k) by lia.
    rewrite Hfexp by lia. cbn [shr_record_of_loc].
    destruct (Zdigits2 k - 53 - - a) as [|n|n] eqn:Hn; try lia.
    - f_equal; [|lia]. f_equal. f_equal. f_equal. lia.
    - rewrite iter_pos_shr_1_exact by lia.
      f_equal; [|lia]. f_equal. f_equal. f_equal. lia. }
  unfold binary_round_aux. rewrite Hshr. cbn [shr_m loc_of_shr_record
    round_nearest_even].
  assert (shr_fexp prec emax (k * 2 ^ (53 - Zdigits2 k)) (Zdigits2 k - 53)
            loc_Exact
          = ({| shr_m := k * 2 ^ (53 - Zdigits2 k); shr_r := false;
                shr_s := false |}, Zdigits2 k - 53)) as ->.
  { unfold shr_fexp, shr. rewrite Zdigits2_mul_pow2 by lia.
    replace (Zdigits2 k + (53 - Zdigits2 k) + (Zdigits2 k - 53))
      with (Zdigits2 k) by lia.
    rewrite Hfexp by lia. by rewrite Z.sub_diag. }
  cbn [shr_m].
  assert (0 < k * 2 ^ (53 - Zdigits2 k)) as Hpos.
  { apply Z.mul_pos_pos; [done|]. apply Z.pow_pos_nonneg; lia. }
  destruct (k * 2 ^ (53 - Zdigits2 k)) as [|m|m]; try lia.
  rewrite (proj2 (Z.leb_le _ _)) by (unfold emax, prec; lia). done.
Qed.

(** The float nearest to an integer below 2^53 is the integer. *)
Lemma nearest_integer (k : Z) :
  0 < k < 2 ^ 53 ->
  nearest k 1
  = S754_finite false (Z.to_pos (k * 2 ^ (53 - Zdigits2 k))) (Zdigits2 k - 53).
Proof.
  intros Hk.
  assert (Zdigits2 k <= 53) as Hd.
  { rewrite Zdigits2_log2 by lia.
    assert (Z.log2 k < 53); [|lia]. apply Z.log2_lt_pow2; lia. }
  assert (1 <= Zdigits2 k) as Hd1.
  { rewrite Zdigits2_log2 by lia. pose proof (Z.log2_nonneg k). lia. }
  destruct k as [|p|p]; try lia.
  unfold nearest, SFdiv, SFdiv_core_binary.
  change (Zdigits2 1) with 1.
  replace (Zdigits2 (Z.pos p) + 0 - (1 + 0)) with (Zdigits2 (Z.pos p) - 1)
    by lia.
  assert (fexp prec emax (Zdigits2 (Z.pos p) - 1) = Zdigits2 (Z.pos p) - 54)
    as ->.
  { unfold fexp, emin, prec, emax. lia. }
  rewrite Z.min_l by lia.
  replace (0 - 0 - (Zdigits2 (Z.pos p) - 54)) with (54 - Zdigits2 (Z.pos p))
    by lia.
  destruct (54 - Zdigits2 (Z.pos p)) as [|s|s] eqn:Hs; try lia.
  rewrite Z.shiftl_mul_pow2 by lia.
  assert (∀ x, Z.div_eucl x 1 = (x, 0)) as ->.
  { intros x. pose proof (Z.div_1_r x) as Hq. pose proof (Z.mod_1_r x) as Hr.
    unfold Z.div, Z.modulo in Hq, Hr.
    destruct (Z.div_eucl x 1) as [q r]. by subst. }
  change (new_location 1 0) with loc_Exact. cbn [xorb].
  replace (Zdigits2 (Z.pos p) - 54) with (- Z.pos s) by lia.
  rewrite binary_round_aux_exact by lia. done.
Qed.

Lemma to_int_integer (k : Z) :
  0 < k -> Zdigits2 k <= 53 ->
  to_int (S754_finite false (Z.to_pos (k * 2 ^ (53 - Zdigits2 k)))
                      (Zdigits2 k - 53))
  = Some k.
Proof.
  intros Hk Hd. simpl. f_equal.
  assert (0 < k * 2 ^ (53 - Zdigits2 k)) as Hpos.
  { apply Z.mul_pos_pos; [done|]. apply Z.pow_pos_nonneg; lia. }
  rewrite Z2Pos.id by done.
  replace (Zdigits2 k - 53) with (- (53 - Zdigits2 k)) by lia.
  rewrite Z.shiftl_opp_r, Z.shiftr_div_pow2 by lia.
  apply Z.div_mul. apply Z.pow_nonzero; lia.
Qed.

(** The product of two integers is exact when it is below 2^53. *)
Lemma mul_integers (k1 k2 : Z) :
  0 < k1 -> 0 < k2 -> k1 * k2 < 2 ^ 53 ->
  mul (S754_finite false (Z.to_pos (k1 * 2 ^ (53 - Zdigits2 k1)))
                   (Zdigits2 k1 - 53))
      (S754_finite false (Z.to_pos (k2 * 2 ^ (53 - Zdigits2 k2)))
                   (Zdigits2 k2 - 53))
  = S754_finite false
      (Z.to_pos (k1 * k2 * 2 ^ (53 - Zdigits2 (k1 * k2))))
      (Zdigits2 (k1 * k2) - 53).
Proof.
  intros Hk1 Hk2 Hlt.
  assert (∀ k, 0 < k -> k < 2 ^ 53 -> 1 <= Zdigits2 k <= 53) as Hdig.
  { intros k Hk Hk53. rewrite Zdigits2_log2 by lia.
    pose proof (Z.log2_nonneg k).
    assert (Z.log2 k < 53); [|lia]. apply Z.log2_lt_pow2; lia. }
  assert (k1 < 2 ^ 53 ∧ k2 < 2 ^ 53) as [Hk1b Hk2b] by nia.
  pose proof (Hdig k1 Hk1 Hk1b) as Hd1.
  pose proof (Hdig k2 Hk2 Hk2b) as Hd2.
  pose proof (Hdig (k1 * k2) ltac:(nia) Hlt) as Hd.
  assert (Zdigits2 k1 + Zdigits2 k2 - 1 <= Zdigits2 (k1 * k2)) as Hbelow.
  { rewrite !Zdigits2_log2 by nia.
    pose proof (Z.log2_mul_below k1 k2 Hk1 Hk2). lia. }
  unfold mul, SFmul. cbn [xorb].
  assert (0 < 2 ^ (53 - Zdigits2 k1) ∧ 0 < 2 ^ (53 - Zdigits2 k2))
    as [Hp1 Hp2] by (split; apply Z.pow_pos_nonneg; lia).
  replace (Z.pos (Z.to_pos (k1 * 2 ^ (53 - Zdigits2 k1))
                  * Z.to_pos (k2 * 2 ^ (53 - Zdigits2 k2))))
    with (k1 * k2 * 2 ^ (106 - Zdigits2 k1 - Zdigits2 k2)).
  2:{ rewrite Pos2Z.inj_mul, !Z2Pos.id by nia.
      replace (106 - Zdigits2 k1 - Zdigits2 k2)
        with ((53 - Zdigits2 k1) + (53 - Zdigits2 k2)) by lia.
      rewrite Z.pow_add_r by lia. ring. }
  replace (Zdigits2 k1 - 53 + (Zdigits2 k2 - 53))
    with (- (106 - Zdigits2 k1 - Zdigits2 k2)) by lia.
  apply binary_round_aux_exact; [nia|lia|lia].
Qed.

End Exact.

Section TokenCounts.
Import Text PyFloat Pages.

Lemma multipliers_cases (suffix : string) :
  multipliers suffix ∈ [1; 1000; 1000000; 1000000000; 1000000000000].
Proof.
  unfold multipliers.
  repeat (destruct (String.eqb suffix _); [set_solver|]). set_solver.
Qed.

Lemma of_int_multipliers (suffix : string) :
  of_int (multipliers suffix)
  = Some (S754_finite false
            (Z.to_pos (multipliers suffix
                       * 2 ^ (53 - Zdigits2 (multipliers suffix))))
            (Zdigits2 (multipliers suffix) - 53)).
Proof.
  pose proof (multipliers_cases suffix) as Hm.
  repeat (apply elem_of_cons in Hm as [->|Hm]; [vm_compute; reflexivity|]).
  by apply elem_of_nil in Hm.
Qed.

Lemma span_digits_whole (digits : string) :
  all_chars is_digit digits = true -> span is_digit digits = (digits, EmptyString).
Proof.
  intros Hd. rewrite <- (append_empty_r digits) at 1.
  apply span_app_stop; [done|]. by intros c r'.
Qed.

Lemma float_of_number_digits (digits : string) :
  is_digits digits = true ->
  float_of_number digits = Some (nearest (int_of_digits digits) 1).
Proof.
  unfold is_digits. intros [Hall Hne]%andb_prop.
  unfold float_of_number. rewrite span_digits_whole by done.
  apply negb_true_iff in Hne. by rewrite Hne.
Qed.

(** Two dots make a number run that [float] rejects. *)
Lemma float_of_number_two_dots (a b rest : string) :
  all_chars is_digit a = true -> all_chars is_digit b = true ->
  float_of_number (a +:+ "." +:+ b +:+ "." +:+ rest) = None.
Proof.
  intros Ha Hb. unfold float_of_number.
  rewrite (span_app_stop is_digit a ("." +:+ b +:+ "." +:+ rest));
    [|done|by intros c r' [= <- _]].
  change ("." +:+ b +:+ "." +:+ rest) with (String "." (b +:+ "." +:+ rest)).
  cbn [Ascii.eqb]. rewrite all_chars_app.
  change (all_chars is_digit ("." +:+ rest)) with false.
  by rewrite andb_false_r.
Qed.

End TokenCounts.

Section CountSign.
Import Text PyFloat Pages.

Lemma multipliers_nonneg (suffix : string) : 0 < multipliers suffix.
Proof.
  pose proof (multipliers_cases suffix) as Hcases.
  repeat (apply elem_of_cons in Hcases as [->|Hcases]; [lia|]).
  by apply elem_of_nil in Hcases.
Qed.

Lemma parse_token_count_nonneg (text : string) (t : Z) :
  parse_token_count text = Some t -> 0 <= t.
Proof.
  unfold parse_token_count.
  destruct (token_pattern _) as [[number_str unit_str]|];
    [|by intros [= <-]].
  unfold float_of_number.
  destruct (span is_digit number_str) as [ip r].
  pose proof (multipliers_nonneg (upper unit_str)) as Hmult.
  assert (∀ a b, 0 <= a -> 0 < b ->
            (Some (nearest a b)
               ≫= fun number =>
                    of_int (multipliers (upper unit_str))
                      ≫= fun multiplier => to_int (mul number multiplier))
            = Some t -> 0 <= t) as Hpos.
  { intros a b Ha Hb. simpl.
    destruct (of_int _) as [multiplier|] eqn:Hm; simpl; [|done].
    apply to_int_not_negative, mul_not_negative.
    - by apply nearest_not_negative.
    - apply (of_int_not_negative (multipliers (upper unit_str)));
        [lia|done]. }
  destruct r as [|c fp].
  - destruct (String.eqb ip EmptyString); [done|].
    apply Hpos; [apply int_of_digits_nonneg|lia].
  - destruct (_ && _); [|done].
    apply Hpos; [apply int_of_digits_nonneg|]. apply Z.pow_pos_nonneg; lia.
Qed.

End CountSign.

(** X15. A token count parsed from a
    text is never negative; and it is 0, without any exception, when the
    text, stripped and rid of its commas, is empty or starts with a
    character that is neither a digit nor a dot. *)
Theorem parse_token_count_zero_or_positive (text : string) :
  (∀ t, Pages.parse_token_count text = Some t -> 0 <= t)
  ∧ ((∀ c rest,
        Text.replace "," EmptyString (Pages.strip text) = String c rest ->
        Pages.number_char c = false) ->
     Pages.parse_token_count text = Some 0).
Proof.
  split; [intros t; apply parse_token_count_nonneg|].
  intros Hstart. unfold Pages.parse_token_count, Pages.token_pattern.
  destruct (Text.replace "," EmptyString (Pages.strip text)) as [|c rest];
    [done|].
  unfold Text.span1. cbn [Text.span]. by rewrite (Hstart c rest).
Qed.

(** X16. The pattern accepts the unit
    letter G, in either case, but the table of multipliers has no entry
    for it: a number followed by G parses as the number alone.  The case
    of a unit letter makes no difference. *)
Theorem unit_letter_G_counts_as_no_unit (num : string) :
  Text.all_chars Pages.number_char num = true -> num ≠ EmptyString ->
  Pages.parse_token_count (num +:+ "G") = Pages.parse_token_count num
  ∧ Pages.parse_token_count (num +:+ "g") = Pages.parse_token_count num
  ∧ ∀ c, Pages.unit_char c = true ->
         Pages.parse_token_count (num +:+ String c EmptyString)
         = Pages.parse_token_count
             (num +:+ String (Pages.upper_char c) EmptyString).
Proof.
  intros Hnum Hne.
  assert (Pages.parse_token_count num = Spec.scaled num EmptyString) as ->.
  { rewrite <- (append_empty_r num) at 1.
    apply parse_token_count_clean; [done|done|by left]. }
  split; [|split].
  - rewrite parse_token_count_clean; [done|done|done|].
    right. by exists "G"%char.
  - rewrite parse_token_count_clean; [done|done|done|].
    right. by exists "g"%char.
  - intros c Hc.
    assert (Pages.unit_char (Pages.upper_char c) = true
            ∧ Pages.upper_char (Pages.upper_char c) = Pages.upper_char c)
      as [Hupper Hidem].
    { revert Hc. unfold Pages.unit_char, Pages.upper_char.
      destruct c as [[] [] [] [] [] [] [] []]; vm_compute; done. }
    rewrite !parse_token_count_clean; try done.
    + unfold Spec.scaled. simpl. by rewrite Hidem.
    + right. by exists (Pages.upper_char c).
    + right. by exists c.
Qed.

Lemma unit_letter_G_counts_as_no_unit_witness :
  Pages.parse_token_count "5.5G" = Pages.parse_token_count "5.5"
  ∧ Pages.parse_token_count "5.5k" = Pages.parse_token_count "5.5K".
Proof.
  destruct (unit_letter_G_counts_as_no_unit "5.5") as (HG & _ & Hcase);
    [reflexivity|discriminate|].
  split; [exact HG|]. apply (Hcase "k"%char). reflexivity.
Defined.

(** X17. A text that the pattern accepts and
    [float] rejects makes the parser raise instead of returning 0: a
    number with two dots, such as [1.2.3T]. *)
Theorem count_with_two_dots_raises (a b rest u : string) :
  Text.all_chars Text.is_digit a = true ->
  Text.all_chars Text.is_digit b = true ->
  Text.all_chars Pages.number_char rest = true ->
  Spec.is_unit u ->
  Pages.parse_token_count (a +:+ "." +:+ b +:+ "." +:+ rest +:+ u) = None.
Proof.
  intros Ha Hb Hrest Hu.
  replace (a +:+ "." +:+ b +:+ "." +:+ rest +:+ u)
    with ((a +:+ "." +:+ b +:+ "." +:+ rest) +:+ u)
    by by rewrite !append_assoc.
  rewrite parse_token_count_clean; [| | |done].
  - unfold Spec.scaled. by rewrite float_of_number_two_dots.
  - assert (∀ s, Text.all_chars Text.is_digit s = true ->
                 Text.all_chars Pages.number_char s = true) as Hnum.
    { intros s. apply all_chars_impl. unfold Pages.number_char.
      by intros c ->. }
    rewrite !all_chars_app, Hrest, (Hnum a), (Hnum b) by done. done.
  - by destruct a.
Qed.

Lemma count_with_two_dots_raises_witness :
  Pages.parse_token_count "1.2.3T" = None.
Proof.
  apply (count_with_two_dots_raises "1" "2" "3" "T"); try reflexivity.
  right. exists "T"%char. split; reflexivity.
Defined.

(** X18. A whole number, with or without a
    unit, parses to exactly the number times the multiplier of the unit
    as long as the product is below 2^53. *)
Theorem whole_token_counts_are_exact (digits u : string) :
  Text.is_digits digits = true -> Spec.is_unit u ->
  Text.int_of_digits digits * Pages.multipliers (Pages.upper u) < 2 ^ 53 ->
  Pages.parse_token_count (digits +:+ u)
  = Some (Text.int_of_digits digits * Pages.multipliers (Pages.upper u)).
Proof.
  intros Hdigits Hu Hbound.
  pose proof Hdigits as [Hall Hne]%andb_prop.
  rewrite parse_token_count_clean; [| | |done].
  2:{ apply (all_chars_impl Text.is_digit); [|done].
      unfold Pages.number_char. by intros c ->. }
  2:{ intros ->. done. }
  unfold Spec.scaled. rewrite float_of_number_digits by done.
  rewrite of_int_multipliers. cbn [mbind option_bind].
  pose proof (int_of_digits_nonneg digits) as Hn.
  pose proof (multipliers_nonneg (Pages.upper u)) as Hm.
  destruct (decide (Text.int_of_digits digits = 0)) as [->|Hpos].
  - simpl. done.
  - rewrite nearest_integer by nia.
    rewrite mul_integers by lia.
    apply to_int_integer; [nia|].
    rewrite Zdigits2_log2 by nia.
    assert (Z.log2 (Text.int_of_digits digits
                    * Pages.multipliers (Pages.upper u)) < 53); [|lia].
    apply Z.log2_lt_pow2; nia.
Qed.

Lemma whole_token_counts_are_exact_witness :
  Pages.parse_token_count "706B" = Some 706000000000.
Proof.
  apply (whole_token_counts_are_exact "706" "B").
  - reflexivity.
  - right. exists "B"%char. split; reflexivity.
  - vm_compute. reflexivity.
Defined.

(** The examples of the docstring. *)
Example parse_token_count_docstring :
  Pages.parse_token_count "1.16T" = Some 1160000000000
  ∧ Pages.parse_token_count "706B" = Some 706000000000
  ∧ Pages.parse_token_count "445M" = Some 445000000
  ∧ Pages.parse_token_count "13.4K" = Some 13400
  ∧ Pages.parse_token_count "n/a" = Some 0
  ∧ Pages.parse_token_count "1.2.3T" = None.
Proof. vm_compute. repeat split; reflexivity. Qed.

Section Leaderboard.
Import Text Pages Spec.

Lemma read_token_col_spec (col : TokenCol) (total_tokens percent_change : Z) :
  read_token_col col = Some (total_tokens, percent_change) ->
  0 <= total_tokens
  ∧ (percent_change < 0 ->
     ∃ classes, svg col = Some classes
                ∧ contains "text-red" (join " " classes) = true).
Proof.
  unfold read_token_col.
  destruct (match token_match (col_text col) with
            | Some (number, unit_str) => parse_token_count (number +:+ unit_str)
            | None => Some 0
            end) as [t|] eqn:Htokens; simpl; [|done].
  intros [= <- <-]. split.
  - destruct (token_match (col_text col)) as [[number unit_str]|].
    + by eapply parse_token_count_nonneg.
    + by injection Htokens as <-.
  - assert (0 <= match search percent_pattern (col_text col) with
                 | Some digits => int_of_digits digits
                 | None => 0
                 end) as Hpct.
    { destruct (search _ _); [apply int_of_digits_nonneg|done]. }
    destruct (svg col) as [classes|]; [|lia].
    destruct (contains _ _) eqn:Hred; [|lia]. intros _. by exists classes.
Qed.

Lemma lstrip_char_startswith (c : ascii) (s : string) :
  startswith (lstrip_char c s) (String c EmptyString) = false.
Proof.
  induction s as [|b s IH]; simpl; [done|].
  destruct (Ascii.eqb b c) eqn:Hb; [done|].
  unfold startswith. simpl. by rewrite Ascii.eqb_sym, Hb.
Qed.

Lemma existsb_false_Forall {A} (f : A -> bool) (l : list A) :
  existsb f l = false -> Forall (fun x => f x = false) l.
Proof.
  induction l as [|x l IH]; simpl; [constructor|].
  intros [Hx Hl]%orb_false_iff. constructor; [done|by apply IH].
Qed.

(** One round of the loop passes the row over, or adds one model with
    the next rank. *)
Lemma scrape_row_spec (results results' : list RankedModel.t) (rank rank' : Z)
    (row : GridRow) :
  scrape_row (results, rank) row = Some (results', rank') ->
  (results' = results ∧ rank' = rank)
  ∨ ∃ model,
      results' = results ++ [model] ∧ rank' = rank + 1
      ∧ RankedModel.rank model = rank + 1
      ∧ model_slug (RankedModel.slug model)
      ∧ 0 <= RankedModel.total_tokens model
      ∧ scraped_from model row.
Proof.
  unfold scrape_row.
  destruct (model_link row) as [link|] eqn:Hlink; [|intros [= <- <-]; by left].
  destruct (String.eqb _ _ || is_nav _ || negb _) eqn:Hskip;
    [intros [= <- <-]; by left|].
  apply orb_false_iff in Hskip as [Hskip Hslash].
  apply orb_false_iff in Hskip as [Hempty Hnav].
  apply String.eqb_neq in Hempty. apply negb_false_iff in Hslash.
  destruct (match token_col row with
            | Some col => read_token_col col
            | None => Some (0, 0)
            end) as [[total_tokens percent_change]|] eqn:Hcol; simpl; [|done].
  intros [= <- <-]. right. eexists. split; [done|]. split; [done|].
  simpl. split; [done|]. split.
  { split; [done|]. split; [apply lstrip_char_startswith|]. split; [done|].
    by apply existsb_false_Forall. }
  destruct (token_col row) as [col|] eqn:Hrow.
  - apply read_token_col_spec in Hcol as [Hpos Hneg]. split; [done|].
    exists link. split; [done|]. split; [done|]. split; [done|].
    split; [congruence|].
    intros Hlt. destruct (Hneg Hlt) as (classes & Hsvg & Hred).
    by exists col, classes.
  - injection Hcol as <- <-. split; [done|].
    exists link. split; [done|]. split; [done|]. split; [done|].
    split; [done|]. simpl. lia.
Qed.

Lemma scrape_rows_spec (grid_rows : list GridRow)
    (results results' : list RankedModel.t) (rank rank' : Z) :
  scrape_rows (results, rank) grid_rows = Some (results', rank') ->
  ∃ models,
    results' = results ++ models
    ∧ rank' = rank + Z.of_nat (length models)
    ∧ RankedModel.rank <$> models = seqZ (rank + 1) (Z.of_nat (length models))
    ∧ (length models <= length grid_rows)%nat
    ∧ Forall (fun model =>
                model_slug (RankedModel.slug model)
                ∧ 0 <= RankedModel.total_tokens model
                ∧ ∃ row, row ∈ grid_rows ∧ scraped_from model row) models.
Proof.
  revert results rank. induction grid_rows as [|row grid_rows IH];
    intros results rank; cbn [scrape_rows].
  - intros [= <- <-]. exists []. rewrite app_nil_r. simpl.
    repeat split; try done; lia.
  - destruct (scrape_row (results, rank) row) as [[results1 rank1]|] eqn:Hrow;
      simpl; [|done].
    intros Hrest. destruct (IH _ _ Hrest) as (models & -> & -> & Hranks & Hlen & Hall).
    assert (Forall (fun model =>
                model_slug (RankedModel.slug model)
                ∧ 0 <= RankedModel.total_tokens model
                ∧ ∃ row', row' ∈ row :: grid_rows ∧ scraped_from model row')
              models) as Hall'.
    { eapply Forall_impl; [exact Hall|].
      intros model (? & ? & row' & ? & ?). split; [done|]. split; [done|].
      exists row'. split; [by right|done]. }
    apply scrape_row_spec in Hrow
      as [[-> ->]|(model & -> & -> & Hrank & Hslug & Htokens & Hfrom)].
    + exists models. split; [done|]. split; [done|]. split; [done|].
      split; [simpl; lia|done].
    + exists (model :: models). rewrite <- app_assoc. simpl length.
      split; [done|]. split; [lia|]. split.
      { rewrite fmap_cons, Hranks, Hrank.
        rewrite (seqZ_cons (rank + 1)) by lia.
        f_equal. f_equal; lia. }
      split; [simpl; lia|]. constructor; [|done].
      split; [done|]. split; [done|]. exists row. split; [left|done].
Qed.

End Leaderboard.

(** The leaderboard of [leaderboard_rows]. *)
Example scrape_rankings_leaderboard_rows :
  Pages.scrape_rankings leaderboard_rows = Some leaderboard_models.
Proof. vm_compute. reflexivity. Qed.

(** X19. The models scraped from the
    leaderboard carry the ranks 1, 2, ... in the order of the page,
    whatever rows are passed over, and there is at most one model per
    grid row. *)
Theorem scrape_rankings_ranks_are_consecutive
    (grid_rows : list Pages.GridRow) (results : list RankedModel.t) :
  Pages.scrape_rankings grid_rows = Some results ->
  RankedModel.rank <$> results = seqZ 1 (Z.of_nat (length results))
  ∧ (length results <= length grid_rows)%nat.
Proof.
  unfold Pages.scrape_rankings.
  destruct (Pages.scrape_rows ([], 0) grid_rows) as [[results' rank]|] eqn:Hrows;
    simpl; [|done].
  intros [= <-].
  destruct (scrape_rows_spec _ _ _ _ _ Hrows) as (models & -> & _ & Hranks & Hlen & _).
  simpl. by split.
Qed.

Lemma scrape_rankings_ranks_are_consecutive_witness :
  RankedModel.rank <$> leaderboard_models = [1; 2].
Proof.
  destruct (scrape_rankings_ranks_are_consecutive leaderboard_rows
              leaderboard_models scrape_rankings_leaderboard_rows)
    as [Hranks _].
  rewrite Hranks. reflexivity.
Defined.

(** X20. Every model scraped from the
    leaderboard comes from a grid row with a model link: its slug is the
    link target without its leading slashes, is not empty, contains a
    slash and starts with none of the navigation prefixes; its name is
    the text of the link; its token total is not negative; and its
    percent change is negative only if the row shows a red arrow. *)
Theorem scraped_models_are_model_links
    (grid_rows : list Pages.GridRow) (results : list RankedModel.t) :
  Pages.scrape_rankings grid_rows = Some results ->
  Forall (fun model =>
            Spec.model_slug (RankedModel.slug model)
            ∧ 0 <= RankedModel.total_tokens model
            ∧ ∃ row, row ∈ grid_rows ∧ Spec.scraped_from model row)
         results.
Proof.
  unfold Pages.scrape_rankings.
  destruct (Pages.scrape_rows ([], 0) grid_rows) as [[results' rank]|] eqn:Hrows;
    simpl; [|done].
  intros [= <-].
  by destruct (scrape_rows_spec _ _ _ _ _ Hrows) as (models & -> & _ & _ & _ & Hall).
Qed.

Lemma scraped_models_are_model_links_witness :
  Forall (fun model => Spec.model_slug (RankedModel.slug model))
         leaderboard_models.
Proof.
  eapply Forall_impl.
  - exact (scraped_models_are_model_links leaderboard_rows leaderboard_models
             scrape_rankings_leaderboard_rows).
  - intros model [Hslug _]. exact Hslug.
Defined.

(** X21. The report computed from a scraped
    leaderboard holds each of the ranks 1 to n exactly once, n being the
    number of models scraped, and every record has a slug with a slash
    and a token total that is not negative. *)
Theorem report_of_scraped_leaderboard
    (grid_rows : list Pages.GridRow) (rankings : list RankedModel.t)
    (activities : gmap string Scraper.Activity)
    (pricing : PyDict.dict Api.PriceInfo) (report : RevenueReport.t) :
  Pages.scrape_rankings grid_rows = Some rankings ->
  Calculator.calculate_revenue rankings activities pricing = Some report ->
  RevenueRecord.rank <$> RevenueReport.models report
  ≡ₚ seqZ 1 (Z.of_nat (length rankings))
  ∧ Forall (fun record =>
              Text.contains_char "/" (RevenueRecord.slug record) = true
              ∧ 0 <= RevenueRecord.total_tokens record)
           (RevenueReport.models report).
Proof.
  unfold Pages.scrape_rankings.
  destruct (Pages.scrape_rows ([], 0) grid_rows) as [[results' rank]|] eqn:Hrows;
    simpl; [|done].
  intros [= <-] Hrun.
  destruct (scrape_rows_spec _ _ _ _ _ Hrows) as (models & -> & _ & Hranks & _ & Hall).
  change (0 + 1) with 1 in Hranks. cbn [app] in *.
  destruct (calculate_revenue_records _ _ _ _ Hrun)
    as (st & records & _ & _ & Hmodels & Hrecs).
  rewrite Hmodels, sort_by_revenue_perm. split.
  - rewrite <- Hranks. clear -Hrecs.
    induction Hrecs as [|m r ms rs (Hl & _) _ IH]; [done|].
    rewrite !fmap_cons, IH.
    pose proof (f_equal (fun t => t.1.1.1.1) Hl) as Hrank.
    simpl in Hrank. by rewrite Hrank.
  - clear -Hrecs Hall.
    induction Hrecs as [|m r ms rs (Hl & _) _ IH]; [constructor|].
    apply Forall_cons in Hall as [((_ & _ & Hslash & _) & Htokens & _) Hall].
    constructor; [|by apply IH].
    pose proof (f_equal (fun t => t.1.1.1.2) Hl) as Hslug.
    pose proof (f_equal (fun t => t.1.2) Hl) as Htotal.
    simpl in Hslug, Htotal. by rewrite Hslug, Htotal.
Qed.

Lemma report_of_scraped_leaderboard_witness :
  ∃ report,
    Calculator.calculate_revenue leaderboard_models ∅ [] = Some report
    ∧ RevenueRecord.rank <$> RevenueReport.models report ≡ₚ [1; 2].
Proof.
  destruct (Calculator.calculate_revenue leaderboard_models ∅ [])
    as [report|] eqn:Hrun; [|vm_compute in Hrun; discriminate].
  exists report. split; [done|].
  destruct (report_of_scraped_leaderboard leaderboard_rows leaderboard_models
              ∅ [] report scrape_rankings_leaderboard_rows Hrun)
    as [Hranks _].
  exact Hranks.
Defined.

Section Legend.
Import Text Pages.

Lemma strip_prefix_app_None (p q s : string) :
  strip_prefix p s = None -> strip_prefix (p +:+ q) s = None.
Proof.
  revert s. induction p as [|a p IH]; intros s; simpl; [done|].
  destruct s as [|b s]; [done|]. destruct (Ascii.eqb a b); [apply IH|done].
Qed.

Lemma find_sub_None (p s : string) :
  find_sub p s = None ->
  strip_prefix p s = None
  ∧ ∀ c s', s = String c s' -> find_sub p s' = None.
Proof.
  destruct s as [|c s]; simpl.
  - destruct (strip_prefix p EmptyString); [done|].
    intros _. split; [done|]. by intros c s'.
  - destruct (strip_prefix p (String c s)); [done|].
    destruct (find_sub p s) as [[a b]|] eqn:Hrest; [done|].
    intros _. split; [done|]. by intros c' s' [= <- <-].
Qed.

(** A pattern that starts with a literal matches nowhere in a text
    without that literal. *)
Lemma search_absent {A} (m : string -> option A) (p s : string) :
  (∀ s', strip_prefix p s' = None -> m s' = None) ->
  find_sub p s = None -> search m s = None.
Proof.
  intros Hm. induction s as [|c s IH]; intros Hs.
  - apply find_sub_None in Hs as [Hs _]. simpl. by rewrite (Hm _ Hs).
  - apply find_sub_None in Hs as [Hs Hrest]. cbn [search].
    rewrite (Hm _ Hs). apply IH. by apply (Hrest c s).
Qed.

Lemma label_tokens_nonneg (label html : string) (t : Z) :
  label_tokens label html = Some t -> 0 <= t.
Proof.
  unfold label_tokens. destruct (search _ html) as [group|].
  - apply parse_token_count_nonneg.
  - by intros [= <-].
Qed.

Lemma label_tokens_absent (label html : string) :
  contains "aria-label=" html = false -> label_tokens label html = Some 0.
Proof.
  unfold contains, label_tokens.
  destruct (find_sub "aria-label=" html) as [r|] eqn:Hfind; [done|].
  intros _. rewrite (search_absent _ "aria-label=" html); [done| |done].
  intros s' Hs'. unfold label_pattern.
  replace ("aria-label=" +:+ DQ +:+ label +:+ DQ)
    with ("aria-label=" +:+ (DQ +:+ label +:+ DQ)) by done.
  by rewrite (strip_prefix_app_None _ _ _ Hs').
Qed.

End Legend.

(** X22. The fallback that reads the
    activity legend of a page never reports cached tokens or requests,
    and none of its three counts is negative; on a page without any
    [aria-label] attribute it returns the all-zero activity. *)
Theorem legend_fallback_reports_three_counts (html : string) :
  (∀ a, Pages._scrape_model_activity_html html = Some a ->
        Scraper.cached_tokens a = 0 ∧ Scraper.request_count a = 0
        ∧ 0 <= Scraper.prompt_tokens a ∧ 0 <= Scraper.completion_tokens a
        ∧ 0 <= Scraper.reasoning_tokens a)
  ∧ (Pages.contains "aria-label=" html = false ->
     Pages._scrape_model_activity_html html = Some Scraper.zero_activity).
Proof.
  unfold Pages._scrape_model_activity_html. split.
  - intros a.
    destruct (Pages.label_tokens "Prompt" html) as [p|] eqn:Hp; simpl; [|done].
    destruct (Pages.label_tokens "Completion" html) as [c|] eqn:Hc; simpl;
      [|done].
    destruct (Pages.label_tokens "Reasoning" html) as [r|] eqn:Hr; simpl;
      [|done].
    intros [= <-]. simpl.
    apply label_tokens_nonneg in Hp, Hc, Hr. done.
  - intros Habsent. by rewrite !label_tokens_absent.
Qed.

Section TextWindow.
Import Scraper Spec.

Variable strptime : string -> option Z.
Variable strftime : Z -> string.
Variable text_data : gmap string DailyRecord.
Variable daily_data : gmap Z DailyRecord.

Lemma elem_of_window_days (D days d : Z) :
  d ∈ window_days D days ↔ D - days <= d <= D.
Proof. unfold window_days. rewrite elem_of_seqZ. lia. Qed.

Lemma minus_days_dated (D days i : Z) :
  Forall (dated strptime strftime text_data daily_data) (window_days D days) ->
  0 <= i <= days ->
  Pages.minus_days D i = Some (D - i).
Proof.
  intros Hwindow Hi. unfold Pages.minus_days.
  rewrite Forall_forall in Hwindow.
  destruct (Hwindow (D - i)) as (Hrange & _).
  { apply elem_of_window_days. lia. }
  by rewrite bool_decide_eq_true_2.
Qed.

(** Two dated days with one date string are one day. *)
Lemma strftime_dated_inj (d now : Z) :
  strptime (strftime d) = Some d -> strptime (strftime now) = Some now ->
  strftime d = strftime now -> d = now.
Proof. intros Hd Hnow Heq. rewrite Heq, Hnow in Hd. by injection Hd. Qed.

(** On dated days the loop over the candidates yields the date strings
    of the days the loop over day numbers yields. *)
Lemma candidate_dates_dated (D days now : Z) (skip_partial : bool)
    (range : list Z) :
  Forall (dated strptime strftime text_data daily_data) (window_days D days) ->
  strptime (strftime now) = Some now ->
  Forall (fun i => 0 <= i <= days) range ->
  Pages.candidate_dates strftime D (strftime now) skip_partial range
  = Some (strftime <$> candidate_dates D now skip_partial range).
Proof.
  intros Hwindow Hnow. induction 1 as [|i range Hi _ IH]; [done|].
  cbn [Pages.candidate_dates candidate_dates].
  rewrite (minus_days_dated D days i) by done. simpl. rewrite IH. simpl.
  assert (bool_decide (strftime (D - i) = strftime now)
          = bool_decide (D - i = now)) as ->.
  { apply bool_decide_ext. split; [|by intros ->].
    apply strftime_dated_inj; [|done].
    rewrite Forall_forall in Hwindow.
    apply (Hwindow (D - i)). apply elem_of_window_days. lia. }
  by destruct (skip_partial && bool_decide (D - i = now)).
Qed.

(** On dated days the accumulation loop adds the same records. *)
Lemma foldl_add_day_dated (dates : list Z) (acc : Activity) :
  Forall (fun d => text_data !! strftime d = daily_data !! d) dates ->
  foldl (Pages.add_day text_data) acc (strftime <$> dates)
  = foldl (add_day daily_data) acc dates.
Proof.
  intros Hdates. revert acc.
  induction Hdates as [|d dates Hd _ IH]; intros acc; [done|].
  rewrite fmap_cons. cbn [foldl]. rewrite IH. f_equal.
  unfold Pages.add_day, add_day. by rewrite Hd.
Qed.

Lemma Forall_seqZ_range (days : Z) :
  Forall (fun i => 0 <= i <= days) (seqZ 0 days).
Proof. apply Forall_seqZ. lia. Qed.

End TextWindow.

(** The days of a concrete window, one by one. *)
Ltac window_dated :=
  match goal with
  | |- Forall _ ?w =>
      let l := eval vm_compute in w in
      change w with l;
      repeat (constructor; [split; [lia|split; vm_compute; reflexivity]|]);
      constructor
  end.

(** X23. On a history keyed by date
    strings the window sum raises nothing and is the window sum on the
    history keyed by day numbers, with the end date and the clock as day
    numbers, provided that the end date is written the way [strftime]
    writes it, that [strptime] reads back what [strftime] writes for the
    date of the clock and for the days from [D - days] to [D], and that
    the two histories agree on these days. *)
Theorem sum_daily_window_by_day_number
    (strptime : string -> option Z) (strftime : Z -> string)
    (text_data : gmap string Scraper.DailyRecord)
    (daily_data : gmap Z Scraper.DailyRecord)
    (end_date : string) (D days now : Z) (skip_partial : bool) :
  strptime end_date = Some D ->
  strftime D = end_date ->
  strptime (strftime now) = Some now ->
  Forall (Spec.dated strptime strftime text_data daily_data)
         (Spec.window_days D days) ->
  Pages.sum_daily_window strptime strftime text_data end_date days
    skip_partial now
  = Some (Scraper.sum_daily_window daily_data D days skip_partial now).
Proof.
  intros Hend Hcanon Hnow Hwindow.
  unfold Pages.sum_daily_window, Pages.dates_to_sum, Scraper.sum_daily_window.
  rewrite Hend. cbn [mbind option_bind]. unfold Scraper.utcnow.
  rewrite (candidate_dates_dated strptime strftime text_data daily_data D days)
    by (try done; apply Forall_seqZ_range).
  cbn [mbind option_bind].
  assert (bool_decide (end_date = strftime now) = bool_decide (D = now)) as ->.
  { apply bool_decide_ext. split.
    - intros Heq. rewrite Heq, Hnow in Hend. by injection Hend.
    - by intros <-. }
  rewrite length_fmap.
  assert (Forall (fun d => text_data !! strftime d = daily_data !! d)
                 (Scraper.dates_to_sum D days skip_partial now)) as Hlookup.
  { destruct (dates_to_sum_shape D days now skip_partial) as (_ & Hin & _).
    eapply Forall_impl; [exact Hin|]. intros d Hd.
    rewrite Forall_forall in Hwindow.
    destruct (Hwindow d) as (_ & _ & Hd'); [|done].
    by apply elem_of_window_days. }
  unfold Scraper.dates_to_sum, Scraper.utcnow in *.
  destruct (skip_partial && bool_decide (D = now)
            && bool_decide (Z.of_nat (length _) < days)) eqn:Hextra.
  - rewrite (minus_days_dated strptime strftime text_data daily_data D days days).
    + simpl. f_equal.
      rewrite <- (foldl_add_day_dated strftime text_data daily_data) by done.
      by rewrite fmap_app.
    + done.
    + apply andb_prop in Hextra as [_ Hlt]. apply bool_decide_eq_true in Hlt.
      lia.
  - simpl. f_equal.
    by rewrite <- (foldl_add_day_dated strftime text_data daily_data).
Qed.

Lemma sum_daily_window_by_day_number_witness :
  Pages.sum_daily_window Calendar.strptime Calendar.strftime
    (Scraper._extract_daily_data analytics_page) "2025-01-14" 7 true 739265
  = Some (Scraper.sum_daily_window analytics_days 739265 7 true 739265).
Proof.
  apply (sum_daily_window_by_day_number Calendar.strptime Calendar.strftime
           (Scraper._extract_daily_data analytics_page) analytics_days
           "2025-01-14" 739265 7 739265 true).
  - vm_compute. reflexivity.
  - vm_compute. reflexivity.
  - vm_compute. reflexivity.
  - window_dated.
Defined.

(** X24. An end date that names today but
    is not written the way [strftime] writes it, such as one without
    zero padding, is passed over by the partial-day rule and no day is
    added in its place: the sum is over the [days - 1] days before
    today. *)
Theorem unpadded_end_date_loses_a_day
    (strptime : string -> option Z) (strftime : Z -> string)
    (text_data : gmap string Scraper.DailyRecord)
    (daily_data : gmap Z Scraper.DailyRecord)
    (end_date : string) (D days : Z) :
  strptime end_date = Some D ->
  end_date ≠ strftime D ->
  0 < days ->
  Forall (Spec.dated strptime strftime text_data daily_data)
         (Spec.window_days D days) ->
  Pages.sum_daily_window strptime strftime text_data end_date days true D
  = Some (Spec.window_sum daily_data (Spec.days_back D 1 (days - 1))).
Proof.
  intros Hend Hcanon Hdays Hwindow.
  assert (strptime (strftime D) = Some D) as Hnow.
  { rewrite Forall_forall in Hwindow.
    apply (Hwindow D). apply elem_of_window_days. lia. }
  unfold Pages.sum_daily_window, Pages.dates_to_sum.
  rewrite Hend. cbn [mbind option_bind]. unfold Scraper.utcnow.
  rewrite (candidate_dates_dated strptime strftime text_data daily_data D days)
    by (try done; apply Forall_seqZ_range).
  cbn [mbind option_bind].
  rewrite (bool_decide_eq_false_2 (end_date = strftime D)) by done.
  rewrite andb_false_r. cbn [andb].
  rewrite candidate_dates_skip. fold (Spec.days_back D 0 days).
  rewrite (days_back_cons D 0 days) by lia.
  rewrite filter_cons_False by (intros Hne; apply Hne; lia).
  rewrite filter_days_back_outside by lia.
  replace (0 + 1) with 1 by lia.
  cbn [mbind option_bind]. f_equal.
  rewrite (foldl_add_day_dated strftime text_data daily_data).
  - apply foldl_add_day_zero.
  - apply Forall_forall. intros d Hd%elem_of_days_back.
    rewrite Forall_forall in Hwindow.
    destruct (Hwindow d) as (_ & _ & Hd'); [|done].
    apply elem_of_window_days. lia.
Qed.

Lemma unpadded_end_date_loses_a_day_witness :
  Pages.sum_daily_window Calendar.strptime Calendar.strftime
    (Scraper._extract_daily_data analytics_page) "2025-1-14" 7 true 739265
  = Some (Spec.window_sum analytics_days (Spec.days_back 739265 1 6)).
Proof.
  apply (unpadded_end_date_loses_a_day Calendar.strptime Calendar.strftime
           (Scraper._extract_daily_data analytics_page) analytics_days
           "2025-1-14" 739265 7).
  - vm_compute. reflexivity.
  - vm_compute. discriminate.
  - lia.
  - window_dated.
Defined.

Section Latest.
Import Scraper Spec.

Lemma string_leb_refl (a : string) : String.leb a a = true.
Proof.
  unfold String.leb. pose proof (String.compare_antisym a a) as Hanti.
  by destruct (String.compare a a).
Qed.

(** The greatest of a list of keys that is not empty. *)
Lemma latest_greatest (keys : list string) :
  keys ≠ [] ->
  ∃ m, Pages.latest keys = Some m ∧ m ∈ keys
       ∧ ∀ k, k ∈ keys -> String.leb k m = true.
Proof.
  induction keys as [|k keys IH]; [done|]. intros _.
  destruct keys as [|k' keys].
  { exists k. split; [done|]. split; [by left|].
    intros k' ->%list_elem_of_singleton. apply string_leb_refl. }
  destruct IH as (m & Hm & Hin & Hmax); [done|].
  cbn [Pages.latest foldr] in *. rewrite Hm.
  destruct (String.ltb m k) eqn:Hlt.
  - exists k. split; [done|]. split; [by left|].
    intros j [->|Hj]%elem_of_cons; [apply string_leb_refl|].
    eapply string_leb_trans; [by apply Hmax|by apply string_ltb_leb].
  - exists m. split; [done|]. split; [by right|].
    intros j [->|Hj]%elem_of_cons; [by apply string_ltb_false_leb|].
    by apply Hmax.
Qed.

(** The history is empty exactly when the page has no analytics
    entry. *)
Lemma _extract_daily_data_empty (html : string) :
  _extract_daily_data html = ∅ ↔ Text.findall daily_pattern html = [].
Proof.
  split.
  - intros Hempty.
    destruct (Text.findall daily_pattern html) as [|e es] eqn:Hes; [done|].
    pose proof (_extract_daily_data_lookup html (daily_date e)) as Hlookup.
    rewrite Hempty, lookup_empty, Hes in Hlookup.
    unfold on_date in Hlookup. cbn [existsb] in Hlookup.
    by rewrite bool_decide_eq_true_2 in Hlookup.
  - intros Hnone. unfold _extract_daily_data.
    by rewrite bool_decide_eq_true_2.
Qed.

End Latest.

(** X25.
    [scrape_model_activity] returns the all-zero activity when the
    request fails and what the legend fallback reads when the page has
    no analytics entry; otherwise it returns the window sum of seven
    days under the partial-day rule that ends at the greatest date of
    the history, and it raises when [strptime] rejects that date. *)
Theorem scrape_model_activity_sums_up_to_latest_date
    (strptime : string -> option Z) (strftime : Z -> string)
    (response : option string) (now : Z) :
  match response with
  | None =>
      Pages.scrape_model_activity strptime strftime response now
      = Some Scraper.zero_activity
  | Some text =>
      if bool_decide (Text.findall Scraper.daily_pattern text = [])
      then Pages.scrape_model_activity strptime strftime response now
           = Pages._scrape_model_activity_html text
      else ∃ end_date,
             Spec.latest_date (Scraper._extract_daily_data text) end_date
             ∧ Pages.scrape_model_activity strptime strftime response now
               = Pages.sum_daily_window strptime strftime
                   (Scraper._extract_daily_data text) end_date 7 true now
             ∧ (strptime end_date = None ->
                Pages.scrape_model_activity strptime strftime response now
                = None)
  end.
Proof.
  destruct response as [text|]; [|done].
  unfold Pages.scrape_model_activity.
  case_bool_decide as Hentries.
  - apply _extract_daily_data_empty in Hentries.
    by rewrite bool_decide_eq_true_2.
  - rewrite bool_decide_eq_false_2 by by rewrite _extract_daily_data_empty.
    destruct (latest_greatest (map_to_list (Scraper._extract_daily_data text)).*1)
      as (m & Hm & Hin & Hmax).
    { intros Hnil%fmap_nil_inv%map_to_list_empty_iff.
      by apply Hentries, _extract_daily_data_empty. }
    exists m. rewrite Hm. cbn [mbind option_bind].
    split; [split|split; [done|]].
    + apply list_elem_of_fmap in Hin as ([k r] & -> & Hkr).
      apply elem_of_map_to_list in Hkr. by exists r.
    + intros d [r Hr]. apply Hmax.
      apply list_elem_of_fmap. exists (d, r).
      split; [done|]. by apply elem_of_map_to_list.
    + intros Hbad. unfold Pages.sum_daily_window, Pages.dates_to_sum.
      by rewrite Hbad.
Qed.

Section Snapshots.

Variable strptime : string -> option Z.
Variable strftime : Z -> string.
Variable snapshot_exists : string -> bool.

(** The loop over the offsets from [a] on. *)
Lemma find_snapshot_seqZ (T : Z) (n : nat) (a : Z) :
  1 <= T - (a + Z.of_nat n) + 1 -> T - a <= 3652059 ->
  ∃ result,
    Pages.find_snapshot strftime snapshot_exists T (seqZ a (Z.of_nat n))
    = Some result
    ∧ match result with
      | Some d =>
          ∃ k, a <= k < a + Z.of_nat n ∧ d = strftime (T - k)
               ∧ snapshot_exists d = true
               ∧ ∀ j, a <= j < k -> snapshot_exists (strftime (T - j)) = false
      | None =>
          ∀ k, a <= k < a + Z.of_nat n ->
               snapshot_exists (strftime (T - k)) = false
      end.
Proof.
  revert a. induction n as [|n IH]; intros a Hlow Hhigh.
  { exists None. split; [done|]. intros k Hk. lia. }
  rewrite seqZ_cons by lia. cbn [Pages.find_snapshot].
  unfold Pages.minus_days. rewrite bool_decide_eq_true_2 by lia.
  cbn [fmap option_fmap option_map mbind option_bind].
  destruct (snapshot_exists (strftime (T - a))) eqn:Hexists.
  - exists (Some (strftime (T - a))). split; [done|].
    exists a. split; [lia|]. split; [done|]. split; [done|].
    intros j Hj. lia.
  - replace (Z.pred (Z.of_nat (S n))) with (Z.of_nat n) by lia.
    destruct (IH (Z.succ a)) as (result & Hresult & Hspec); [lia|lia|].
    exists result. split; [done|].
    destruct result as [d|].
    + destruct Hspec as (k & Hk & Hd & Hex & Hbefore).
      exists k. split; [lia|]. split; [done|]. split; [done|].
      intros j Hj. destruct (decide (j = a)) as [->|Hne]; [done|].
      apply Hbefore. lia.
    + intros k Hk. destruct (decide (k = a)) as [->|Hne]; [done|].
      apply Hspec. lia.
Qed.

End Snapshots.

(** X26. For a today that
    [strptime] reads and that lies more than [days_back] days after the
    first date of [datetime], the search raises nothing; it returns the
    date of the most recent snapshot that exists among today and the
    [days_back] days before it, and [None] exactly when none of them
    exists. *)
Theorem _find_recent_snapshot_returns_most_recent
    (strptime : string -> option Z) (strftime : Z -> string)
    (snapshot_exists : string -> bool) (today : string) (T days_back : Z) :
  strptime today = Some T ->
  1 <= T <= 3652059 ->
  days_back < T ->
  ∃ result,
    Pages._find_recent_snapshot strptime strftime snapshot_exists today
      days_back = Some result
    ∧ match result with
      | Some d =>
          ∃ k, 0 <= k <= days_back ∧ d = strftime (T - k)
               ∧ snapshot_exists d = true
               ∧ ∀ j, 0 <= j < k -> snapshot_exists (strftime (T - j)) = false
      | None =>
          ∀ k, 0 <= k <= days_back ->
               snapshot_exists (strftime (T - k)) = false
      end.
Proof.
  intros Htoday Hrange Hback. unfold Pages._find_recent_snapshot.
  rewrite Htoday. cbn [mbind option_bind].
  destruct (decide (days_back + 1 <= 0)) as [Hnone|Hsome].
  { exists None. split.
    - unfold seqZ. by replace (Z.to_nat (days_back + 1)) with 0%nat by lia.
    - intros k Hk. lia. }
  destruct (find_snapshot_seqZ strftime snapshot_exists T
              (Z.to_nat (days_back + 1)) 0) as (result & Hresult & Hspec);
    [lia|lia|].
  rewrite Z2Nat.id in Hresult, Hspec by lia.
  exists result. split; [done|].
  destruct result as [d|].
  - destruct Hspec as (k & Hk & Hspec). exists k. split; [lia|done].
  - intros k Hk. apply Hspec. lia.
Qed.

Lemma _find_recent_snapshot_returns_most_recent_witness :
  ∃ result,
    Pages._find_recent_snapshot Calendar.strptime Calendar.strftime
      one_snapshot "2025-01-13" 6 = Some result
    ∧ match result with
      | Some d =>
          ∃ k, 0 <= k <= 6 ∧ d = Calendar.strftime (739264 - k)
               ∧ one_snapshot d = true
               ∧ ∀ j, 0 <= j < k ->
                      one_snapshot (Calendar.strftime (739264 - j)) = false
      | None =>
          ∀ k, 0 <= k <= 6 ->
               one_snapshot (Calendar.strftime (739264 - k)) = false
      end.
Proof.
  apply (_find_recent_snapshot_returns_most_recent Calendar.strptime
           Calendar.strftime one_snapshot "2025-01-13" 739264 6).
  - vm_compute. reflexivity.
  - lia.
  - lia.
Defined.

(** The search on a data directory with one snapshot, and a malformed
    today. *)
Example _find_recent_snapshot_one_snapshot :
  Pages._find_recent_snapshot Calendar.strptime Calendar.strftime
    one_snapshot "2025-01-13" 6 = Some (Some "2025-01-10")
  ∧ Pages._find_recent_snapshot Calendar.strptime Calendar.strftime
      one_snapshot "2025-01-17" 6 = Some None
  ∧ Pages._find_recent_snapshot Calendar.strptime Calendar.strftime
      one_snapshot "2025-01-3" 6 = Some None
  ∧ Pages._find_recent_snapshot Calendar.strptime Calendar.strftime
      one_snapshot "2025-02-30" 6 = None.
Proof. vm_compute. done. Qed.

(** The activity of [analytics_page] on the day of its latest date. *)
Example scrape_model_activity_analytics_page :
  Pages.scrape_model_activity Calendar.strptime Calendar.strftime
    (Some analytics_page) 739265
  = Some {| Scraper.prompt_tokens := 22; Scraper.completion_tokens := 11;
            Scraper.reasoning_tokens := 3; Scraper.cached_tokens := 12;
            Scraper.request_count := 3 |}.
Proof. vm_compute. reflexivity. Qed.

Section Labels.
Import Text Pages ReadmeGen Spec.

(** One step of the replacement of a character. *)
Lemma replace_char_cons (c b : ascii) (new s : string) :
  replace_from (String c EmptyString) new 0 (String b s)
  = if Ascii.eqb c b
    then new +:+ replace_from (String c EmptyString) new 0 s
    else String b (replace_from (String c EmptyString) new 0 s).
Proof.
  cbn [replace_from]. unfold startswith. cbn [strip_prefix].
  by destruct (Ascii.eqb c b).
Qed.

(** The replacement of a character by a text without it leaves none. *)
Lemma replace_char_avoids (banned : list ascii) (c : ascii) (new s : string) :
  all_chars (avoids banned) s = true ->
  all_chars (avoids (c :: banned)) new = true ->
  all_chars (avoids (c :: banned)) (replace (String c EmptyString) new s)
  = true.
Proof.
  intros Hs Hnew. unfold replace.
  induction s as [|b s IH]; [done|].
  cbn [all_chars] in Hs. apply andb_prop in Hs as [Hb Hs].
  rewrite replace_char_cons. destruct (Ascii.eqb c b) eqn:Hcb.
  - rewrite all_chars_app, Hnew. by apply IH.
  - cbn [all_chars]. rewrite (IH Hs), andb_true_r.
    unfold avoids in *. cbn [existsb]. rewrite Ascii.eqb_sym, Hcb. done.
Qed.

(** A text without the character is kept. *)
Lemma replace_char_absent (c : ascii) (new s : string) :
  all_chars (not_char c) s = true -> replace (String c EmptyString) new s = s.
Proof.
  unfold replace. induction s as [|b s IH]; [done|].
  cbn [all_chars]. intros [Hb Hs]%andb_prop.
  rewrite replace_char_cons. unfold not_char in Hb.
  apply negb_true_iff in Hb. rewrite Ascii.eqb_sym, Hb. by rewrite IH.
Qed.

Lemma all_chars_lstrip (P : ascii -> bool) (s : string) :
  all_chars P s = true -> all_chars P (lstrip s) = true.
Proof.
  induction s as [|c s IH]; [done|]. cbn [lstrip].
  destruct (Calculator.is_space c); [|done].
  cbn [all_chars]. intros [_ Hs]%andb_prop. by apply IH.
Qed.

Lemma all_chars_rstrip (P : ascii -> bool) (s : string) :
  all_chars P s = true -> all_chars P (rstrip s) = true.
Proof.
  induction s as [|c s IH]; [done|]. cbn [rstrip all_chars].
  intros [Hc Hs]%andb_prop. specialize (IH Hs).
  destruct (rstrip s) as [|b r].
  - destruct (Calculator.is_space c); [done|]. cbn [all_chars].
    by rewrite Hc.
  - cbn [all_chars] in *. by rewrite Hc, IH.
Qed.

Lemma all_chars_strip (P : ascii -> bool) (s : string) :
  all_chars P s = true -> all_chars P (strip s) = true.
Proof. intros Hs. by apply all_chars_rstrip, all_chars_lstrip. Qed.

(** What is left of a text stripped on the left starts with no
    whitespace. *)
Lemma lstrip_head (s : string) (c : ascii) (r : string) :
  lstrip s = String c r -> Calculator.is_space c = false.
Proof.
  induction s as [|b s IH]; [done|]. cbn [lstrip].
  destruct (Calculator.is_space b) eqn:Hb; [done|]. by intros [= <- <-].
Qed.

Lemma rstrip_cons (c : ascii) (s : string) :
  Calculator.is_space c = false -> rstrip (String c s) = String c (rstrip s).
Proof. intros Hc. cbn [rstrip]. rewrite Hc. by destruct (rstrip s). Qed.

Lemma rstrip_idemp (s : string) : rstrip (rstrip s) = rstrip s.
Proof.
  induction s as [|c s IH]; [done|]. cbn [rstrip].
  destruct (rstrip s) as [|b r] eqn:Hr.
  - destruct (Calculator.is_space c) eqn:Hc; [done|].
    cbn [rstrip]. by rewrite Hc.
  - change (rstrip (String c (String b r))) with
      (match rstrip (String b r) with
       | EmptyString =>
           if Calculator.is_space c then EmptyString
           else String c EmptyString
       | r' => String c r'
       end).
    by rewrite IH.
Qed.

(** Stripping a stripped text changes nothing. *)
Lemma strip_idemp (s : string) : strip (strip s) = strip s.
Proof.
  unfold strip. destruct (lstrip s) as [|c r] eqn:Hs; [done|].
  pose proof (lstrip_head _ _ _ Hs) as Hc.
  rewrite rstrip_cons by done. cbn [lstrip]. rewrite Hc.
  rewrite rstrip_cons by done. by rewrite rstrip_idemp.
Qed.

(** The two orders in which the characters are listed. *)
Lemma avoids_mermaid_chars (c : ascii) :
  avoids [";"; ":"; "#"; "}"; "{"; "]"; "["; ")"; "("; dquote]%char c
  = avoids mermaid_chars c.
Proof.
  unfold avoids, mermaid_chars. cbn [existsb].
  repeat match goal with |- context [Ascii.eqb c ?d] =>
    destruct (Ascii.eqb c d); simpl; try done end.
Qed.

(** The sanitised label holds none of the characters. *)
Lemma _sanitize_mermaid_label_safe (text : string) :
  chart_safe (_sanitize_mermaid_label text).
Proof.
  unfold chart_safe, _sanitize_mermaid_label.
  apply all_chars_strip.
  eapply all_chars_impl.
  { intros c Hc. rewrite <- avoids_mermaid_chars. exact Hc. }
  repeat (apply replace_char_avoids; [|done]).
  induction text as [|c text IH]; [done|]. done.
Qed.

Lemma chart_safe_not_char (c : ascii) (s : string) :
  c ∈ mermaid_chars -> chart_safe s -> all_chars (not_char c) s = true.
Proof.
  intros Hc. apply all_chars_impl. intros b Hb.
  unfold avoids in Hb. apply negb_true_iff in Hb.
  unfold not_char. apply negb_true_iff.
  destruct (Ascii.eqb b c) eqn:Hbc; [|done].
  apply Ascii.eqb_eq in Hbc as ->.
  rewrite <- Hb. symmetry. apply existsb_exists. exists c.
  split; [by apply list_elem_of_In|apply Ascii.eqb_refl].
Qed.

Lemma strip_prefix_all_chars (P : ascii -> bool) (p s rest : string) :
  strip_prefix p s = Some rest -> all_chars P s = true ->
  all_chars P rest = true.
Proof.
  revert s. induction p as [|a p IH]; intros s; cbn [strip_prefix].
  - by intros [= ->].
  - destruct s as [|b s]; [done|].
    destruct (Ascii.eqb a b); [|done].
    cbn [all_chars]. intros Hrest [_ Hs]%andb_prop. by eapply IH.
Qed.

Lemma find_sub_all_chars (P : ascii -> bool) (p s before rest : string) :
  find_sub p s = Some (before, rest) -> all_chars P s = true ->
  all_chars P rest = true.
Proof.
  revert before. induction s as [|c s IH]; intros before; cbn [find_sub].
  - destruct (strip_prefix p EmptyString) as [r|] eqn:Hp; [|done].
    intros [= _ <-] Hs. by eapply strip_prefix_all_chars.
  - destruct (strip_prefix p (String c s)) as [r|] eqn:Hp.
    + intros [= _ <-] Hs. by eapply strip_prefix_all_chars.
    + destruct (find_sub p s) as [[a b]|]; simpl; [|done].
      intros [= _ <-]. cbn [all_chars]. intros [_ Hs]%andb_prop.
      by eapply IH.
Qed.

Lemma all_chars_take (P : ascii -> bool) (n : nat) (s : string) :
  all_chars P s = true -> all_chars P (take n s) = true.
Proof.
  destruct (take_prefix n s) as [r Hr]. rewrite Hr at 1.
  rewrite all_chars_app. by intros [? _]%andb_prop.
Qed.

Lemma length_append (a b : string) :
  String.length (a +:+ b) = (String.length a + String.length b)%nat.
Proof. induction a as [|c a IH]; [done|]. simpl. by rewrite IH. Qed.

Lemma slice_to_spec (P : ascii -> bool) (n : Z) (s : string) :
  0 <= n ->
  (all_chars P s = true -> all_chars P (slice_to n s) = true)
  ∧ Z.of_nat (String.length (slice_to n s)) <= n.
Proof.
  intros Hn. unfold slice_to.
  destruct (n <? 0) eqn:Hneg; [lia|]. split; [apply all_chars_take|].
  unfold take. pose proof (length_substring_le 0 (Z.to_nat n) s). lia.
Qed.

End Labels.

(** X27. A sanitised label holds none of the
    characters that break a chart and neither starts nor ends with
    whitespace; sanitising it again changes nothing. *)
Theorem sanitized_label_is_chart_safe (text : string) :
  Spec.chart_safe (ReadmeGen._sanitize_mermaid_label text)
  ∧ Pages.strip (ReadmeGen._sanitize_mermaid_label text)
    = ReadmeGen._sanitize_mermaid_label text
  ∧ ReadmeGen._sanitize_mermaid_label (ReadmeGen._sanitize_mermaid_label text)
    = ReadmeGen._sanitize_mermaid_label text.
Proof.
  pose proof (_sanitize_mermaid_label_safe text) as Hsafe.
  assert (Pages.strip (ReadmeGen._sanitize_mermaid_label text)
          = ReadmeGen._sanitize_mermaid_label text) as Hstrip.
  { unfold ReadmeGen._sanitize_mermaid_label. apply strip_idemp. }
  split; [done|]. split; [done|].
  unfold ReadmeGen._sanitize_mermaid_label at 1.
  unfold Text.DQ.
  repeat match goal with
  | |- context [Text.replace (String ?c EmptyString) ?new
                  (ReadmeGen._sanitize_mermaid_label text)] =>
      rewrite (replace_char_absent c new
                 (ReadmeGen._sanitize_mermaid_label text))
        by (apply chart_safe_not_char;
            [unfold Spec.mermaid_chars; repeat constructor|done])
  end.
  done.
Qed.

(** X28. A label truncated to at least two characters
    is no longer than asked, and holds none of the characters that break
    a chart. *)
Theorem truncated_label_fits (text : string) (max_len : Z) :
  2 <= max_len ->
  Z.of_nat (String.length (ReadmeGen._truncate_label text max_len)) <= max_len
  ∧ Spec.chart_safe (ReadmeGen._truncate_label text max_len).
Proof.
  intros Hmax. unfold ReadmeGen._truncate_label.
  pose proof (_sanitize_mermaid_label_safe text) as Hsafe.
  set (label := match Text.find_sub " - " _ with
                | Some (_, rest) => rest
                | None => ReadmeGen._sanitize_mermaid_label text
                end).
  assert (Spec.chart_safe label) as Hlabel.
  { subst label.
    destruct (Text.find_sub _ _) as [[before rest]|] eqn:Hfind; [|done].
    by eapply find_sub_all_chars. }
  destruct (max_len <? _) eqn:Hlong; [|split; [lia|done]].
  destruct (slice_to_spec (Spec.avoids Spec.mermaid_chars) (max_len - 2)
              label) as [Hchars Hlen]; [lia|].
  split.
  - rewrite length_append. simpl. lia.
  - unfold Spec.chart_safe. rewrite all_chars_app, Hchars by done. done.
Qed.

Lemma truncated_label_fits_witness :
  ReadmeGen._truncate_label "Anthropic: Claude 3.5 Sonnet (self-moderated)" 20
  = "Claude 3.5 Sonnet .."
  ∧ Spec.chart_safe
      (ReadmeGen._truncate_label
         "Anthropic: Claude 3.5 Sonnet (self-moderated)" 20).
Proof.
  split; [reflexivity|].
  apply (truncated_label_fits
           "Anthropic: Claude 3.5 Sonnet (self-moderated)" 20).
  lia.
Defined.

Section TextDates.
Import Scraper Spec.

Variable strptime : string -> option Z.
Variable strftime : Z -> string.

(** The accumulation loop on date strings adds the window sum to its
    accumulator. *)
Lemma foldl_add_day_text (text_data : gmap string DailyRecord)
    (dates : list string) (acc : Activity) :
  foldl (Pages.add_day text_data) acc dates
  = {| prompt_tokens :=
         prompt_tokens acc + text_field_sum prompt text_data dates;
       completion_tokens :=
         completion_tokens acc + text_field_sum completion text_data dates;
       reasoning_tokens :=
         reasoning_tokens acc + text_field_sum reasoning text_data dates;
       cached_tokens :=
         cached_tokens acc + text_field_sum cached text_data dates;
       request_count :=
         request_count acc + text_field_sum count text_data dates |}.
Proof.
  revert acc. induction dates as [|d dates IH]; intros acc; simpl.
  - destruct acc; simpl; f_equal; lia.
  - rewrite IH. unfold Pages.add_day.
    destruct (text_data !! d) as [day|]; simpl; f_equal; lia.
Qed.

Lemma foldl_add_day_text_zero (text_data : gmap string DailyRecord)
    (dates : list string) :
  foldl (Pages.add_day text_data) zero_activity dates
  = text_window_sum text_data dates.
Proof. rewrite foldl_add_day_text. reflexivity. Qed.

(** The loop over the candidates returns exactly when every candidate is
    a day of the calendar, and keeps the date strings other than
    today's, or all of them without the partial-day rule. *)
Lemma candidate_dates_spec (D : Z) (today : string) (skip_partial : bool)
    (range : list Z) (dates : list string) :
  Pages.candidate_dates strftime D today skip_partial range = Some dates
  ↔ Forall (fun i => in_calendar (D - i)) range
    ∧ dates = filter (kept skip_partial today)
                     (strftime <$> ((fun i => D - i) <$> range)).
Proof.
  revert dates. induction range as [|i range IH]; intros dates.
  - cbn [Pages.candidate_dates fmap list_fmap]. rewrite filter_nil. split.
    + intros [= <-]. by split.
    + by intros [_ ->].
  - cbn [Pages.candidate_dates]. unfold Pages.minus_days at 1.
    rewrite Forall_cons, !fmap_cons.
    case_bool_decide as Hrange; simpl.
    + destruct (Pages.candidate_dates strftime D today skip_partial range)
        as [dates'|] eqn:Hrest; simpl.
      * destruct (proj1 (IH dates') eq_refl) as [Hall ->].
        destruct (skip_partial && bool_decide (strftime (D - i) = today))
          eqn:Hskip.
        -- rewrite filter_cons_False
             by (unfold kept; rewrite Hskip; done).
           split; [intros [= <-]; split; [split; [exact Hrange|exact Hall]|reflexivity]|by intros [_ ->]].
        -- rewrite filter_cons_True by done.
           split; [intros [= <-]; split; [split; [exact Hrange|exact Hall]|reflexivity]|by intros [_ ->]].
      * split; [done|]. intros [[_ Hall] ->].
        assert (None = Some (filter (kept skip_partial today)
                  (strftime <$> ((fun i => D - i) <$> range)))) as Habs;
          [|done].
        by apply IH.
    + split; [done|]. by intros [[? _] _].
Qed.

(** On days that the two conversions take to their date strings and
    back, two days with one date string are one day. *)
Lemma strftime_inj_on (l : list Z) (d1 d2 : Z) :
  Forall (fun d => strptime (strftime d) = Some d) l ->
  d1 ∈ l -> d2 ∈ l -> strftime d1 = strftime d2 -> d1 = d2.
Proof.
  rewrite Forall_forall. intros Hl H1 H2 Heq.
  pose proof (Hl d1 H1) as Hd1. rewrite Heq, (Hl d2 H2) in Hd1.
  by injection Hd1.
Qed.

Lemma NoDup_strftime (l : list Z) :
  Forall (fun d => strptime (strftime d) = Some d) l ->
  NoDup l -> NoDup (strftime <$> l).
Proof.
  intros Hl Hnodup. induction Hnodup as [|d l Hd Hnodup IH]; [constructor|].
  rewrite fmap_cons. constructor.
  - intros (d' & Heq & Hd')%list_elem_of_fmap.
    apply Hd.
    replace d with d'; [done|]. symmetry.
    eapply (strftime_inj_on (d :: l)); [done|by left|by right|done].
  - apply IH. by apply Forall_cons in Hl as [_ ?].
Qed.

End TextDates.

Section TextWindowSum.
Import Scraper Spec.

Variable strptime : string -> option Z.
Variable strftime : Z -> string.

(** The dates summed without the partial-day rule. *)
Lemma dates_to_sum_text_all (end_date : string) (D days now : Z) :
  strptime end_date = Some D ->
  Forall in_calendar (days_back D 0 days) ->
  Pages.dates_to_sum strptime strftime end_date days false now
  = Some (strftime <$> days_back D 0 days).
Proof.
  intros Hend Hrange. unfold Pages.dates_to_sum.
  rewrite Hend. cbn [mbind option_bind].
  rewrite (proj2 (candidate_dates_spec strftime D _ false (seqZ 0 days)
                    (strftime <$> days_back D 0 days))).
  - done.
  - split.
    + unfold days_back in Hrange. by rewrite Forall_fmap in Hrange.
    + rewrite filter_all; [done|]. by apply Forall_forall.
Qed.

(** The dates summed with the rule when the clock reads the end date
    and the end date is spelled as [strftime] spells it. *)
Lemma dates_to_sum_text_today (D days : Z) :
  Forall in_calendar (days_back D 0 (days + 1)) ->
  Forall (fun d => strptime (strftime d) = Some d) (days_back D 0 days) ->
  strptime (strftime D) = Some D ->
  Pages.dates_to_sum strptime strftime (strftime D) days true D
  = Some (strftime <$> days_back D 1 days).
Proof.
  intros Hrange Htrip Hend. unfold Pages.dates_to_sum, utcnow.
  rewrite Hend. cbn [mbind option_bind].
  destruct (decide (days <= 0)) as [Hnone|Hdays].
  { unfold seqZ. replace (Z.to_nat days) with 0%nat by lia.
    cbn [seq fmap list_fmap Pages.candidate_dates mbind option_bind length].
    rewrite (bool_decide_eq_false_2 (Z.of_nat 0 < days)) by lia.
    rewrite andb_false_r. by rewrite days_back_nil by lia. }
  assert (Forall in_calendar (days_back D 0 days) ∧ in_calendar (D - days))
    as [Hrange' Hextra].
  { rewrite (days_back_snoc D 0 (days + 1)) in Hrange by lia.
    apply Forall_app in Hrange as [Hr He].
    replace (days + 1 - 1) with days in * by lia.
    split; [done|]. rewrite Forall_singleton in He.
    by replace (D - (0 + (days + 1) - 1)) with (D - days) in He by lia. }
  rewrite (proj2 (candidate_dates_spec strftime D _ true (seqZ 0 days)
                    (strftime <$> days_back D 1 (days - 1)))).
  - cbn [mbind option_bind].
    rewrite bool_decide_eq_true_2 by done.
    rewrite length_fmap, length_days_back.
    rewrite bool_decide_eq_true_2 by lia. cbn [andb].
    unfold Pages.minus_days. rewrite bool_decide_eq_true_2 by done.
    cbn [fmap option_fmap option_map mbind option_bind].
    rewrite (days_back_snoc D 1 days) by lia.
    rewrite fmap_app. replace (D - (1 + days - 1)) with (D - days) by lia.
    reflexivity.
  - split.
    + unfold days_back in Hrange'. by rewrite Forall_fmap in Hrange'.
    + fold (days_back D 0 days).
      rewrite (days_back_cons D 0 days) by lia.
      rewrite fmap_cons, filter_cons_False.
      2:{ unfold kept. replace (D - 0) with D by lia.
          rewrite bool_decide_eq_true_2 by done. done. }
      replace (0 + 1) with 1 by lia.
      rewrite filter_all; [done|].
      apply Forall_forall. intros s (d & -> & Hd)%list_elem_of_fmap.
      unfold kept. rewrite bool_decide_eq_false_2; [done|].
      intros Heq.
      assert (d = D); [|apply elem_of_days_back in Hd; lia].
      rewrite Forall_forall in Htrip.
      pose proof (Htrip d) as Hd'.
      rewrite Heq, Hend in Hd'.
      symmetry. apply (inj Some). apply Hd'.
      apply elem_of_days_back. apply elem_of_days_back in Hd. lia.
Qed.

End TextWindowSum.

(** C2, amended. On a history keyed by date strings, as the extractor
    returns it, and an end date that [strptime] reads as the day [D]:
    without the partial-day rule, when the days [D, D-1, ..., D-(days-1)]
    are days of the calendar, the window sum raises nothing and is the
    field-wise sum over the date strings of these days; with the rule
    and the clock reading [D], when the end date is spelled as [strftime]
    spells it, [D - days] is a day of the calendar too and [strptime]
    reads back what [strftime] writes for the days of the window, it is
    the sum over the date strings of [D-1, ..., D-days]. *)
Theorem sum_daily_window_sums_the_window
    (strptime : string -> option Z) (strftime : Z -> string)
    (text_data : gmap string Scraper.DailyRecord)
    (end_date : string) (D days now : Z) :
  strptime end_date = Some D ->
  (Forall Spec.in_calendar (Spec.days_back D 0 days) ->
   Pages.sum_daily_window strptime strftime text_data end_date days false now
   = Some (Spec.text_window_sum text_data
             (strftime <$> Spec.days_back D 0 days)))
  ∧ (strftime D = end_date ->
     Forall Spec.in_calendar (Spec.days_back D 0 (days + 1)) ->
     Forall (fun d => strptime (strftime d) = Some d)
            (Spec.days_back D 0 days) ->
     Pages.sum_daily_window strptime strftime text_data end_date days true D
     = Some (Spec.text_window_sum text_data
               (strftime <$> Spec.days_back D 1 days))).
Proof.
  intros Hend. unfold Pages.sum_daily_window. split.
  - intros Hrange.
    rewrite (dates_to_sum_text_all strptime strftime end_date D) by done.
    cbn [mbind option_bind]. by rewrite foldl_add_day_text_zero.
  - intros <- Hrange Htrip.
    rewrite dates_to_sum_text_today by done.
    cbn [mbind option_bind]. by rewrite foldl_add_day_text_zero.
Qed.

(** The days of a concrete list, one by one. *)
Ltac each_day :=
  match goal with
  | |- Forall _ ?w =>
      let l := eval vm_compute in w in
      change w with l;
      repeat (constructor; [first [vm_compute; reflexivity
                                  |unfold Spec.in_calendar; lia]|]);
      constructor
  end.

Lemma sum_daily_window_sums_the_window_witness :
  Pages.sum_daily_window Calendar.strptime Calendar.strftime ten_dated_days
    "2025-01-14" 7 false 739265
  = Some (Spec.text_window_sum ten_dated_days
            (Calendar.strftime <$> Spec.days_back 739265 0 7))
  ∧ Pages.sum_daily_window Calendar.strptime Calendar.strftime ten_dated_days
      "2025-01-14" 7 true 739265
    = Some (Spec.text_window_sum ten_dated_days
              (Calendar.strftime <$> Spec.days_back 739265 1 7)).
Proof.
  destruct (sum_daily_window_sums_the_window Calendar.strptime
              Calendar.strftime ten_dated_days "2025-01-14" 739265 7 739265)
    as [Hall Htoday]; [vm_compute; reflexivity|].
  split.
  - apply Hall. each_day.
  - apply Htoday; [vm_compute; reflexivity|each_day|each_day].
Defined.

(** C2, as stated, fails in two ways.  An end date that names today
    without zero padding is read by [strptime] and dropped by the
    partial-day rule, but it is not the string [strftime] writes for
    today, so no earlier day is added: days 4 to 9 are summed, 39 prompt
    tokens, where the days [D-7, ..., D-1] hold 42.  And for an end date
    in the first days of the calendar the subtraction of a day raises. *)
Lemma sum_daily_window_unpadded_or_early_end_date :
  (Calendar.strptime "2025-1-14" = Some 739265
   ∧ Calendar.strftime 739265 = "2025-01-14"
   ∧ Scraper.prompt_tokens
       <$> Pages.sum_daily_window Calendar.strptime Calendar.strftime
             ten_dated_days "2025-1-14" 7 true 739265
     = Some 39
   ∧ Scraper.prompt_tokens
       (Spec.text_window_sum ten_dated_days
          (Calendar.strftime <$> Spec.days_back 739265 1 7)) = 42)
  ∧ (Calendar.strptime "0001-01-03" = Some 3
     ∧ Pages.sum_daily_window Calendar.strptime Calendar.strftime
         ten_dated_days "0001-01-03" 7 false 739265 = None).
Proof. vm_compute. repeat split; reflexivity. Qed.

(** X11. Whenever the window sum
    gets as far as adding up, whatever the clock reads, the date strings
    it adds up are at most [days] many and each is written by [strftime]
    for a day of the calendar between [D - days] and [D]; when
    [strptime] reads back what [strftime] writes for these days, the
    date strings are pairwise distinct and, with the partial-day rule
    on, today's is never among them; and a window of no days sums to
    zero. *)
Theorem window_dates_are_distinct_and_bounded
    (strptime : string -> option Z) (strftime : Z -> string)
    (text_data : gmap string Scraper.DailyRecord)
    (end_date : string) (D days now : Z) (skip_partial : bool)
    (dates : list string) :
  strptime end_date = Some D ->
  Pages.dates_to_sum strptime strftime end_date days skip_partial now
  = Some dates ->
  (length dates <= Z.to_nat days)%nat
  ∧ Forall (fun s => ∃ d, D - days <= d <= D ∧ Spec.in_calendar d
                          ∧ s = strftime d) dates
  ∧ (Forall (fun d => strptime (strftime d) = Some d)
            (Spec.days_back D 0 (days + 1)) ->
     NoDup dates ∧ (skip_partial = true -> strftime now ∉ dates))
  ∧ (days <= 0 ->
     Pages.sum_daily_window strptime strftime text_data end_date days
       skip_partial now = Some Scraper.zero_activity).
Proof.
  intros Hend Hrun.
  assert (days <= 0 -> dates = []) as Hnone.
  { intros Hdays. revert Hrun. unfold Pages.dates_to_sum.
    rewrite Hend. cbn [mbind option_bind].
    unfold seqZ. replace (Z.to_nat days) with 0%nat by lia.
    cbn [seq fmap list_fmap Pages.candidate_dates mbind option_bind length].
    rewrite (bool_decide_eq_false_2 (Z.of_nat 0 < days)) by lia.
    rewrite andb_false_r. by intros [= <-]. }
  assert (days <= 0 ->
          Pages.sum_daily_window strptime strftime text_data end_date days
            skip_partial now = Some Scraper.zero_activity) as Hzero.
  { intros Hdays. unfold Pages.sum_daily_window.
    rewrite Hrun, (Hnone Hdays). done. }
  destruct (decide (days <= 0)) as [Hdays|Hdays].
  { rewrite (Hnone Hdays). split; [simpl; lia|]. split; [constructor|].
    split; [|done]. intros _. split; [constructor|].
    intros _ Hin. by apply elem_of_nil in Hin. }
  revert Hrun. unfold Pages.dates_to_sum, Scraper.utcnow.
  rewrite Hend. cbn [mbind option_bind].
  destruct (Pages.candidate_dates strftime D (strftime now) skip_partial
              (seqZ 0 days)) as [candidates|] eqn:Hloop;
    cbn [mbind option_bind]; [|done].
  apply candidate_dates_spec in Hloop as [Hrange ->].
  fold (Spec.days_back D 0 days).
  set (today := strftime now).
  set (candidates := filter (Spec.kept skip_partial today)
                            (strftime <$> Spec.days_back D 0 days)).
  assert (length candidates <= Z.to_nat days)%nat as Hlen.
  { subst candidates. etransitivity; [apply length_filter|].
    by rewrite length_fmap, length_days_back. }
  assert (Forall (fun s => ∃ d, D - days <= d <= D ∧ Spec.in_calendar d
                                ∧ s = strftime d) candidates) as Hcand.
  { subst candidates. apply Forall_forall.
    intros s [_ (d & -> & Hd)%list_elem_of_fmap]%list_elem_of_filter.
    exists d. split; [apply elem_of_days_back in Hd; lia|]. split; [|done].
    unfold Spec.days_back in Hd.
    apply list_elem_of_fmap in Hd as (i & -> & Hi).
    rewrite Forall_forall in Hrange. by apply Hrange. }
  assert (Forall (fun d => strptime (strftime d) = Some d)
                 (Spec.days_back D 0 (days + 1)) ->
          NoDup candidates
          ∧ (skip_partial = true -> today ∉ candidates)
          ∧ (strftime (D - days) ∉ candidates)
          ∧ strftime (D - days) ≠ end_date) as Htrip.
  { intros Htrip.
    pose proof Htrip as Htrip'.
    rewrite (days_back_snoc D 0 (days + 1)) in Htrip' by lia.
    replace (days + 1 - 1) with days in Htrip' by lia.
    apply Forall_app in Htrip' as [Htrip' _].
    split; [|split; [|split]].
    - subst candidates. apply NoDup_filter.
      apply (NoDup_strftime strptime); [done|apply NoDup_days_back].
    - intros ->. subst candidates.
      intros [Hkept _]%list_elem_of_filter. revert Hkept.
      unfold Spec.kept. by rewrite bool_decide_eq_true_2.
    - subst candidates.
      intros [_ (d & Heq & Hd)%list_elem_of_fmap]%list_elem_of_filter.
      assert (D - days = d); [|apply elem_of_days_back in Hd; lia].
      apply (strftime_inj_on strptime strftime
               (Spec.days_back D 0 (days + 1))); [done| |  |done].
      + apply elem_of_days_back. lia.
      + apply elem_of_days_back. apply elem_of_days_back in Hd. lia.
    - intros Heq. rewrite Forall_forall in Htrip.
      pose proof (Htrip (D - days)) as Hd.
      rewrite Heq, Hend in Hd.
      assert (Some D = Some (D - days)) as [= ?]; [|lia].
      apply Hd. apply elem_of_days_back. lia. }
  destruct (skip_partial && bool_decide (end_date = today)
            && bool_decide (Z.of_nat (length candidates) < days)) eqn:Hextra.
  - apply andb_prop in Hextra as [[Hskip Htoday]%andb_prop Hlt].
    apply bool_decide_eq_true in Htoday, Hlt.
    unfold Pages.minus_days. case_bool_decide as Hcal; simpl; [|done].
    intros [= <-]. split; [rewrite length_app; simpl; lia|]. split.
    { apply Forall_app. split; [done|]. apply Forall_singleton.
      exists (D - days). split; [lia|done]. }
    split; [|done]. intros Hall.
    destruct (Htrip Hall) as (Hnodup & Hnow & Hfresh & Hne).
    split.
    + apply NoDup_app. split; [done|]. split; [|apply NoDup_singleton].
      intros s Hs ->%list_elem_of_singleton. done.
    + intros Hon [Hin|Hin%list_elem_of_singleton]%elem_of_app.
      * by apply Hnow.
      * apply Hne. by rewrite Htoday.
  - intros [= <-]. split; [done|]. split; [done|]. split; [|done].
    intros Hall. destruct (Htrip Hall) as (Hnodup & Hnow & _). done.
Qed.

Lemma window_dates_are_distinct_and_bounded_witness :
  NoDup ["2025-01-13"; "2025-01-12"; "2025-01-11"; "2025-01-10";
         "2025-01-09"; "2025-01-08"; "2025-01-07"]
  ∧ "2025-01-14" ∉ ["2025-01-13"; "2025-01-12"; "2025-01-11"; "2025-01-10";
                    "2025-01-09"; "2025-01-08"; "2025-01-07"].
Proof.
  destruct (window_dates_are_distinct_and_bounded Calendar.strptime
              Calendar.strftime ∅ "2025-01-14" 739265 7 739265 true
              ["2025-01-13"; "2025-01-12"; "2025-01-11"; "2025-01-10";
               "2025-01-09"; "2025-01-08"; "2025-01-07"])
    as (_ & _ & Hdistinct & _).
  - vm_compute. reflexivity.
  - vm_compute. reflexivity.
  - destruct Hdistinct as [Hnodup Hnow]; [each_day|].
    split; [exact Hnodup|]. exact (Hnow eq_refl).
Defined.
